(** * Auto-open extensions: a shallow embedding and its verified properties

    The repository holds two editor extensions that decide, per file-system
    or document notification, whether a changed file should be brought into
    view:

    - [OpenChangedFiles]  embeds [extension.js] (classifier, debounce cache,
      batch detector, visibility check, one delayed decision per event);
    - [CursorAutoOpen]    embeds [src/extension.ts] (classifier with
      disallowed names, package-manager suppression with a cooldown timer,
      debounce map, the [openFile] ladder and the four event handlers).

    JavaScript runs one callback at a time; a callback yields only at an
    [await].  Both embeddings therefore split every handler at its [await]s:
    the code between two suspension points is one atomic transition on the
    module-level variables, and the host (clock, visible editors, open
    documents, promise results) is an input of each transition. *)

From Stdlib Require Import ZArith Ascii String List Bool Lia.
From stdpp Require Import base decidable option list gmap strings fin_maps.

#[local] Open Scope string_scope.
#[local] Open Scope list_scope.
#[local] Open Scope Z_scope.

(** ** JavaScript strings (ASCII fragment) *)

Module JsString.

(** One code unit of [String.prototype.toLowerCase], on ASCII letters. *)
Definition lowerChar (c : ascii) : ascii :=
  let n := N_of_ascii c in
  if ((65 <=? n) && (n <=? 90))%N then ascii_of_N (n + 32) else c.

Fixpoint toLowerCase (s : string) : string :=
  match s with
  | EmptyString => EmptyString
  | String c r => String (lowerChar c) (toLowerCase r)
  end.

(** [s.split(sep)] for a one-character separator; never the empty list. *)
Fixpoint split (sep : ascii) (s : string) : list string :=
  match s with
  | EmptyString => [EmptyString]
  | String c r =>
      if Ascii.eqb c sep then EmptyString :: split sep r
      else match split sep r with
           | h :: t => String c h :: t
           | [] => [String c EmptyString]
           end
  end.

(** [s.startsWith(p)] *)
Definition startsWith (s p : string) : bool := String.prefix p s.

(** [s.includes(needle)] *)
Fixpoint includes (s needle : string) : bool :=
  String.prefix needle s
  || match s with
     | EmptyString => false
     | String _ r => includes r needle
     end.

(** [s.endsWith(suffix)]: some tail of [s] is [suffix]. *)
Fixpoint endsWith (s suffix : string) : bool :=
  String.eqb s suffix
  || match s with
     | EmptyString => false
     | String _ r => endsWith r suffix
     end.

(** Two strings are equal up to (ASCII) letter case. *)
Definition eq_ignoring_case (a b : string) : Prop :=
  toLowerCase a = toLowerCase b.

End JsString.

(** ** The host: what the editor and Node provide

    [vscode.Uri] is reduced to the two fields the code reads. *)

Record Uri := { scheme : string; fsPath : string }.

Definition fileUri (p : string) : Uri := {| scheme := "file"; fsPath := p |}.

(** Library functions whose code is not part of the repository are taken as
    parameters: Node's [path.sep], [path.basename], [path.extname] and the
    editor's [vscode.workspace.asRelativePath(uri, false)]. *)
Class Host := {
  path_sep : ascii;
  path_basename : string -> string;
  path_extname : string -> string;
  asRelativePath : Uri -> string
}.

(** A concrete host for the examples: POSIX paths without trailing
    separators, workspace root [/w]. *)
Module Posix.

Definition lastSegment (p : string) : string :=
  List.last (JsString.split "/"%char p) EmptyString.

(** The suffix of [s] that starts at its last dot. *)
Fixpoint fromLastDot (s : string) : option string :=
  match s with
  | EmptyString => None
  | String c r =>
      match fromLastDot r with
      | Some e => Some e
      | None => if Ascii.eqb c "."%char then Some s else None
      end
  end.

(** [path.posix.extname] for a path without trailing separators: the text
    of the base name from its last dot on, unless there is no dot, the last
    dot is the first character, or the name is [..]. *)
Definition extname (p : string) : string :=
  match lastSegment p with
  | EmptyString => EmptyString
  | String c r as b =>
      if String.eqb b ".." then EmptyString
      else match fromLastDot r with
           | Some e => e
           | None => EmptyString
           end
  end.

Definition relativeTo (root : string) (u : Uri) : string :=
  let pre := root +:+ "/" in
  if String.prefix pre (fsPath u)
  then String.substring (String.length pre)
         (String.length (fsPath u) - String.length pre) (fsPath u)
  else fsPath u.

Definition host : Host :=
  {| path_sep := "/"%char;
     path_basename := lastSegment;
     path_extname := extname;
     asRelativePath := relativeTo "/w" |}.

End Posix.

(** Requests a handler issues to the host.  The last three are the ones that
    bring a document into view. *)
Inductive HostCall :=
| FsAccess (p : string)                (* fs.promises.access(p) *)
| FsStat (p : string)                  (* fs.promises.stat(p) / fs.statSync(p) *)
| OpenTextDocument (u : Uri)           (* vscode.workspace.openTextDocument(uri) *)
| ShowTextDocument (u : Uri)           (* vscode.window.showTextDocument(doc or uri) *)
| ExecuteOpen (u : Uri).               (* vscode.commands.executeCommand('vscode.open', uri) *)

Definition isOpenAction (c : HostCall) : bool :=
  match c with
  | FsAccess _ | FsStat _ => false
  | OpenTextDocument _ | ShowTextDocument _ | ExecuteOpen _ => true
  end.

(** The editor state a callback can read while it runs. *)
Record Env := {
  now : Z;                             (* Date.now() *)
  textDocuments : list Uri;            (* vscode.workspace.textDocuments *)
  visibleTextEditors : list Uri        (* editor.document.uri of each visible editor *)
}.

(** How an awaited promise settles.  [size] is [stats.size] when the awaited
    call is [stat]; [message] is [error?.message || String(error)]. *)
Inductive Reply :=
| Resolved (size : Z)
| Rejected (message : string).

(** [visibleEditors.some(editor => editor.document.uri.fsPath === filePath)] *)
Definition someEditorShows (editors : list Uri) (filePath : string) : bool :=
  existsb (fun e => String.eqb (fsPath e) filePath) editors.

(** [stats.size / (1024 * 1024) > 50]; the division by a power of two is
    exact, so the test is a comparison of byte counts. *)
Definition overFiftyMB (size : Z) : bool := 50 * (1024 * 1024) <? size.

(** ** extension.js: "Open Changed Files" *)

Module OpenChangedFiles.

Section Extension.

Context `{Host}.

(** [config.get('autoOpen')], read once at activation, as a truth value. *)
Variable autoOpen : bool.

Definition IGNORED_DIRS : gset string :=
  list_to_set
    [ "node_modules"; "vendor"; ".git"; ".svn"; ".hg";
      ".cursor"; ".vscode"; "build"; "dist"; "out";
      ".next"; ".nuxt"; ".cache"; "coverage"; ".nyc_output" ].

Definition ALLOWED_EXTS : gset string :=
  list_to_set
    [ ".js"; ".jsx"; ".ts"; ".tsx";
      ".mjs"; ".cjs"; ".cts"; ".mts";
      ".php"; ".phtml"; ".py"; ".rb"; ".go"; ".java"; ".cs"; ".kt"; ".kts"; ".rs";
      ".cpp"; ".cxx"; ".cc"; ".c"; ".h"; ".hpp"; ".hh";
      ".vue"; ".svelte"; ".astro"; ".mdx";
      ".html"; ".htm"; ".css"; ".scss"; ".sass"; ".less";
      ".json"; ".yml"; ".yaml"; ".xml"; ".md"; ".sql"; ".sh"; ".ps1"; ".bat" ].

Definition CHECK_CACHE_TTL : Z := 1000.
Definition BATCH_DETECTION_WINDOW : Z := 500.

(** The two [Map]s of [activate]: path -> [Date.now()] of the last
    accepted event. *)
Record Store := {
  recentChecks : gmap string Z;
  recentFileChanges : gmap string Z
}.

Definition emptyStore : Store :=
  {| recentChecks := ∅; recentFileChanges := ∅ |}.

Definition shouldIgnorePath (fsPath : string) : bool :=
  existsb
    (fun segment => bool_decide (JsString.toLowerCase segment ∈ IGNORED_DIRS))
    (JsString.split path_sep fsPath).

Definition shouldOpenFile (fsPath : string) : bool :=
  if shouldIgnorePath fsPath then false
  else
    let ext := JsString.toLowerCase (path_extname fsPath) in
    if bool_decide (ext ∈ ALLOWED_EXTS) then true else false.

Definition isFileOpenByUser (openEditors : list Uri) (fsPath : string) : bool :=
  someEditorShows openEditors fsPath.

Definition isLikelyBatchOperation (now : Z) (changes : gmap string Z) : bool :=
  let recentChanges :=
    filter (fun timestamp => now - timestamp < BATCH_DETECTION_WINDOW)
           (map snd (map_to_list changes)) in
  bool_decide (3 <= length recentChanges)%nat.

(** [lastCheck && (now - lastCheck) < CHECK_CACHE_TTL]: a missing entry is
    [undefined] and a stored [0] is falsy as well. *)
Definition checkedRecently (lastCheck : option Z) (now : Z) : bool :=
  match lastCheck with
  | Some t => negb (t =? 0) && (now - t <? CHECK_CACHE_TTL)
  | None => false
  end.

(** [if (m.size > limit) for (const [key, value] of m.entries())
      if (value < cutoff) m.delete(key)] *)
Definition cleanOld (limit : nat) (cutoff : Z) (m : gmap string Z) : gmap string Z :=
  if bool_decide (limit < size m)%nat
  then filter (fun kv => ¬ (kv.2 < cutoff)) m
  else m.

Inductive Skip := NotEligible | Duplicate | OpenByUser.

(** How the synchronous part of [handleFileChange] ends: at one of its
    three early [return]s, or at the [await] of the batch window. *)
Inductive Entered :=
| Skipped (why : Skip)
| Suspended (delay : Z).

(** [handleFileChange], up to [await new Promise(... BATCH_DETECTION_WINDOW)]. *)
Definition handleFileChange (env : Env) (uri : Uri) (st : Store) : Store * Entered :=
  if negb autoOpen || negb (shouldOpenFile (fsPath uri)) then (st, Skipped NotEligible)
  else
    let now := now env in
    let lastCheck := recentChecks st !! fsPath uri in
    if checkedRecently lastCheck now then (st, Skipped Duplicate)
    else
      let checks := <[fsPath uri := now]> (recentChecks st) in
      let changes := <[fsPath uri := now]> (recentFileChanges st) in
      let checks := cleanOld 100 (now - CHECK_CACHE_TTL * 10) checks in
      let changes := cleanOld 50 (now - BATCH_DETECTION_WINDOW * 2) changes in
      let st' := {| recentChecks := checks; recentFileChanges := changes |} in
      if isFileOpenByUser (visibleTextEditors env) (fsPath uri)
      then (st', Skipped OpenByUser)
      else (st', Suspended BATCH_DETECTION_WINDOW).

(** [handleFileChange], from the end of the wait on.  [stat] is the result
    of [fs.statSync] ([Rejected]: it throws), [opened] the outcome of
    [openTextDocument]; both errors are caught and logged. *)
Definition handleFileChange_resume (env : Env) (stat opened : Reply)
    (uri : Uri) (st : Store) : list HostCall :=
  let isBatch := isLikelyBatchOperation (now env) (recentFileChanges st) in
  if isBatch then []
  else
    FsStat (fsPath uri) ::
    match stat with
    | Rejected _ => []
    | Resolved size =>
        if overFiftyMB size then []
        else
          OpenTextDocument uri ::
          match opened with
          | Resolved _ => [ShowTextDocument uri]
          | Rejected _ => []
          end
    end.

(** *** The event loop

    [sleeping] holds the suspended [handleFileChange] calls with the
    earliest time their timer may fire; [clock] is the last [Date.now()]
    seen. *)
Record Config := {
  store : Store;
  sleeping : list (Uri * Z);
  clock : Z
}.

Definition initial (t0 : Z) : Config :=
  {| store := emptyStore; sleeping := []; clock := t0 |}.

Inductive Input :=
| Notified (uri : Uri)                    (* watcher.onDidChange / onDidCreate *)
| Woke (i : nat) (stat opened : Reply).   (* the timer of sleeper [i] fires *)

Definition step (c : Config) (env : Env) (i : Input)
  : option (Config * list HostCall) :=
  if bool_decide (now env < clock c) then None
  else
    match i with
    | Notified uri =>
        let '(st', r) := handleFileChange env uri (store c) in
        let sleepers :=
          match r with
          | Skipped _ => sleeping c
          | Suspended d => sleeping c ++ [(uri, now env + d)]
          end in
        Some ({| store := st'; sleeping := sleepers; clock := now env |}, [])
    | Woke k stat opened =>
        match sleeping c !! k with
        | None => None
        | Some (uri, due) =>
            if bool_decide (now env < due) then None
            else
              Some ({| store := store c;
                       sleeping := delete k (sleeping c);
                       clock := now env |},
                    handleFileChange_resume env stat opened uri (store c))
        end
    end.

Fixpoint run (c : Config) (tr : list (Env * Input))
  : option (Config * list HostCall) :=
  match tr with
  | [] => Some (c, [])
  | (env, i) :: tr' =>
      match step c env i with
      | None => None
      | Some (c', calls) =>
          match run c' tr' with
          | None => None
          | Some (c'', calls') => Some (c'', calls ++ calls')
          end
      end
  end.

(** The event went past the debounce cache. *)
Definition passedDebounce (r : Entered) : bool :=
  match r with
  | Skipped NotEligible | Skipped Duplicate => false
  | Skipped OpenByUser | Suspended _ => true
  end.

(** Every notification of the trace is for path [p]. *)
Definition onlyPath (p : string) (tr : list (Env * Input)) : bool :=
  forallb
    (fun x => match snd x with
              | Notified uri => String.eqb (fsPath uri) p
              | Woke _ _ _ => true
              end) tr.

End Extension.

End OpenChangedFiles.

(** ** src/extension.ts: "Cursor Auto-Open" *)

Module CursorAutoOpen.

Section Extension.

Context `{Host}.

Definition ALLOWED_EXTENSIONS : list string :=
  [ ".php"; ".ts"; ".js"; ".jsx"; ".tsx"; ".vue";
    ".py"; ".rb"; ".go"; ".cs"; ".rs"; ".c"; ".cpp";
    ".css"; ".json";
    ".md"; ".mdx"; ".mdc" ].

(** The two shapes of regular expression in [DISALLOWED_PATTERNS]:
    [/^name$/] and [/suffix$/] (dots escaped, no flags). *)
Inductive RegExp :=
| Whole (name : string)
| Ending (suffix : string).

Definition test (pattern : RegExp) (s : string) : bool :=
  match pattern with
  | Whole name => String.eqb s name
  | Ending suffix => JsString.endsWith s suffix
  end.

Definition DISALLOWED_PATTERNS : list RegExp :=
  [ Whole "yarn.lock";
    Whole "package-lock.json";
    Ending ".env";
    Ending ".lock";
    Ending ".log";
    Ending ".sql";
    Ending ".txt" ].

Definition EXCLUDED_DIRS : list string :=
  [ "vendor"; "node_modules"; ".git"; "build"; "dist"; "cache"; ".cache";
    "storage"; "bootstrap" ].

(** The module-level variables (and the two locals of [activate] that
    outlive it). *)
Record Globals := {
  openedFiles : gset string;
  lastCheckedFiles : gmap string Z;
  documentModificationTimes : gmap string Z;
  autoOpenedFiles : gset string;
  isPackageManagerRunning : bool;
  packageManagerCooldown : option nat;      (* the [NodeJS.Timeout] handle *)
  activityStartTime : Z;
  openedDocuments : gset string
}.

Definition activated : Globals :=
  {| openedFiles := ∅; lastCheckedFiles := ∅; documentModificationTimes := ∅;
     autoOpenedFiles := ∅; isPackageManagerRunning := false;
     packageManagerCooldown := None; activityStartTime := 0;
     openedDocuments := ∅ |}.

Definition with_openedFiles (s : gset string) (g : Globals) : Globals :=
  {| openedFiles := s; lastCheckedFiles := lastCheckedFiles g;
     documentModificationTimes := documentModificationTimes g;
     autoOpenedFiles := autoOpenedFiles g;
     isPackageManagerRunning := isPackageManagerRunning g;
     packageManagerCooldown := packageManagerCooldown g;
     activityStartTime := activityStartTime g;
     openedDocuments := openedDocuments g |}.

Definition with_lastCheckedFiles (m : gmap string Z) (g : Globals) : Globals :=
  {| openedFiles := openedFiles g; lastCheckedFiles := m;
     documentModificationTimes := documentModificationTimes g;
     autoOpenedFiles := autoOpenedFiles g;
     isPackageManagerRunning := isPackageManagerRunning g;
     packageManagerCooldown := packageManagerCooldown g;
     activityStartTime := activityStartTime g;
     openedDocuments := openedDocuments g |}.

Definition with_documentModificationTimes (m : gmap string Z) (g : Globals) : Globals :=
  {| openedFiles := openedFiles g; lastCheckedFiles := lastCheckedFiles g;
     documentModificationTimes := m;
     autoOpenedFiles := autoOpenedFiles g;
     isPackageManagerRunning := isPackageManagerRunning g;
     packageManagerCooldown := packageManagerCooldown g;
     activityStartTime := activityStartTime g;
     openedDocuments := openedDocuments g |}.

Definition with_autoOpenedFiles (s : gset string) (g : Globals) : Globals :=
  {| openedFiles := openedFiles g; lastCheckedFiles := lastCheckedFiles g;
     documentModificationTimes := documentModificationTimes g;
     autoOpenedFiles := s;
     isPackageManagerRunning := isPackageManagerRunning g;
     packageManagerCooldown := packageManagerCooldown g;
     activityStartTime := activityStartTime g;
     openedDocuments := openedDocuments g |}.

Definition with_isPackageManagerRunning (b : bool) (g : Globals) : Globals :=
  {| openedFiles := openedFiles g; lastCheckedFiles := lastCheckedFiles g;
     documentModificationTimes := documentModificationTimes g;
     autoOpenedFiles := autoOpenedFiles g;
     isPackageManagerRunning := b;
     packageManagerCooldown := packageManagerCooldown g;
     activityStartTime := activityStartTime g;
     openedDocuments := openedDocuments g |}.

Definition with_packageManagerCooldown (h : option nat) (g : Globals) : Globals :=
  {| openedFiles := openedFiles g; lastCheckedFiles := lastCheckedFiles g;
     documentModificationTimes := documentModificationTimes g;
     autoOpenedFiles := autoOpenedFiles g;
     isPackageManagerRunning := isPackageManagerRunning g;
     packageManagerCooldown := h;
     activityStartTime := activityStartTime g;
     openedDocuments := openedDocuments g |}.

Definition with_activityStartTime (t : Z) (g : Globals) : Globals :=
  {| openedFiles := openedFiles g; lastCheckedFiles := lastCheckedFiles g;
     documentModificationTimes := documentModificationTimes g;
     autoOpenedFiles := autoOpenedFiles g;
     isPackageManagerRunning := isPackageManagerRunning g;
     packageManagerCooldown := packageManagerCooldown g;
     activityStartTime := t;
     openedDocuments := openedDocuments g |}.

Definition with_openedDocuments (s : gset string) (g : Globals) : Globals :=
  {| openedFiles := openedFiles g; lastCheckedFiles := lastCheckedFiles g;
     documentModificationTimes := documentModificationTimes g;
     autoOpenedFiles := autoOpenedFiles g;
     isPackageManagerRunning := isPackageManagerRunning g;
     packageManagerCooldown := packageManagerCooldown g;
     activityStartTime := activityStartTime g;
     openedDocuments := s |}.

(** *** The path classifier *)

Definition inExcludedDir (relativePath : string) : bool :=
  existsb
    (fun part => bool_decide (JsString.toLowerCase part ∈ EXCLUDED_DIRS))
    (JsString.split path_sep relativePath).

Definition matchesDisallowed (fileName : string) : bool :=
  existsb (fun pattern => test pattern fileName) DISALLOWED_PATTERNS.

Definition shouldAutoOpen (uri : Uri) : bool :=
  let filePath := fsPath uri in
  let relativePath := asRelativePath uri in
  if JsString.includes relativePath "storage/framework/views"
     || JsString.includes relativePath "storage\framework\views"
  then false
  else if JsString.startsWith relativePath "storage/"
          || JsString.startsWith relativePath "storage\"
  then false
  else if inExcludedDir relativePath then false
  else
    let fileName := path_basename filePath in
    if matchesDisallowed fileName then false
    else
      let ext := JsString.toLowerCase (path_extname filePath) in
      if negb (bool_decide (ext ∈ ALLOWED_EXTENSIONS)) then false
      else if String.eqb fileName "yarn.lock"
              || String.eqb fileName "package-lock.json"
      then false
      else true.

(** *** Suspension points

    Every [await] of the handlers and of [openFile], in source order. *)
Inductive Pc :=
| AwaitSettle (ms : Z)          (* setTimeout before openFile: 200 or 100 *)
| AwaitAccess                   (* fs.promises.access(filePath) *)
| AwaitStat                     (* fs.promises.stat(filePath) *)
| AwaitShowDocument (doc : Uri) (* showTextDocument(doc), document in memory *)
| AwaitFallbackCommand          (* executeCommand('vscode.open', doc.uri) *)
| AwaitOpenDelay                (* setTimeout 300 *)
| AwaitCommand                  (* executeCommand('vscode.open', uri) *)
| AwaitShowUri                  (* showTextDocument(uri) *)
| AwaitRetryDelay               (* setTimeout 1000 *)
| AwaitRetryShow                (* showTextDocument(uri), second attempt *)
| AwaitOpenTextDocument         (* openTextDocument(uri) *)
| AwaitShowOpened.              (* showTextDocument(document) *)

(** Milliseconds a suspension lasts at least. *)
Definition delayOf (pc : Pc) : Z :=
  match pc with
  | AwaitSettle ms => ms
  | AwaitOpenDelay => 300
  | AwaitRetryDelay => 1000
  | _ => 0
  end.

(** Why a handler returned; one tag per [return] (or fall-through) of the
    source, named after what it logs there. *)
Inductive Reason :=
| PackageManagerRunning
| StorageDirectory
| CriteriaNotMet
| Debounced
| VisibleOrAutoOpened
| FileMissing
| TooLarge
| AlreadyVisible
| Shown
| Opened
| GaveUp.

Inductive Next :=
| Return (why : Reason)
| Await (pc : Pc).

(** A segment of a handler, from one suspension point to the next: the
    new globals, how it ends, the host calls it issued. *)
Definition Segment : Type := Globals * Next * list HostCall.

(** [openedFiles.add(filePath); autoOpenedFiles.add(filePath)] *)
Definition markOpened (filePath : string) (g : Globals) : Globals :=
  with_autoOpenedFiles ({[ filePath ]} ∪ autoOpenedFiles g)
    (with_openedFiles ({[ filePath ]} ∪ openedFiles g) g).

(** [openFile], the loop over [vscode.workspace.textDocuments]: the first
    document with this path and scheme [file] decides. *)
Definition scanOpenDocuments (env : Env) (uri : Uri) (g : Globals) : Segment :=
  let filePath := fsPath uri in
  match List.find
          (fun doc => String.eqb (fsPath doc) filePath
                      && String.eqb (scheme doc) "file")
          (textDocuments env) with
  | Some doc =>
      let isVisible := someEditorShows (visibleTextEditors env) filePath in
      if isVisible then (markOpened filePath g, Return AlreadyVisible, [])
      else (markOpened filePath g, Await (AwaitShowDocument doc),
            [ShowTextDocument doc])
  | None => (g, Await AwaitOpenDelay, [])
  end.

(** [openFile] from its entry to its first [await]. *)
Definition openFile (uri : Uri) (g : Globals) : Segment :=
  (g, Await AwaitAccess, [FsAccess (fsPath uri)]).

(** The code that runs when the promise awaited at [pc] settles with [r]. *)
Definition resume (env : Env) (pc : Pc) (uri : Uri) (r : Reply) (g : Globals)
  : Segment :=
  let filePath := fsPath uri in
  match pc with
  | AwaitSettle _ => openFile uri g
  | AwaitAccess =>
      match r with
      | Rejected _ => (g, Return FileMissing, [])
      | Resolved _ => (g, Await AwaitStat, [FsStat filePath])
      end
  | AwaitStat =>
      match r with
      | Resolved size =>
          if overFiftyMB size then (g, Return TooLarge, [])
          else scanOpenDocuments env uri g
      | Rejected _ => scanOpenDocuments env uri g
      end
  | AwaitShowDocument doc =>
      match r with
      | Resolved _ => (g, Return Shown, [])
      | Rejected _ => (g, Await AwaitFallbackCommand, [ExecuteOpen doc])
      end
  | AwaitFallbackCommand =>
      match r with
      | Resolved _ => (g, Return Opened, [])
      | Rejected _ => (g, Return GaveUp, [])
      end
  | AwaitOpenDelay => (g, Await AwaitCommand, [ExecuteOpen uri])
  | AwaitCommand =>
      match r with
      | Resolved _ => (markOpened filePath g, Return Opened, [])
      | Rejected _ => (g, Await AwaitShowUri, [ShowTextDocument uri])
      end
  | AwaitShowUri =>
      match r with
      | Resolved _ => (markOpened filePath g, Return Opened, [])
      | Rejected errorMessage =>
          if JsString.includes errorMessage "50MB"
             || JsString.includes errorMessage "synchronized"
          then (g, Await AwaitRetryDelay, [])
          else (g, Await AwaitOpenTextDocument, [OpenTextDocument uri])
      end
  | AwaitRetryDelay => (g, Await AwaitRetryShow, [ShowTextDocument uri])
  | AwaitRetryShow =>
      match r with
      | Resolved _ => (markOpened filePath g, Return Opened, [])
      | Rejected _ => (g, Await AwaitOpenTextDocument, [OpenTextDocument uri])
      end
  | AwaitOpenTextDocument =>
      match r with
      | Resolved _ => (g, Await AwaitShowOpened, [ShowTextDocument uri])
      | Rejected _ => (g, Return GaveUp, [])
      end
  | AwaitShowOpened =>
      match r with
      | Resolved _ => (markOpened filePath g, Return Opened, [])
      | Rejected _ => (g, Return GaveUp, [])
      end
  end.

(** *** The event handlers, each up to its first [await] *)

(** [fileWatcher.onDidCreate] *)
Definition onDidCreate (env : Env) (uri : Uri) (g : Globals) : Segment :=
  if isPackageManagerRunning g then (g, Return PackageManagerRunning, [])
  else if shouldAutoOpen uri then openFile uri g
  else (g, Return CriteriaNotMet, []).

(** [fileWatcher.onDidChange] *)
Definition onDidChange (env : Env) (uri : Uri) (g : Globals) : Segment :=
  let relativePath := asRelativePath uri in
  if isPackageManagerRunning g then (g, Return PackageManagerRunning, [])
  else if JsString.includes relativePath "storage/"
          || JsString.includes relativePath "storage\"
  then (g, Return StorageDirectory, [])
  else if shouldAutoOpen uri then
    let filePath := fsPath uri in
    let now := now env in
    let lastChecked := default 0 (lastCheckedFiles g !! filePath) in
    if now - lastChecked <? 2000 then (g, Return Debounced, [])
    else
      (with_lastCheckedFiles (<[filePath := now]> (lastCheckedFiles g)) g,
       Await (AwaitSettle 200), [])
  else (g, Return CriteriaNotMet, []).

(** [vscode.workspace.onDidOpenTextDocument] *)
Definition onDidOpenTextDocument (env : Env) (document : Uri) (g : Globals)
  : Globals :=
  if String.eqb (scheme document) "file" then
    let filePath := fsPath document in
    with_documentModificationTimes
      (<[filePath := now env]> (documentModificationTimes g))
      (with_openedDocuments ({[ filePath ]} ∪ openedDocuments g) g)
  else g.

(** [vscode.workspace.onDidChangeTextDocument] *)
Definition onDidChangeTextDocument (env : Env) (document : Uri) (g : Globals)
  : Segment :=
  if isPackageManagerRunning g then (g, Return PackageManagerRunning, [])
  else if String.eqb (scheme document) "file" && shouldAutoOpen document then
    let filePath := fsPath document in
    let now := now env in
    let isVisible := someEditorShows (visibleTextEditors env) filePath in
    if negb isVisible && negb (bool_decide (filePath ∈ autoOpenedFiles g)) then
      (with_documentModificationTimes
         (<[filePath := now]> (documentModificationTimes g)) g,
       Await (AwaitSettle 100), [])
    else (g, Return VisibleOrAutoOpened, [])
  else (g, Return CriteriaNotMet, []).

(** [vscode.workspace.onDidSaveTextDocument] *)
Definition onDidSaveTextDocument (env : Env) (document : Uri) (g : Globals)
  : Segment :=
  if isPackageManagerRunning g then (g, Return PackageManagerRunning, [])
  else if String.eqb (scheme document) "file" && shouldAutoOpen document then
    let filePath := fsPath document in
    let g := with_documentModificationTimes
               (<[filePath := now env]> (documentModificationTimes g)) g in
    let isVisible := someEditorShows (visibleTextEditors env) filePath in
    if negb isVisible && negb (bool_decide (filePath ∈ autoOpenedFiles g)) then
      (g, Await (AwaitSettle 100), [])
    else (g, Return VisibleOrAutoOpened, [])
  else (g, Return CriteriaNotMet, []).

(** [vscode.window.onDidChangeActiveTextEditor] *)
Definition onDidChangeActiveTextEditor (editor : option Uri) (g : Globals)
  : Globals :=
  match editor with
  | Some document => with_openedFiles ({[ fsPath document ]} ∪ openedFiles g) g
  | None => g
  end.

(** [vscode.workspace.onDidCloseTextDocument] *)
Definition onDidCloseTextDocument (doc : Uri) (g : Globals) : Globals :=
  with_openedFiles (openedFiles g ∖ {[ fsPath doc ]}) g.

(** [deactivate] *)
Definition deactivate (g : Globals) : Globals :=
  with_autoOpenedFiles ∅ (with_openedFiles ∅ g).

(** *** The event loop

    [tasks] are the suspended handler calls; [timeouts] are the pending
    [setTimeout] callbacks of the cooldown, by handle, with the earliest
    time each may fire. *)
Record Task := { at_pc : Pc; target : Uri; due : Z }.

Record Config := {
  globals : Globals;
  tasks : list Task;
  timeouts : gmap nat Z;
  nextHandle : nat;
  clock : Z
}.

Definition initial (t0 : Z) : Config :=
  {| globals := activated; tasks := []; timeouts := ∅; nextHandle := 0;
     clock := t0 |}.

Definition COOLDOWN : Z := 30000.

(** [handlePackageManagerActivity(source)]: [clearTimeout] removes the
    pending callback of the old handle, [setTimeout] registers a new one. *)
Definition handlePackageManagerActivity (env : Env) (source : string)
    (c : Config) : Config :=
  let now := now env in
  let g := globals c in
  let g :=
    if negb (isPackageManagerRunning g)
    then with_activityStartTime now (with_isPackageManagerRunning true g)
    else g in
  let pending :=
    match packageManagerCooldown g with
    | Some old => delete old (timeouts c)
    | None => timeouts c
    end in
  let handle := nextHandle c in
  {| globals := with_packageManagerCooldown (Some handle) g;
     tasks := tasks c;
     timeouts := <[handle := now + COOLDOWN]> pending;
     nextHandle := S handle;
     clock := now |}.

(** The callback given to [setTimeout]. *)
Definition cooldownExpired (g : Globals) : Globals :=
  with_isPackageManagerRunning false g.

Inductive Input :=
| FileCreated (uri : Uri)
| FileChanged (uri : Uri)
| DocumentOpened (document : Uri)
| TextChanged (document : Uri)
| DocumentSaved (document : Uri)
| ActiveEditorChanged (editor : option Uri)
| DocumentClosed (doc : Uri)
| PackageActivity (source : string)     (* any early-indicator watcher *)
| CooldownElapsed (handle : nat)        (* the cooldown timer fires *)
| Settled (k : nat) (r : Reply)         (* the promise task [k] awaits *)
| Deactivate.

Definition spawn (env : Env) (uri : Uri) (n : Next) (ts : list Task) : list Task :=
  match n with
  | Return _ => ts
  | Await pc => ts ++ [{| at_pc := pc; target := uri; due := now env + delayOf pc |}]
  end.

Definition finish (c : Config) (env : Env) (uri : Uri) (ts : list Task)
    (seg : Segment) : Config * list HostCall :=
  let '(g, n, calls) := seg in
  ({| globals := g; tasks := spawn env uri n ts; timeouts := timeouts c;
      nextHandle := nextHandle c; clock := now env |}, calls).

Definition quiet (c : Config) (env : Env) (g : Globals) : Config * list HostCall :=
  ({| globals := g; tasks := tasks c; timeouts := timeouts c;
      nextHandle := nextHandle c; clock := now env |}, []).

Definition step (c : Config) (env : Env) (i : Input)
  : option (Config * list HostCall) :=
  if bool_decide (now env < clock c) then None
  else
    let g := globals c in
    match i with
    | FileCreated uri => Some (finish c env uri (tasks c) (onDidCreate env uri g))
    | FileChanged uri => Some (finish c env uri (tasks c) (onDidChange env uri g))
    | DocumentOpened d => Some (quiet c env (onDidOpenTextDocument env d g))
    | TextChanged d =>
        Some (finish c env d (tasks c) (onDidChangeTextDocument env d g))
    | DocumentSaved d =>
        Some (finish c env d (tasks c) (onDidSaveTextDocument env d g))
    | ActiveEditorChanged e => Some (quiet c env (onDidChangeActiveTextEditor e g))
    | DocumentClosed d => Some (quiet c env (onDidCloseTextDocument d g))
    | PackageActivity source => Some (handlePackageManagerActivity env source c, [])
    | CooldownElapsed h =>
        match timeouts c !! h with
        | None => None
        | Some t =>
            if bool_decide (now env < t) then None
            else
              Some ({| globals := cooldownExpired g; tasks := tasks c;
                       timeouts := delete h (timeouts c);
                       nextHandle := nextHandle c; clock := now env |}, [])
        end
    | Settled k r =>
        match tasks c !! k with
        | None => None
        | Some t =>
            if bool_decide (now env < due t) then None
            else
              Some (finish c env (target t) (delete k (tasks c))
                      (resume env (at_pc t) (target t) r g))
        end
    | Deactivate => Some (quiet c env (deactivate g))
    end.

Fixpoint run (c : Config) (tr : list (Env * Input))
  : option (Config * list HostCall) :=
  match tr with
  | [] => Some (c, [])
  | (env, i) :: tr' =>
      match step c env i with
      | None => None
      | Some (c', calls) =>
          match run c' tr' with
          | None => None
          | Some (c'', calls') => Some (c'', calls ++ calls')
          end
      end
  end.

(** The three suppression variables. *)
Definition suppression (g : Globals) : bool * option nat * Z :=
  (isPackageManagerRunning g, packageManagerCooldown g, activityStartTime g).

(** [Date.now()] of the last early-indicator event of a trace. *)
Fixpoint lastActivity (tr : list (Env * Input)) : option Z :=
  match tr with
  | [] => None
  | (env, i) :: tr' =>
      match lastActivity tr' with
      | Some t => Some t
      | None => match i with
                | PackageActivity _ => Some (now env)
                | _ => None
                end
      end
  end.

(** The same, given the last one before the trace. *)
Definition lastActivityAfter (before : option Z) (tr : list (Env * Input))
  : option Z :=
  match lastActivity tr with
  | Some t => Some t
  | None => before
  end.

(** The events that ask for a decision on a file. *)
Definition decisionEvent (i : Input) : bool :=
  match i with
  | FileCreated _ | FileChanged _ | TextChanged _ | DocumentSaved _ => true
  | _ => false
  end.


(** What the cooldown looks like between events: while suppression is
    active exactly one timer is pending, the one of the current handle,
    set to a full cooldown after the last early-indicator event; while it
    is inactive none is pending. *)
Definition cooldownInv (last : option Z) (c : Config) : Prop :=
  (forall h, packageManagerCooldown (globals c) = Some h -> (h < nextHandle c)%nat)
  /\ if isPackageManagerRunning (globals c)
     then exists h ta,
            last = Some ta
            /\ packageManagerCooldown (globals c) = Some h
            /\ timeouts c = {[ h := ta + COOLDOWN ]}
     else timeouts c = ∅.

End Extension.

End CursorAutoOpen.

(** ** Reading a decision off a handler *)

(** The tag of the first test that holds, in list order. *)
Definition firstReject {R : Type} (tests : list (bool * R)) : option R :=
  snd <$> List.find fst tests.

Definition reasonOf (seg : CursorAutoOpen.Segment)
  : option CursorAutoOpen.Reason :=
  match seg.1.2 with
  | CursorAutoOpen.Return why => Some why
  | CursorAutoOpen.Await _ => None
  end.

Definition skipOf (r : OpenChangedFiles.Entered) : option OpenChangedFiles.Skip :=
  match r with
  | OpenChangedFiles.Skipped why => Some why
  | OpenChangedFiles.Suspended _ => None
  end.

(** ** The decision engine as the specification words it

    These definitions follow the text of the specification, not the code;
    they are what the code is compared with. *)
Module Claimed.

Inductive Check := PathClassifier | Suppression | DebounceLedger | Visibility.

(** "Path Classifier deny, then Package/Build suppression, then Debounce
    Ledger, then Visibility/already-auto-opened". *)
Definition sequence : list Check :=
  [PathClassifier; Suppression; DebounceLedger; Visibility].

Definition firstRejecting (rejects : Check -> bool) : option Check :=
  List.find rejects sequence.

(** "re-evaluates suppression before querying the Batch/Noise Detector;
    only if all checks pass does it proceed to the open-file action". *)
Definition proceedsAfterWait (suppressedNow isBatch : bool) : bool :=
  negb suppressedNow && negb isBatch.

(** The check a reason tag of [src/extension.ts] belongs to. *)
Definition checkOf (why : CursorAutoOpen.Reason) : option Check :=
  match why with
  | CursorAutoOpen.PackageManagerRunning => Some Suppression
  | CursorAutoOpen.StorageDirectory | CursorAutoOpen.CriteriaNotMet =>
      Some PathClassifier
  | CursorAutoOpen.Debounced => Some DebounceLedger
  | CursorAutoOpen.VisibleOrAutoOpened | CursorAutoOpen.AlreadyVisible =>
      Some Visibility
  | _ => None
  end.

(** "deny if any path segment case-insensitively equals a configured
    ignored-directory name, or if the base name matches a disallowed-name
    pattern, or if the extension is not in the allow-list; allow
    otherwise". *)
Definition classifierDenies (dirs : list string) (patterns : list (string -> bool))
    (exts : list string) (segments : list string) (baseName ext : string) : bool :=
  existsb (fun segment =>
             existsb (fun d => String.eqb (JsString.toLowerCase segment)
                                          (JsString.toLowerCase d)) dirs)
          segments
  || existsb (fun matches => matches baseName) patterns
  || negb (existsb (String.eqb (JsString.toLowerCase ext)) exts).

(** "no open-file action ever occurs while suppression is active". *)
Definition neverOpensWhileSuppressed `{Host} : Prop :=
  forall t0 tr c log env i c' calls,
    CursorAutoOpen.run (CursorAutoOpen.initial t0) tr = Some (c, log) ->
    CursorAutoOpen.isPackageManagerRunning (CursorAutoOpen.globals c) = true ->
    CursorAutoOpen.step c env i = Some (c', calls) ->
    existsb isOpenAction calls = false.

(** "after any accepting call with size over the threshold, no entry
    older than 10x the TTL remains". *)
Definition purgedAfterAccept (threshold : nat) (ttl now : Z)
    (ledger : gmap string Z) : Prop :=
  (threshold < size ledger)%nat ->
  forall p t, ledger !! p = Some t -> now - t <= 10 * ttl.

End Claimed.

(** ** Concrete inputs (POSIX host, workspace [/w]) *)

Module Examples.

Definition at_time (t : Z) : Env :=
  {| now := t; textDocuments := []; visibleTextEditors := [] |}.

(** The file's document is loaded and shown in a visible editor. *)
Definition showing (t : Z) (p : string) : Env :=
  {| now := t; textDocuments := [fileUri p]; visibleTextEditors := [fileUri p] |}.

(** Three distinct source files change at 1000, 1100 and 1200 ms; each
    timer fires exactly one window after its event. *)
Definition burst_of_three : list (Env * OpenChangedFiles.Input) :=
  [ (at_time 1000, OpenChangedFiles.Notified (fileUri "/w/a.js"));
    (at_time 1100, OpenChangedFiles.Notified (fileUri "/w/b.js"));
    (at_time 1200, OpenChangedFiles.Notified (fileUri "/w/c.js"));
    (at_time 1500, OpenChangedFiles.Woke 0 (Resolved 10) (Resolved 0));
    (at_time 1600, OpenChangedFiles.Woke 0 (Resolved 10) (Resolved 0));
    (at_time 1700, OpenChangedFiles.Woke 0 (Resolved 10) (Resolved 0)) ].

Definition same_path_four_times : list (Env * OpenChangedFiles.Input) :=
  [ (at_time 1000, OpenChangedFiles.Notified (fileUri "/w/a.js"));
    (at_time 1001, OpenChangedFiles.Notified (fileUri "/w/a.js"));
    (at_time 2500, OpenChangedFiles.Notified (fileUri "/w/a.js"));
    (at_time 2600, OpenChangedFiles.Woke 0 (Resolved 10) (Resolved 0));
    (at_time 3600, OpenChangedFiles.Notified (fileUri "/w/a.js")) ].

(** A source file changes; 100 ms later [package.json] changes; the
    handler of the first event is resumed up to the end of the 300 ms
    delay of [openFile]. *)
Definition change_then_install : list (Env * CursorAutoOpen.Input) :=
  [ (at_time 5000, CursorAutoOpen.FileChanged (fileUri "/w/src/a.ts"));
    (at_time 5100, CursorAutoOpen.PackageActivity "package.json");
    (at_time 5200, CursorAutoOpen.Settled 0 (Resolved 0));
    (at_time 5201, CursorAutoOpen.Settled 0 (Resolved 0));
    (at_time 5202, CursorAutoOpen.Settled 0 (Resolved 10)) ].

Definition install_started : list (Env * CursorAutoOpen.Input) :=
  [ (at_time 1000, CursorAutoOpen.PackageActivity "lock file") ].

(** Suppression active, nothing else recorded. *)
Definition suppressed : CursorAutoOpen.Globals :=
  CursorAutoOpen.with_isPackageManagerRunning true CursorAutoOpen.activated.

(** Suppression active, nothing pending. *)
Definition suppressedConfig : CursorAutoOpen.Config :=
  {| CursorAutoOpen.globals := suppressed; CursorAutoOpen.tasks := [];
     CursorAutoOpen.timeouts := ∅; CursorAutoOpen.nextHandle := 0;
     CursorAutoOpen.clock := 0 |}.

(** One call of [openFile] for [p] is waiting for [fs.promises.stat]. *)
Definition scanning (p : string) : CursorAutoOpen.Config :=
  {| CursorAutoOpen.globals := CursorAutoOpen.activated;
     CursorAutoOpen.tasks :=
       [ {| CursorAutoOpen.at_pc := CursorAutoOpen.AwaitStat;
            CursorAutoOpen.target := fileUri p; CursorAutoOpen.due := 0 |} ];
     CursorAutoOpen.timeouts := ∅; CursorAutoOpen.nextHandle := 0;
     CursorAutoOpen.clock := 0 |}.

End Examples.

(** ** Further definitions: traces, the burst window, the ladder of [openFile] *)

(** The document an open action is for. *)
Definition openTarget (c : HostCall) : option Uri :=
  match c with
  | FsAccess _ | FsStat _ => None
  | OpenTextDocument u | ShowTextDocument u | ExecuteOpen u => Some u
  end.

(** How many calls of a log are open actions. *)
Definition opens (calls : list HostCall) : nat :=
  length (List.filter isOpenAction calls).

(** Every event of the trace happens before [limit]. *)
Definition allBefore {I : Type} (limit : Z) (tr : list (Env * I)) : bool :=
  forallb (fun x => now (fst x) <? limit) tr.

(** The path [a/d/b]: segment [d] between two separators. *)
Definition under (sep : ascii) (a d b : string) : string :=
  a +:+ String sep (d +:+ String sep b).

(** The path [d/b]: segment [d] first. *)
Definition leading (sep : ascii) (d b : string) : string :=
  d +:+ String sep b.

Module OpenChangedFilesRuns.

Import OpenChangedFiles.

(** [Date.now()] of the last watcher notification of a trace. *)
Fixpoint lastNotified (tr : list (Env * Input)) : option Z :=
  match tr with
  | [] => None
  | (env, i) :: tr' =>
      match lastNotified tr' with
      | Some t => Some t
      | None => match i with
                | Notified _ => Some (now env)
                | Woke _ _ _ => None
                end
      end
  end.

(** The entries of the burst window recorded less than a window before
    [now]: the ones [isLikelyBatchOperation] counts. *)
Definition inWindow (now : Z) (changes : gmap string Z) : gmap string Z :=
  filter (fun kv => now - kv.2 < BATCH_DETECTION_WINDOW) changes.

(** The switch is on and the classifier allows the path. *)
Definition eligible `{Host} (autoOpen : bool) (u : Uri) : Prop :=
  autoOpen = true /\ shouldOpenFile (fsPath u) = true.

End OpenChangedFilesRuns.

Module CursorAutoOpenRuns.

Import CursorAutoOpen.

(** Settlements a suspended call can still need before it returns. *)
Definition stepsLeft (pc : Pc) : nat :=
  match pc with
  | AwaitSettle _ => 10
  | AwaitAccess => 9
  | AwaitStat => 8
  | AwaitOpenDelay => 7
  | AwaitCommand => 6
  | AwaitShowUri => 5
  | AwaitRetryDelay => 4
  | AwaitRetryShow => 3
  | AwaitOpenTextDocument => 2
  | AwaitShowOpened => 1
  | AwaitShowDocument _ => 2
  | AwaitFallbackCommand => 1
  end.

(** Open actions a suspended call can still issue. *)
Definition opensLeft (pc : Pc) : nat :=
  match pc with
  | AwaitSettle _ | AwaitAccess | AwaitStat | AwaitOpenDelay => 5
  | AwaitCommand => 4
  | AwaitShowUri | AwaitRetryDelay => 3
  | AwaitRetryShow => 2
  | AwaitOpenTextDocument => 1
  | AwaitShowOpened => 0
  | AwaitShowDocument _ => 1
  | AwaitFallbackCommand => 0
  end.

(** The suspension points of [openFile] after it found no document of the
    file in memory. *)
Definition inLadder (pc : Pc) : bool :=
  match pc with
  | AwaitOpenDelay | AwaitCommand | AwaitShowUri | AwaitRetryDelay
  | AwaitRetryShow | AwaitOpenTextDocument | AwaitShowOpened => true
  | _ => false
  end.

(** One call followed to its end: the promises it awaits settle as [rs]
    says, one after the other, each in the editor state given with it. *)
Fixpoint settle (rs : list (Env * Reply)) (uri : Uri) (n : Next) (g : Globals)
  : Segment :=
  match rs with
  | [] => (g, n, [])
  | (env, r) :: rs' =>
      match n with
      | Return _ => (g, n, [])
      | Await pc =>
          let '(g', n', calls) := resume env pc uri r g in
          let '(g'', n'', calls') := settle rs' uri n' g' in
          (g'', n'', calls ++ calls')
      end
  end.

(** The variables a decision reads. *)
Definition decisionState (g : Globals)
  : bool * option nat * gmap string Z * gset string :=
  (isPackageManagerRunning g, packageManagerCooldown g,
   lastCheckedFiles g, autoOpenedFiles g).

(** Two configurations that differ at most in the variables no decision
    reads: [openedFiles], [documentModificationTimes], [openedDocuments]
    and [activityStartTime]. *)
Definition alike (c1 c2 : Config) : Prop :=
  decisionState (globals c1) = decisionState (globals c2)
  /\ tasks c1 = tasks c2
  /\ timeouts c1 = timeouts c2
  /\ nextHandle c1 = nextHandle c2
  /\ clock c1 = clock c2.

(** A pending call is for a file the classifier allowed, and a document it
    is showing is the document of that file. *)
Definition classified `{Host} (t : Task) : Prop :=
  shouldAutoOpen (target t) = true
  /\ forall doc, at_pc t = AwaitShowDocument doc -> fsPath doc = fsPath (target t).

(** How a handler starts: it issues no open request itself, and if it
    suspends it is for a file the classifier allowed. *)
Definition startsClassified `{Host} (uri : Uri) (seg : Segment) : Prop :=
  opens seg.2 = 0%nat
  /\ forall pc, seg.1.2 = Await pc ->
                shouldAutoOpen uri = true /\ forall doc, pc <> AwaitShowDocument doc.

(** Suppression is inactive only if no early indicator was seen or a full
    cooldown has passed since the last one. *)
Definition windowOver (last : option Z) (c : Config) : Prop :=
  isPackageManagerRunning (globals c) = false ->
  forall ta, last = Some ta -> ta + COOLDOWN <= clock c.

(** The requests whose success [openFile] records: the [vscode.open]
    command and the three [showTextDocument] calls of the ladder. *)
Definition isShowRequest (pc : Pc) : bool :=
  match pc with
  | AwaitCommand | AwaitShowUri | AwaitRetryShow | AwaitShowOpened => true
  | _ => false
  end.

(** The suspension points after the [access] and [stat] checks. *)
Definition pastStat (pc : Pc) : bool :=
  match pc with
  | AwaitSettle _ | AwaitAccess | AwaitStat => false
  | _ => true
  end.

(** How many events of a trace are file or document events, the ones
    whose handler can start a call of [openFile]. *)
Definition starts (tr : list (Env * Input)) : nat :=
  length (List.filter (fun x => decisionEvent (snd x)) tr).

(** Open requests the pending calls can still issue. *)
Definition budget (ts : list Task) : nat :=
  sum_list_with (fun t => opensLeft (at_pc t)) ts.

End CursorAutoOpenRuns.

(** ** The earlier revision of the classifier (kept in [extension.js]) *)

Module CursorAutoOpenV1.

Section Classifier.

Context `{Host}.

Definition EXCLUDED_DIRS : list string :=
  [ "vendor"; "node_modules"; ".git"; "build"; "dist"; "cache"; ".cache" ].

Definition inExcludedDir (relativePath : string) : bool :=
  existsb
    (fun part => bool_decide (JsString.toLowerCase part ∈ EXCLUDED_DIRS))
    (JsString.split path_sep relativePath).

Definition shouldAutoOpen (uri : Uri) : bool :=
  let filePath := fsPath uri in
  let relativePath := asRelativePath uri in
  if inExcludedDir relativePath then false
  else
    let fileName := path_basename filePath in
    if CursorAutoOpen.matchesDisallowed fileName then false
    else
      let ext := JsString.toLowerCase (path_extname filePath) in
      if negb (bool_decide (ext ∈ CursorAutoOpen.ALLOWED_EXTENSIONS)) then false
      else if String.eqb fileName "yarn.lock"
              || String.eqb fileName "package-lock.json"
      then false
      else true.

End Classifier.

End CursorAutoOpenV1.

(** ** Further sample inputs *)

Module MoreExamples.

Import Examples.

(** The file's document is in memory but shown in no editor. *)
Definition loaded (t : Z) (p : string) : Env :=
  {| now := t; textDocuments := [fileUri p]; visibleTextEditors := [] |}.

(** One source file changes; nothing else happens. *)
Definition one_change : list (Env * OpenChangedFiles.Input) :=
  [ (at_time 1000, OpenChangedFiles.Notified (fileUri "/w/a.js")) ].

(** After a change of [/w/a.js]: another file changes and the first timer
    fires, all within the debounce time of the first change. *)
Definition other_events : list (Env * OpenChangedFiles.Input) :=
  [ (at_time 1100, OpenChangedFiles.Notified (fileUri "/w/b.js"));
    (at_time 1500, OpenChangedFiles.Woke 0 (Resolved 10) (Resolved 0)) ].

(** [access] and [stat] succeed, then every request to the editor fails. *)
Definition editor_refuses : list (Env * Reply) :=
  [ (at_time 0, Resolved 0); (at_time 0, Resolved 10);
    (at_time 300, Resolved 0); (at_time 301, Rejected "no command");
    (at_time 302, Rejected "no editor"); (at_time 802, Resolved 0);
    (at_time 803, Rejected "no editor"); (at_time 804, Rejected "no document");
    (at_time 805, Rejected "no editor") ].

(** The delay ends and the [vscode.open] command succeeds. *)
Definition command_succeeds : list (Env * Reply) :=
  [ (at_time 300, Resolved 0); (at_time 301, Resolved 0) ].

(** A file is created; [access], [stat] and the 300 ms delay complete. *)
Definition create_and_open : list (Env * CursorAutoOpen.Input) :=
  [ (at_time 1000, CursorAutoOpen.FileCreated (fileUri "/w/src/a.ts"));
    (at_time 1001, CursorAutoOpen.Settled 0 (Resolved 0));
    (at_time 1002, CursorAutoOpen.Settled 0 (Resolved 10));
    (at_time 1302, CursorAutoOpen.Settled 0 (Resolved 0)) ].

(** A session whose bookkeeping variables are not empty. *)
Definition withBookkeeping : CursorAutoOpen.Config :=
  {| CursorAutoOpen.globals :=
       CursorAutoOpen.with_openedFiles {[ "/w/old.ts" ]}
         (CursorAutoOpen.with_activityStartTime 7 CursorAutoOpen.activated);
     CursorAutoOpen.tasks := [];
     CursorAutoOpen.timeouts := ∅; CursorAutoOpen.nextHandle := 0;
     CursorAutoOpen.clock := 0 |}.

(** [n] letters [x]: a different name for each number. *)
Fixpoint tally (n : nat) : string :=
  match n with
  | O => EmptyString
  | S n' => String "x" (tally n')
  end.

Definition oldFile (i : nat) : string := "/w/old" +:+ tally i +:+ ".js".

(** [n] paths, each recorded at time [t]. *)
Definition recordedAt (t : Z) (n : nat) : gmap string Z :=
  foldr (fun i m => <[oldFile i := t]> m) ∅ (seq 0 n).

(** Both maps of [extension.js] hold 101 paths recorded at 1000 ms and
    two paths recorded shortly before 20000 ms. *)
Definition crowded : OpenChangedFiles.Store :=
  {| OpenChangedFiles.recentChecks :=
       <["/w/b.js" := 19900]> (<["/w/c.js" := 19950]> (recordedAt 1000 101));
     OpenChangedFiles.recentFileChanges :=
       <["/w/b.js" := 19900]> (<["/w/c.js" := 19950]> (recordedAt 1000 101)) |}.

(** The cache of [extension.js] holds a 2000 ms old entry of the path. *)
Definition stale (p : string) : OpenChangedFiles.Store :=
  {| OpenChangedFiles.recentChecks := {[ p := 3000 ]};
     OpenChangedFiles.recentFileChanges := ∅ |}.

Definition tsFile (i : nat) : Uri := fileUri ("/w/src/f" +:+ tally i +:+ ".ts").

(** [n] distinct source files change one millisecond apart from 10000 ms
    on; ninety seconds later one more file changes. *)
Definition many_changes (n : nat) : list (Env * CursorAutoOpen.Input) :=
  map (fun i => (at_time (10000 + Z.of_nat i), CursorAutoOpen.FileChanged (tsFile i)))
      (seq 0 n)
  ++ [ (at_time 100000, CursorAutoOpen.FileChanged (fileUri "/w/src/a.ts")) ].

(** The path is shown in a visible editor, through a document of scheme
    [git]; no document of scheme [file] is in memory. *)
Definition gitUri (p : string) : Uri := {| scheme := "git"; fsPath := p |}.

Definition shownThroughGit (t : Z) (p : string) : Env :=
  {| now := t; textDocuments := [gitUri p]; visibleTextEditors := [gitUri p] |}.

(** A file is created while a visible editor shows its path; [access],
    [stat] and the 300 ms delay complete. *)
Definition create_while_shown : list (Env * CursorAutoOpen.Input) :=
  [ (shownThroughGit 1000 "/w/src/a.ts",
     CursorAutoOpen.FileCreated (fileUri "/w/src/a.ts"));
    (shownThroughGit 1001 "/w/src/a.ts", CursorAutoOpen.Settled 0 (Resolved 0));
    (shownThroughGit 1002 "/w/src/a.ts", CursorAutoOpen.Settled 0 (Resolved 10));
    (shownThroughGit 1302 "/w/src/a.ts", CursorAutoOpen.Settled 0 (Resolved 0)) ].

(** A file changes while no editor shows it; when the timer fires the user
    has opened it. *)
Definition shown_during_wait : list (Env * OpenChangedFiles.Input) :=
  [ (at_time 1000, OpenChangedFiles.Notified (fileUri "/w/a.js"));
    (showing 1500 "/w/a.js", OpenChangedFiles.Woke 0 (Resolved 10) (Resolved 0)) ].

(** From the 300 ms delay on: the command and [showTextDocument] fail,
    [openTextDocument] succeeds, showing the document fails. *)
Definition document_opens_show_fails : list (Env * Reply) :=
  [ (at_time 300, Resolved 0); (at_time 301, Rejected "no command");
    (at_time 302, Rejected "no editor"); (at_time 303, Resolved 0);
    (at_time 304, Rejected "no editor") ].

End MoreExamples.

(** * Properties of extension.js *)

Module OpenChangedFilesFacts.

Import OpenChangedFiles.

Section Facts.

Context `{Host}.
Variable autoOpen : bool.

(** *** The cleaning loops *)

Lemma cleanOld_lookup_Some limit cutoff (m : gmap string Z) k v :
  cleanOld limit cutoff m !! k = Some v -> m !! k = Some v.
Proof.
  unfold cleanOld. case_bool_decide; [|done].
  rewrite map_lookup_filter_Some. tauto.
Qed.

Lemma cleanOld_keeps limit cutoff (m : gmap string Z) k v :
  m !! k = Some v -> cutoff <= v -> cleanOld limit cutoff m !! k = Some v.
Proof.
  intros Hk Hv. unfold cleanOld. case_bool_decide; [|done].
  apply map_lookup_filter_Some. split; [done|]. simpl. lia.
Qed.

Lemma cleanOld_over limit cutoff (m : gmap string Z) k v :
  (limit < size m)%nat ->
  cleanOld limit cutoff m !! k = Some v -> cutoff <= v.
Proof.
  intros Hsz. unfold cleanOld. rewrite bool_decide_eq_true_2 by done.
  rewrite map_lookup_filter_Some. simpl. lia.
Qed.

Lemma cleanOld_under limit cutoff (m : gmap string Z) :
  (size m <= limit)%nat -> cleanOld limit cutoff m = m.
Proof.
  intros Hsz. unfold cleanOld. rewrite bool_decide_eq_false_2; [done|lia].
Qed.

Lemma cleanOld_dom limit cutoff (m : gmap string Z) :
  dom (cleanOld limit cutoff m) ⊆ dom m.
Proof.
  intros k. rewrite !elem_of_dom. intros [v Hv].
  exists v. by eapply cleanOld_lookup_Some.
Qed.

(** *** The handler, case by case *)

Lemma handleFileChange_not_eligible env uri st :
  autoOpen && shouldOpenFile (fsPath uri) = false ->
  handleFileChange autoOpen env uri st = (st, Skipped NotEligible).
Proof.
  intros He. unfold handleFileChange.
  destruct autoOpen, (shouldOpenFile (fsPath uri)); simpl in *; congruence.
Qed.

Lemma handleFileChange_duplicate env uri st :
  autoOpen && shouldOpenFile (fsPath uri) = true ->
  checkedRecently (recentChecks st !! fsPath uri) (now env) = true ->
  handleFileChange autoOpen env uri st = (st, Skipped Duplicate).
Proof.
  intros He Hd. unfold handleFileChange.
  apply andb_true_iff in He as [-> ->]. simpl. by rewrite Hd.
Qed.

Lemma handleFileChange_accepts env uri st :
  autoOpen && shouldOpenFile (fsPath uri) = true ->
  checkedRecently (recentChecks st !! fsPath uri) (now env) = false ->
  handleFileChange autoOpen env uri st =
    ({| recentChecks :=
          cleanOld 100 (now env - CHECK_CACHE_TTL * 10)
            (<[fsPath uri := now env]> (recentChecks st));
        recentFileChanges :=
          cleanOld 50 (now env - BATCH_DETECTION_WINDOW * 2)
            (<[fsPath uri := now env]> (recentFileChanges st)) |},
     if isFileOpenByUser (visibleTextEditors env) (fsPath uri)
     then Skipped OpenByUser else Suspended BATCH_DETECTION_WINDOW).
Proof.
  intros He Hd. unfold handleFileChange.
  apply andb_true_iff in He as [-> ->]. simpl. rewrite Hd.
  by destruct (isFileOpenByUser _ _).
Qed.

(** The three cases are exhaustive: what the handler returns tells which
    one applied. *)
Lemma handleFileChange_passed env uri st st' r :
  handleFileChange autoOpen env uri st = (st', r) ->
  passedDebounce r = true ->
  autoOpen && shouldOpenFile (fsPath uri) = true
  /\ checkedRecently (recentChecks st !! fsPath uri) (now env) = false.
Proof.
  intros Hh Hp.
  destruct (autoOpen && shouldOpenFile (fsPath uri)) eqn:He.
  - destruct (checkedRecently (recentChecks st !! fsPath uri) (now env)) eqn:Hd;
      [|done].
    rewrite handleFileChange_duplicate in Hh by done.
    by inversion Hh; subst.
  - rewrite handleFileChange_not_eligible in Hh by done.
    by inversion Hh; subst.
Qed.

Lemma handleFileChange_changes_dom env uri st :
  dom (recentFileChanges (handleFileChange autoOpen env uri st).1)
    ⊆ {[ fsPath uri ]} ∪ dom (recentFileChanges st).
Proof.
  destruct (autoOpen && shouldOpenFile (fsPath uri)) eqn:He.
  - destruct (checkedRecently (recentChecks st !! fsPath uri) (now env)) eqn:Hd.
    + rewrite handleFileChange_duplicate by done. set_solver.
    + rewrite handleFileChange_accepts by done. simpl.
      etrans; [apply cleanOld_dom|]. by rewrite dom_insert_L.
  - rewrite handleFileChange_not_eligible by done. set_solver.
Qed.

(** *** The batch detector *)

Lemma isLikelyBatchOperation_small t (m : gmap string Z) :
  (size m < 3)%nat -> isLikelyBatchOperation t m = false.
Proof.
  intros Hsz. unfold isLikelyBatchOperation.
  apply bool_decide_eq_false_2.
  pose proof (length_filter (fun timestamp => t - timestamp < BATCH_DETECTION_WINDOW)
                (map snd (map_to_list m))) as Hle.
  rewrite length_map, length_map_to_list in Hle. lia.
Qed.

(** An entry counts only if it was recorded less than a window ago, so
    once every recorded time is a full window in the past nothing counts. *)
Lemma isLikelyBatchOperation_aged t (m : gmap string Z) :
  (forall k v, m !! k = Some v -> v + BATCH_DETECTION_WINDOW <= t) ->
  isLikelyBatchOperation t m = false.
Proof.
  intros Hold. unfold isLikelyBatchOperation.
  apply bool_decide_eq_false_2.
  destruct (filter _ _) as [|x l] eqn:Hf; [simpl; lia|].
  assert (Hx : x ∈ x :: l) by left.
  rewrite <- Hf in Hx. apply list_elem_of_filter in Hx as [Hrecent Hx].
  apply list_elem_of_fmap in Hx as ([k v] & -> & Hkv).
  apply elem_of_map_to_list, Hold in Hkv. simpl in Hrecent. lia.
Qed.

(** *** Traces *)

Lemma step_woke_store c env k stat opened c' calls :
  step autoOpen c env (Woke k stat opened) = Some (c', calls) ->
  store c' = store c.
Proof.
  unfold step. case_bool_decide; [done|].
  destruct (sleeping c !! k) as [[uri d]|]; [|done].
  case_bool_decide; [done|]. by intros [= <- _].
Qed.

Lemma step_notified c env uri c' calls :
  step autoOpen c env (Notified uri) = Some (c', calls) ->
  store c' = (handleFileChange autoOpen env uri (store c)).1 /\ calls = [].
Proof.
  unfold step. case_bool_decide; [done|].
  destruct (handleFileChange autoOpen env uri (store c)) as [st' r].
  by intros [= <- <-].
Qed.

Lemma run_onlyPath_dom p tr : forall c c' calls,
  run autoOpen c tr = Some (c', calls) ->
  onlyPath p tr = true ->
  dom (recentFileChanges (store c')) ⊆ {[ p ]} ∪ dom (recentFileChanges (store c)).
Proof.
  induction tr as [|[env i] tr IH]; intros c c' calls Hrun Honly.
  - simpl in Hrun. assert (c' = c) as -> by congruence. set_solver.
  - simpl in Hrun, Honly. apply andb_true_iff in Honly as [Hi Honly].
    destruct (step autoOpen c env i) as [[c1 calls1]|] eqn:Hstep; [|done].
    destruct (run autoOpen c1 tr) as [[c2 calls2]|] eqn:Hrest; [|done].
    assert (c' = c2) as -> by congruence.
    specialize (IH _ _ _ Hrest Honly).
    destruct i as [uri|k stat opened].
    + apply String.eqb_eq in Hi. subst p.
      apply step_notified in Hstep as [Hst _].
      pose proof (handleFileChange_changes_dom env uri (store c)) as Hd.
      rewrite <- Hst in Hd. etrans; [exact IH|].
      apply union_least; [apply union_subseteq_l|exact Hd].
    + apply step_woke_store in Hstep. rewrite Hstep in IH. exact IH.
Qed.

(** C9. The burst window is keyed by path: however many changes to one
    path [p] are notified, and whenever the timers fire, the window holds
    at most one entry, that entry is for [p], and the batch check answers
    [false] at every time. *)
Theorem single_path_never_batch p t0 tr c calls :
  run autoOpen (initial t0) tr = Some (c, calls) ->
  onlyPath p tr = true ->
  (size (recentFileChanges (store c)) <= 1)%nat
  /\ (forall k v, recentFileChanges (store c) !! k = Some v -> k = p)
  /\ (forall t, isLikelyBatchOperation t (recentFileChanges (store c)) = false).
Proof.
  intros Hrun Honly.
  pose proof (run_onlyPath_dom p tr _ _ _ Hrun Honly) as Hdom.
  simpl in Hdom. rewrite dom_empty_L, (right_id_L ∅ (∪)) in Hdom.
  assert (Hsz : (size (recentFileChanges (store c)) <= 1)%nat).
  { rewrite <- size_dom. etrans; [apply subseteq_size, Hdom|].
    by rewrite size_singleton. }
  split; [exact Hsz|]. split.
  - intros k v Hk.
    assert (Hin : k ∈ ({[ p ]} : gset string)).
    { apply Hdom, elem_of_dom. by exists v. }
    by apply elem_of_singleton in Hin.
  - intros t. apply isLikelyBatchOperation_small. lia.
Qed.

(** The debounce cache of [extension.js] is cleaned inside the accepting
    call itself, when the cache (with the new entry) holds more than 100
    paths: then no entry older than ten times the TTL is left.  Below the
    threshold nothing is removed, an entry that is not that old is never
    removed, and a firing timer leaves the cache alone. *)
Lemma recentChecks_purged env uri st st' r :
  handleFileChange autoOpen env uri st = (st', r) ->
  passedDebounce r = true ->
  let inserted := <[fsPath uri := now env]> (recentChecks st) in
  ((100 < size inserted)%nat ->
     forall k v, recentChecks st' !! k = Some v ->
                 now env - v <= 10 * CHECK_CACHE_TTL)
  /\ ((100 < size (recentChecks st))%nat -> (100 < size inserted)%nat)
  /\ ((size inserted <= 100)%nat -> recentChecks st' = inserted)
  /\ (forall k v, inserted !! k = Some v ->
                  now env - v <= 10 * CHECK_CACHE_TTL ->
                  recentChecks st' !! k = Some v)
  /\ (forall k v, recentChecks st' !! k = Some v -> inserted !! k = Some v)
  /\ (forall c k stat opened c' calls,
        step autoOpen c env (Woke k stat opened) = Some (c', calls) ->
        recentChecks (store c') = recentChecks (store c)).
Proof.
  intros Hh Hp inserted.
  destruct (handleFileChange_passed _ _ _ _ _ Hh Hp) as [He Hd].
  rewrite handleFileChange_accepts in Hh by done.
  injection Hh as <- _. simpl. fold inserted.
  split; [|split; [|split; [|split; [|split]]]].
  - intros Hsz k v Hk. apply cleanOld_over in Hk; [lia|done].
  - intros Hsz. subst inserted.
    pose proof (map_size_insert (fsPath uri) (now env) (recentChecks st)) as Hi.
    destruct (recentChecks st !! fsPath uri); unfold id in Hi; lia.
  - intros Hsz. by apply cleanOld_under.
  - intros k v Hk Hv. apply cleanOld_keeps; [done|lia].
  - intros k v. apply cleanOld_lookup_Some.
  - intros c k stat opened c' calls Hs.
    by rewrite (step_woke_store _ _ _ _ _ _ _ Hs).
Qed.

End Facts.

(** *** Concrete runs on a POSIX host *)

(** C1. On a burst of three distinct allowed paths inside one 500 ms
    window the code classifies no member as a batch operation: the batch
    check answers [false] at each of the three wake-ups and all three files
    are opened. *)
Theorem burst_of_three_opens_all :
  (snd <$> run (H := Posix.host) true (initial 0) Examples.burst_of_three) =
    Some [ FsStat "/w/a.js"; OpenTextDocument (fileUri "/w/a.js");
           ShowTextDocument (fileUri "/w/a.js");
           FsStat "/w/b.js"; OpenTextDocument (fileUri "/w/b.js");
           ShowTextDocument (fileUri "/w/b.js");
           FsStat "/w/c.js"; OpenTextDocument (fileUri "/w/c.js");
           ShowTextDocument (fileUri "/w/c.js") ].
Proof. vm_compute. reflexivity. Qed.

Lemma single_path_never_batch_witness :
  let tr := Examples.same_path_four_times in
  exists c calls,
    run (H := Posix.host) true (initial 0) tr = Some (c, calls)
    /\ (size (recentFileChanges (store c)) <= 1)%nat
    /\ (forall k v, recentFileChanges (store c) !! k = Some v -> k = "/w/a.js")
    /\ (forall t, isLikelyBatchOperation t (recentFileChanges (store c)) = false).
Proof.
  intros tr.
  destruct (run (H := Posix.host) true (initial 0) tr) as [[c calls]|] eqn:Hrun;
    [|vm_compute in Hrun; discriminate].
  exists c, calls. split; [reflexivity|].
  apply (single_path_never_batch (H := Posix.host) true "/w/a.js" 0 tr c calls Hrun).
  reflexivity.
Defined.

End OpenChangedFilesFacts.

Module CursorAutoOpenFacts.

Import CursorAutoOpen.

Section Facts.

Context `{Host}.

(** *** What a segment can change *)

Ltac crush_segment :=
  repeat match goal with
         | |- context [match ?x with _ => _ end] => destruct x eqn:?; simpl
         | |- context [if ?b then _ else _] => destruct b eqn:?; simpl
         end; simpl; try done.

Lemma scanOpenDocuments_suppression env uri g :
  suppression (scanOpenDocuments env uri g).1.1 = suppression g.
Proof. unfold scanOpenDocuments. crush_segment. Qed.

Lemma resume_suppression env pc uri r g :
  suppression (resume env pc uri r g).1.1 = suppression g.
Proof.
  destruct pc, r; simpl; try done;
    try apply scanOpenDocuments_suppression; crush_segment;
    apply scanOpenDocuments_suppression.
Qed.

Lemma onDidCreate_suppression env uri g :
  suppression (onDidCreate env uri g).1.1 = suppression g.
Proof. unfold onDidCreate. crush_segment. Qed.

Lemma onDidChange_suppression env uri g :
  suppression (onDidChange env uri g).1.1 = suppression g.
Proof. unfold onDidChange. crush_segment. Qed.

Lemma onDidChangeTextDocument_suppression env d g :
  suppression (onDidChangeTextDocument env d g).1.1 = suppression g.
Proof. unfold onDidChangeTextDocument. crush_segment. Qed.

Lemma onDidSaveTextDocument_suppression env d g :
  suppression (onDidSaveTextDocument env d g).1.1 = suppression g.
Proof. unfold onDidSaveTextDocument. crush_segment. Qed.



Lemma finish_globals c env uri ts seg :
  globals (finish c env uri ts seg).1 = seg.1.1.
Proof. by destruct seg as [[g n] calls]. Qed.

(** Only the two cooldown events touch the suppression variables. *)
Lemma step_suppression c env i r :
  step c env i = Some r ->
  match i with
  | PackageActivity _ | CooldownElapsed _ => True
  | _ => suppression (globals r.1) = suppression (globals c)
  end.
Proof.
  unfold step. case_bool_decide; [done|].
  destruct i; try done; try (intros [= <-]; rewrite ?finish_globals).
  - apply onDidCreate_suppression.
  - apply onDidChange_suppression.
  - simpl. unfold onDidOpenTextDocument. by destruct (String.eqb _ _).
  - apply onDidChangeTextDocument_suppression.
  - apply onDidSaveTextDocument_suppression.
  - simpl. by destruct editor.
  - done.
  - destruct (tasks c !! k) as [t|]; [|done].
    case_bool_decide; [done|]. intros [= <-].
    rewrite finish_globals. apply resume_suppression.
  - done.
Qed.

(** *** The cooldown invariant *)

Lemma finish_suppression c env uri ts seg :
  suppression seg.1.1 = suppression (globals c) ->
  forall last, cooldownInv last c ->
  cooldownInv last (finish c env uri ts seg).1.
Proof.
  destruct seg as [[g n] calls]. simpl. unfold suppression.
  intros [= Hr Hh Ht] last [Hfresh Hinv]. unfold cooldownInv. simpl.
  rewrite Hr, Hh. auto.
Qed.

Lemma quiet_suppression c env g :
  suppression g = suppression (globals c) ->
  forall last, cooldownInv last c ->
  cooldownInv last (quiet c env g).1.
Proof.
  unfold suppression. intros [= Hr Hh Ht] last [Hfresh Hinv].
  unfold cooldownInv. simpl. rewrite Hr, Hh. auto.
Qed.

Lemma activity_inv last c env source :
  cooldownInv last c ->
  cooldownInv (Some (now env)) (handlePackageManagerActivity env source c).
Proof.
  intros [Hfresh Hinv]. unfold cooldownInv, handlePackageManagerActivity. simpl.
  destruct (isPackageManagerRunning (globals c)) eqn:Hrun; simpl.
  - rewrite Hrun. split; [intros h [= <-]; lia|].
    destruct Hinv as (h & ta & _ & Hh & Ht). rewrite Hh, Ht.
    exists (nextHandle c), (now env). split; [done|]. split; [done|].
    by rewrite delete_singleton_eq, insert_empty.
  - split; [intros h [= <-]; lia|].
    exists (nextHandle c), (now env). split; [done|]. split; [done|].
    rewrite Hinv. destruct (packageManagerCooldown (globals c));
      by rewrite ?delete_empty, insert_empty.
Qed.

Lemma step_inv last c env i r :
  cooldownInv last c ->
  step c env i = Some r ->
  cooldownInv (lastActivityAfter last [(env, i)]) r.1.
Proof.
  intros Hinv. unfold step. case_bool_decide; [done|].
  destruct i; unfold lastActivityAfter; simpl.
  - intros [= <-]. apply finish_suppression; [|done].
    apply onDidCreate_suppression.
  - intros [= <-]. apply finish_suppression; [|done].
    apply onDidChange_suppression.
  - intros [= <-]. apply quiet_suppression; [|done].
    unfold onDidOpenTextDocument. by destruct (String.eqb _ _).
  - intros [= <-]. apply finish_suppression; [|done].
    apply onDidChangeTextDocument_suppression.
  - intros [= <-]. apply finish_suppression; [|done].
    apply onDidSaveTextDocument_suppression.
  - intros [= <-]. apply quiet_suppression; [|done]. by destruct editor.
  - intros [= <-]. by apply quiet_suppression.
  - intros [= <-]. by eapply activity_inv.
  - destruct (timeouts c !! handle) as [t|] eqn:Hh; [|done].
    case_bool_decide; [done|]. intros [= <-].
    destruct Hinv as [Hfresh Hinv]. unfold cooldownInv. simpl.
    split; [exact Hfresh|].
    destruct (isPackageManagerRunning (globals c)).
    + destruct Hinv as (h & ta & _ & _ & Ht). rewrite Ht in Hh |- *.
      apply lookup_singleton_Some in Hh as [<- _].
      apply delete_singleton_eq.
    + rewrite Hinv in Hh. by rewrite lookup_empty in Hh.
  - destruct (tasks c !! k) as [t|]; [|done].
    case_bool_decide; [done|]. intros [= <-].
    apply finish_suppression; [apply resume_suppression|done].
  - intros [= <-]. by apply quiet_suppression.
Qed.

Lemma lastActivityAfter_cons last env i tr :
  lastActivityAfter (lastActivityAfter last [(env, i)]) tr
  = lastActivityAfter last ((env, i) :: tr).
Proof.
  unfold lastActivityAfter. simpl.
  destruct (lastActivity tr); [done|]. by destruct i.
Qed.

Lemma run_inv tr : forall last c r,
  cooldownInv last c ->
  run c tr = Some r ->
  cooldownInv (lastActivityAfter last tr) r.1.
Proof.
  induction tr as [|[env i] tr IH]; intros last c r Hinv Hrun.
  - simpl in Hrun. by injection Hrun as <-.
  - simpl in Hrun.
    destruct (step c env i) as [[c1 calls1]|] eqn:Hstep; [|done].
    destruct (run c1 tr) as [[c2 calls2]|] eqn:Hrest; [|done].
    injection Hrun as <-. simpl.
    rewrite <- lastActivityAfter_cons.
    apply (IH _ c1 (c2, calls2)); [|done].
    by apply (step_inv last c env i (c1, calls1)).
Qed.

Lemma initial_inv t0 : cooldownInv None (initial t0).
Proof. split; [done|]. done. Qed.

Lemma reachable_inv t0 tr c log :
  run (initial t0) tr = Some (c, log) ->
  cooldownInv (lastActivity tr) c.
Proof.
  intros Hrun.
  pose proof (run_inv tr None _ _ (initial_inv t0) Hrun) as Hinv.
  unfold lastActivityAfter in Hinv. simpl in Hinv.
  by destruct (lastActivity tr).
Qed.

(** C4. While the cooldown is active, an early-indicator event at time
    [now env] cancels the pending timer and leaves exactly one, due a
    full cooldown after [now env]; the activation time and the active flag
    stay as they were.  The flag is cleared by no step other than the
    firing of the timer armed by the last early-indicator event, a full
    cooldown after it. *)
Theorem cooldown_extension t0 tr c log :
  run (initial t0) tr = Some (c, log) ->
  isPackageManagerRunning (globals c) = true ->
  (forall env source c' calls,
      step c env (PackageActivity source) = Some (c', calls) ->
      (exists h', packageManagerCooldown (globals c') = Some h'
                  /\ timeouts c' = {[ h' := now env + COOLDOWN ]}
                  /\ forall old, packageManagerCooldown (globals c) = Some old ->
                                 timeouts c' !! old = None)
      /\ activityStartTime (globals c') = activityStartTime (globals c)
      /\ isPackageManagerRunning (globals c') = true)
  /\ (forall env i c' calls,
        step c env i = Some (c', calls) ->
        isPackageManagerRunning (globals c') = false ->
        exists h ta,
          i = CooldownElapsed h
          /\ lastActivity tr = Some ta
          /\ packageManagerCooldown (globals c) = Some h
          /\ timeouts c !! h = Some (ta + COOLDOWN)
          /\ ta + COOLDOWN <= now env).
Proof.
  intros Hrun Hactive.
  pose proof (reachable_inv _ _ _ _ Hrun) as [Hfresh Hinv].
  rewrite Hactive in Hinv. destruct Hinv as (h & ta & Hlast & Hh & Ht).
  split.
  - intros env source c' calls. unfold step. case_bool_decide; [done|].
    intros [= <- _]. unfold handlePackageManagerActivity. simpl.
    rewrite Hactive. simpl. rewrite Hactive, Hh, Ht.
    split; [|done].
    exists (nextHandle c). split; [done|].
    rewrite delete_singleton_eq, insert_empty. split; [done|].
    intros old [= <-]. apply lookup_singleton_ne.
    specialize (Hfresh _ Hh). lia.
  - intros env i c' calls Hstep Hoff.
    pose proof (step_suppression _ _ _ _ Hstep) as Hsup.
    destruct i; simpl in Hsup;
      try (unfold suppression in Hsup; congruence).
    + revert Hstep. unfold step. case_bool_decide; [done|].
      intros [= <- _]. simpl in Hoff.
      unfold handlePackageManagerActivity in Hoff. simpl in Hoff.
      rewrite Hactive in Hoff. simpl in Hoff. congruence.
    + revert Hstep. unfold step. case_bool_decide; [done|].
      rewrite Ht. destruct ({[h := ta + COOLDOWN]} !! handle) as [t|] eqn:Hl;
        [|done].
      apply lookup_singleton_Some in Hl as [<- <-].
      case_bool_decide as Hdue; [done|]. intros _.
      exists h, ta. rewrite lookup_singleton_eq. repeat split; try done. lia.
Qed.


(** *** Suppression at the handlers *)

Lemma handlers_suppressed env uri g :
  isPackageManagerRunning g = true ->
  onDidCreate env uri g = (g, Return PackageManagerRunning, [])
  /\ onDidChange env uri g = (g, Return PackageManagerRunning, [])
  /\ onDidChangeTextDocument env uri g = (g, Return PackageManagerRunning, [])
  /\ onDidSaveTextDocument env uri g = (g, Return PackageManagerRunning, []).
Proof.
  intros Hr.
  unfold onDidCreate, onDidChange, onDidChangeTextDocument, onDidSaveTextDocument.
  by rewrite Hr.
Qed.

(** [openFile] and its continuations never read the suppression flag. *)
Lemma resume_ignores_suppression env pc uri r g b :
  resume env pc uri r (with_isPackageManagerRunning b g)
  = (with_isPackageManagerRunning b (resume env pc uri r g).1.1,
     (resume env pc uri r g).1.2, (resume env pc uri r g).2).
Proof.
  destruct pc, r; simpl; try done; unfold scanOpenDocuments; crush_segment.
Qed.

(** C3. While suppression is active each of the four decision handlers
    returns at its first test, whatever the path and before the path
    classifier is consulted; the step changes no variable, schedules
    nothing and issues no host call.  A call that is already suspended is
    not affected: its continuation runs the same code with the flag set
    as with the flag clear. *)
Theorem suppressed_events_ignored c env i c' calls :
  isPackageManagerRunning (globals c) = true ->
  decisionEvent i = true ->
  step c env i = Some (c', calls) ->
  (calls = [] /\ globals c' = globals c /\ tasks c' = tasks c
   /\ timeouts c' = timeouts c)
  /\ (forall uri,
        onDidCreate env uri (globals c) = (globals c, Return PackageManagerRunning, [])
        /\ onDidChange env uri (globals c) = (globals c, Return PackageManagerRunning, [])
        /\ onDidChangeTextDocument env uri (globals c)
           = (globals c, Return PackageManagerRunning, [])
        /\ onDidSaveTextDocument env uri (globals c)
           = (globals c, Return PackageManagerRunning, []))
  /\ (forall pc uri r g b,
        (resume env pc uri r (with_isPackageManagerRunning b g)).2
        = (resume env pc uri r g).2).
Proof.
  intros Hr Hi Hstep. split; [|split].
  - revert Hstep. unfold step. case_bool_decide; [done|].
    destruct i as [u|u|?|u|u| | | | | |]; try done;
      destruct (handlers_suppressed env u (globals c) Hr) as (Hc & Hm & Ht & Hs);
      rewrite ?Hc, ?Hm, ?Ht, ?Hs; by intros [= <- <-].
  - intros uri. by apply handlers_suppressed.
  - intros pc uri r g b. by rewrite resume_ignores_suppression.
Qed.

(** *** The auto-opened record *)




Lemma scanOpenDocuments_visible env uri g doc :
  In doc (textDocuments env) ->
  fsPath doc = fsPath uri ->
  scheme doc = "file" ->
  someEditorShows (visibleTextEditors env) (fsPath uri) = true ->
  scanOpenDocuments env uri g
  = (markOpened (fsPath uri) g, Return AlreadyVisible, []).
Proof.
  intros Hin Hp Hs Hv. unfold scanOpenDocuments.
  destruct (find _ _) as [d|] eqn:Hf.
  - by rewrite Hv.
  - apply find_none with (x := doc) in Hf; [|done].
    rewrite Hp, Hs, !String.eqb_refl in Hf. done.
Qed.




End Facts.

End CursorAutoOpenFacts.

(** * Properties of both extensions *)

Module Contract.

Section Facts.

Context `{Host}.

Import JsString.

(** *** C5: the path classifiers *)

Lemma EXCLUDED_DIRS_lower d :
  d ∈ CursorAutoOpen.EXCLUDED_DIRS -> toLowerCase d = d.
Proof.
  unfold CursorAutoOpen.EXCLUDED_DIRS. intros Hd.
  repeat (apply elem_of_cons in Hd as [-> | Hd]; [reflexivity|]).
  by apply elem_of_nil in Hd.
Qed.

Lemma IGNORED_DIRS_lower d :
  d ∈ OpenChangedFiles.IGNORED_DIRS -> toLowerCase d = d.
Proof.
  unfold OpenChangedFiles.IGNORED_DIRS. rewrite elem_of_list_to_set. intros Hd.
  repeat (apply elem_of_cons in Hd as [-> | Hd]; [reflexivity|]).
  by apply elem_of_nil in Hd.
Qed.

Lemma inExcludedDir_spec rel :
  CursorAutoOpen.inExcludedDir rel = true <->
  exists part d, part ∈ split path_sep rel
                 /\ d ∈ CursorAutoOpen.EXCLUDED_DIRS
                 /\ eq_ignoring_case part d.
Proof.
  unfold CursorAutoOpen.inExcludedDir, eq_ignoring_case.
  rewrite existsb_exists. split.
  - intros (part & Hin & Hd). apply bool_decide_eq_true in Hd.
    exists part, (toLowerCase part). rewrite <- list_elem_of_In in Hin.
    split; [done|]. split; [done|]. by rewrite (EXCLUDED_DIRS_lower _ Hd).
  - intros (part & d & Hin & Hd & Heq). exists part.
    rewrite <- list_elem_of_In. split; [done|].
    apply bool_decide_eq_true. by rewrite Heq, (EXCLUDED_DIRS_lower _ Hd).
Qed.

Lemma shouldIgnorePath_spec p :
  OpenChangedFiles.shouldIgnorePath p = true <->
  exists segment d, segment ∈ split path_sep p
                    /\ d ∈ OpenChangedFiles.IGNORED_DIRS
                    /\ eq_ignoring_case segment d.
Proof.
  unfold OpenChangedFiles.shouldIgnorePath, eq_ignoring_case.
  rewrite existsb_exists. split.
  - intros (part & Hin & Hd). apply bool_decide_eq_true in Hd.
    exists part, (toLowerCase part). rewrite <- list_elem_of_In in Hin.
    split; [done|]. split; [done|]. by rewrite (IGNORED_DIRS_lower _ Hd).
  - intros (part & d & Hin & Hd & Heq). exists part.
    rewrite <- list_elem_of_In. split; [done|].
    apply bool_decide_eq_true. by rewrite Heq, (IGNORED_DIRS_lower _ Hd).
Qed.

Lemma matchesDisallowed_spec name :
  CursorAutoOpen.matchesDisallowed name = true <->
  exists pattern, pattern ∈ CursorAutoOpen.DISALLOWED_PATTERNS
                  /\ CursorAutoOpen.test pattern name = true.
Proof.
  unfold CursorAutoOpen.matchesDisallowed. rewrite existsb_exists.
  by setoid_rewrite list_elem_of_In.
Qed.

(** The last test of [shouldAutoOpen] repeats the first two patterns. *)
Lemma lock_names_disallowed name :
  String.eqb name "yarn.lock" || String.eqb name "package-lock.json" = true ->
  CursorAutoOpen.matchesDisallowed name = true.
Proof.
  intros Hn. apply orb_true_iff in Hn as [Hn|Hn];
    apply String.eqb_eq in Hn; by subst.
Qed.

(** C5. [shouldAutoOpen] denies exactly when the relative path contains
    [storage/framework/views], or starts with [storage/] (either
    separator), or has a segment equal up to case to an excluded
    directory, or the base name matches a disallowed pattern, or the
    lower-cased extension is not allowed; the first four hold whatever
    the extension.  [shouldOpenFile] denies exactly when a segment of the
    path equals an ignored directory up to case or the lower-cased
    extension is not allowed; it has no disallowed names. *)
Theorem classifier_contract :
  (forall uri,
      let rel := asRelativePath uri in
      CursorAutoOpen.shouldAutoOpen uri = false <->
        includes rel "storage/framework/views" = true
        \/ includes rel "storage\framework\views" = true
        \/ startsWith rel "storage/" = true
        \/ startsWith rel "storage\" = true
        \/ (exists part d, part ∈ split path_sep rel
                           /\ d ∈ CursorAutoOpen.EXCLUDED_DIRS
                           /\ eq_ignoring_case part d)
        \/ (exists pattern, pattern ∈ CursorAutoOpen.DISALLOWED_PATTERNS
              /\ CursorAutoOpen.test pattern (path_basename (fsPath uri)) = true)
        \/ toLowerCase (path_extname (fsPath uri))
             ∉ CursorAutoOpen.ALLOWED_EXTENSIONS)
  /\ (forall p,
        OpenChangedFiles.shouldOpenFile p = false <->
          (exists segment d, segment ∈ split path_sep p
                             /\ d ∈ OpenChangedFiles.IGNORED_DIRS
                             /\ eq_ignoring_case segment d)
          \/ toLowerCase (path_extname p) ∉ OpenChangedFiles.ALLOWED_EXTS).
Proof.
  split.
  - intros uri rel.
    rewrite <- inExcludedDir_spec, <- matchesDisallowed_spec.
    unfold CursorAutoOpen.shouldAutoOpen. fold rel.
    destruct (includes rel "storage/framework/views") eqn:H1; [simpl; tauto|].
    destruct (includes rel "storage\framework\views") eqn:H2; [simpl; tauto|].
    destruct (startsWith rel "storage/") eqn:H3; [simpl; tauto|].
    destruct (startsWith rel "storage\") eqn:H4; [simpl; tauto|].
    destruct (CursorAutoOpen.inExcludedDir rel) eqn:H5; [simpl; tauto|].
    destruct (CursorAutoOpen.matchesDisallowed _) eqn:H6; [simpl; tauto|].
    simpl. case_bool_decide as H7; simpl.
    + destruct (_ || _) eqn:H8.
      * apply lock_names_disallowed in H8. congruence.
      * split; [done|]. intros [?|[?|[?|[?|[?|[?|?]]]]]]; done.
    + tauto.
  - intros p. rewrite <- shouldIgnorePath_spec.
    unfold OpenChangedFiles.shouldOpenFile.
    destruct (OpenChangedFiles.shouldIgnorePath p); [tauto|].
    case_bool_decide as H7.
    + split; [done|]. intros [?|?]; done.
    + tauto.
Qed.

End Facts.

End Contract.

Module Decisions.

Section Facts.

Context `{Host}.
Variable autoOpen : bool.

Import JsString.

(** *** C2: the order of the checks *)

Lemma firstReject_cons_false {R} (r : R) tests :
  firstReject ((false, r) :: tests) = firstReject tests.
Proof. reflexivity. Qed.

Local Ltac returned :=
  split; [reflexivity|]; split; [intros _; split; reflexivity|];
  split; [intros ?; discriminate|]; intros; reflexivity.

(** C2. [onDidChange] of [src/extension.ts] tests, in this order,
    suppression, the storage directory, the path classifier and the
    debounce map; the first test that holds makes it return with nothing
    changed; if none holds it records the time and suspends for 200 ms,
    after which [openFile] starts whatever the suppression flag is then,
    and no batch detector is asked.  [handleFileChange] of [extension.js]
    tests, in this order, the switch with the path classifier, the
    debounce cache and the visible editors, suspends for the batch window
    and then asks the batch detector only; it has no suppression. *)
Theorem check_order :
  (forall env uri g,
      let rel := asRelativePath uri in
      let seg := CursorAutoOpen.onDidChange env uri g in
      reasonOf seg =
        firstReject
          [ (CursorAutoOpen.isPackageManagerRunning g,
             CursorAutoOpen.PackageManagerRunning);
            (includes rel "storage/" || includes rel "storage\",
             CursorAutoOpen.StorageDirectory);
            (negb (CursorAutoOpen.shouldAutoOpen uri),
             CursorAutoOpen.CriteriaNotMet);
            (now env - default 0 (CursorAutoOpen.lastCheckedFiles g !! fsPath uri)
               <? 2000,
             CursorAutoOpen.Debounced) ]
      /\ (is_Some (reasonOf seg) -> seg.1.1 = g /\ seg.2 = [])
      /\ (reasonOf seg = None ->
          seg = (CursorAutoOpen.with_lastCheckedFiles
                   (<[fsPath uri := now env]> (CursorAutoOpen.lastCheckedFiles g)) g,
                 CursorAutoOpen.Await (CursorAutoOpen.AwaitSettle 200), []))
      /\ (forall env' r g' ms,
            CursorAutoOpen.resume env' (CursorAutoOpen.AwaitSettle ms) uri r g'
            = (g', CursorAutoOpen.Await CursorAutoOpen.AwaitAccess,
               [FsAccess (fsPath uri)])))
  /\ (forall env uri st,
        let p := fsPath uri in
        let res := OpenChangedFiles.handleFileChange autoOpen env uri st in
        skipOf res.2 =
          firstReject
            [ (negb autoOpen || negb (OpenChangedFiles.shouldOpenFile p),
               OpenChangedFiles.NotEligible);
              (OpenChangedFiles.checkedRecently
                 (OpenChangedFiles.recentChecks st !! p) (now env),
               OpenChangedFiles.Duplicate);
              (OpenChangedFiles.isFileOpenByUser (visibleTextEditors env) p,
               OpenChangedFiles.OpenByUser) ]
        /\ (skipOf res.2 = Some OpenChangedFiles.NotEligible
            \/ skipOf res.2 = Some OpenChangedFiles.Duplicate -> res.1 = st)
        /\ (skipOf res.2 = None ->
            res.2 = OpenChangedFiles.Suspended OpenChangedFiles.BATCH_DETECTION_WINDOW)
        /\ (forall env' stat opened st',
              let calls :=
                OpenChangedFiles.handleFileChange_resume env' stat opened uri st' in
              if OpenChangedFiles.isLikelyBatchOperation (now env')
                   (OpenChangedFiles.recentFileChanges st')
              then calls = []
              else forall size v,
                  stat = Resolved size -> overFiftyMB size = false ->
                  opened = Resolved v ->
                  calls = [FsStat p; OpenTextDocument uri; ShowTextDocument uri])).
Proof.
  split.
  - intros env uri g rel seg. subst seg.
    unfold CursorAutoOpen.onDidChange. fold rel.
    destruct (CursorAutoOpen.isPackageManagerRunning g); [returned|].
    rewrite firstReject_cons_false.
    destruct (includes rel "storage/" || includes rel "storage\"); [returned|].
    rewrite firstReject_cons_false.
    destruct (CursorAutoOpen.shouldAutoOpen uri); simpl negb; [|returned].
    rewrite firstReject_cons_false.
    destruct (_ <? 2000); [returned|].
    split; [reflexivity|]. split; [intros [? ?]; discriminate|].
    split; [reflexivity|]. intros; reflexivity.
  - intros env uri st p res. subst res p.
    unfold OpenChangedFiles.handleFileChange.
    destruct (negb autoOpen || negb (OpenChangedFiles.shouldOpenFile (fsPath uri))).
    { repeat split; try done. intros env' stat opened st'.
      unfold OpenChangedFiles.handleFileChange_resume.
      destruct (OpenChangedFiles.isLikelyBatchOperation _ _); [done|].
      by intros size v -> -> ->. }
    rewrite firstReject_cons_false.
    destruct (OpenChangedFiles.checkedRecently _ _).
    { repeat split; try done. intros env' stat opened st'.
      unfold OpenChangedFiles.handleFileChange_resume.
      destruct (OpenChangedFiles.isLikelyBatchOperation _ _); [done|].
      by intros size v -> -> ->. }
    rewrite firstReject_cons_false.
    destruct (OpenChangedFiles.isFileOpenByUser _ _).
    { repeat split; try done; [by intros [?|?]|]. intros env' stat opened st'.
      unfold OpenChangedFiles.handleFileChange_resume.
      destruct (OpenChangedFiles.isLikelyBatchOperation _ _); [done|].
      by intros size v -> -> ->. }
    repeat split; try done; [by intros [?|?]|]. intros env' stat opened st'.
    unfold OpenChangedFiles.handleFileChange_resume.
    destruct (OpenChangedFiles.isLikelyBatchOperation _ _); [done|].
    by intros size v -> -> ->.
Qed.

(** *** C6: the debounce ledgers *)

Lemma onDidChange_accepts env uri g :
  CursorAutoOpen.isPackageManagerRunning g = false ->
  includes (asRelativePath uri) "storage/"
    || includes (asRelativePath uri) "storage\" = false ->
  CursorAutoOpen.shouldAutoOpen uri = true ->
  (now env - default 0 (CursorAutoOpen.lastCheckedFiles g !! fsPath uri) <? 2000)
    = false ->
  CursorAutoOpen.onDidChange env uri g
  = (CursorAutoOpen.with_lastCheckedFiles
       (<[fsPath uri := now env]> (CursorAutoOpen.lastCheckedFiles g)) g,
     CursorAutoOpen.Await (CursorAutoOpen.AwaitSettle 200), []).
Proof.
  intros Hr Hst Hok Hfresh. unfold CursorAutoOpen.onDidChange.
  by rewrite Hr, Hst, Hok, Hfresh.
Qed.

Lemma onDidChange_debounced env uri g :
  CursorAutoOpen.isPackageManagerRunning g = false ->
  includes (asRelativePath uri) "storage/"
    || includes (asRelativePath uri) "storage\" = false ->
  CursorAutoOpen.shouldAutoOpen uri = true ->
  (now env - default 0 (CursorAutoOpen.lastCheckedFiles g !! fsPath uri) <? 2000)
    = true ->
  CursorAutoOpen.onDidChange env uri g
  = (g, CursorAutoOpen.Return CursorAutoOpen.Debounced, []).
Proof.
  intros Hr Hst Hok Hold. unfold CursorAutoOpen.onDidChange.
  by rewrite Hr, Hst, Hok, Hold.
Qed.

(** C6. For a path that reaches the debounce test and whose entry in the
    map, if there is one, is 0 or at least a TTL older than [t] (a
    timestamp, so not 0), the call at [t] is accepted and stores [t]; a
    call at [t'] with [t' - t < TTL] is rejected and leaves every variable
    as it was; a call at [t''] with [t'' - t >= TTL] is accepted again and
    stores [t''].  TTL is 1000 ms in [extension.js] and 2000 ms in
    [src/extension.ts]. *)
Theorem debounce_idempotence :
  (forall env1 env2 env3 uri st,
      let p := fsPath uri in
      let ttl := OpenChangedFiles.CHECK_CACHE_TTL in
      autoOpen && OpenChangedFiles.shouldOpenFile p = true ->
      (forall t0, OpenChangedFiles.recentChecks st !! p = Some t0 ->
                  t0 = 0 \/ ttl <= now env1 - t0) ->
      now env1 <> 0 ->
      now env2 - now env1 < ttl ->
      ttl <= now env3 - now env1 ->
      let r1 := OpenChangedFiles.handleFileChange autoOpen env1 uri st in
      let r2 := OpenChangedFiles.handleFileChange autoOpen env2 uri r1.1 in
      let r3 := OpenChangedFiles.handleFileChange autoOpen env3 uri r2.1 in
      OpenChangedFiles.passedDebounce r1.2 = true
      /\ OpenChangedFiles.recentChecks r1.1 !! p = Some (now env1)
      /\ r2 = (r1.1, OpenChangedFiles.Skipped OpenChangedFiles.Duplicate)
      /\ OpenChangedFiles.passedDebounce r3.2 = true
      /\ OpenChangedFiles.recentChecks r3.1 !! p = Some (now env3))
  /\ (forall env1 env2 env3 uri g,
        let p := fsPath uri in
        let rel := asRelativePath uri in
        CursorAutoOpen.isPackageManagerRunning g = false ->
        includes rel "storage/" || includes rel "storage\" = false ->
        CursorAutoOpen.shouldAutoOpen uri = true ->
        (now env1 - default 0 (CursorAutoOpen.lastCheckedFiles g !! p) <? 2000)
          = false ->
        now env2 - now env1 < 2000 ->
        2000 <= now env3 - now env1 ->
        let s1 := CursorAutoOpen.onDidChange env1 uri g in
        let s2 := CursorAutoOpen.onDidChange env2 uri s1.1.1 in
        let s3 := CursorAutoOpen.onDidChange env3 uri s2.1.1 in
        s1.1.2 = CursorAutoOpen.Await (CursorAutoOpen.AwaitSettle 200)
        /\ CursorAutoOpen.lastCheckedFiles s1.1.1 !! p = Some (now env1)
        /\ s2 = (s1.1.1, CursorAutoOpen.Return CursorAutoOpen.Debounced, [])
        /\ s3.1.2 = CursorAutoOpen.Await (CursorAutoOpen.AwaitSettle 200)
        /\ CursorAutoOpen.lastCheckedFiles s3.1.1 !! p = Some (now env3)).
Proof.
  split.
  - intros env1 env2 env3 uri st p ttl He Hold Ht0 Ht2 Ht3 r1 r2 r3.
    subst r3 r2 r1 p ttl. unfold OpenChangedFiles.CHECK_CACHE_TTL in *.
    assert (Hfresh : OpenChangedFiles.checkedRecently
                       (OpenChangedFiles.recentChecks st !! fsPath uri) (now env1)
                     = false).
    { destruct (OpenChangedFiles.recentChecks st !! fsPath uri) as [t0|]; [|done].
      simpl. destruct (Hold t0 eq_refl) as [-> | Hage]; [done|].
      apply andb_false_iff. right. apply Z.ltb_ge.
      unfold OpenChangedFiles.CHECK_CACHE_TTL. lia. }
    rewrite (OpenChangedFilesFacts.handleFileChange_accepts autoOpen env1) by done.
    set (st1 := {| OpenChangedFiles.recentChecks := _ |}).
    assert (H1 : OpenChangedFiles.recentChecks st1 !! fsPath uri = Some (now env1)).
    { simpl. apply OpenChangedFilesFacts.cleanOld_keeps;
        [apply lookup_insert_eq|unfold OpenChangedFiles.CHECK_CACHE_TTL; lia]. }
    simpl fst. simpl snd.
    assert (Hdup : OpenChangedFiles.checkedRecently
                     (OpenChangedFiles.recentChecks st1 !! fsPath uri) (now env2)
                   = true).
    { rewrite H1. simpl. apply andb_true_iff. split.
      - apply negb_true_iff, Z.eqb_neq. done.
      - apply Z.ltb_lt. unfold OpenChangedFiles.CHECK_CACHE_TTL. lia. }
    rewrite (OpenChangedFilesFacts.handleFileChange_duplicate autoOpen env2) by done.
    simpl fst.
    assert (Hagain : OpenChangedFiles.checkedRecently
                       (OpenChangedFiles.recentChecks st1 !! fsPath uri) (now env3)
                     = false).
    { rewrite H1. simpl. apply andb_false_iff. right.
      apply Z.ltb_ge. unfold OpenChangedFiles.CHECK_CACHE_TTL. lia. }
    rewrite (OpenChangedFilesFacts.handleFileChange_accepts autoOpen env3) by done.
    simpl fst. simpl snd.
    split; [by destruct (OpenChangedFiles.isFileOpenByUser _ _)|].
    split; [done|]. split; [done|].
    split; [by destruct (OpenChangedFiles.isFileOpenByUser _ _)|].
    apply OpenChangedFilesFacts.cleanOld_keeps;
      [apply lookup_insert_eq|unfold OpenChangedFiles.CHECK_CACHE_TTL; lia].
  - intros env1 env2 env3 uri g p rel Hr Hst Hok Hfresh Ht2 Ht3 s1 s2 s3.
    subst s3 s2 s1 p rel.
    rewrite (onDidChange_accepts env1) by done.
    set (g1 := CursorAutoOpen.with_lastCheckedFiles _ g).
    assert (H1 : CursorAutoOpen.lastCheckedFiles g1 !! fsPath uri = Some (now env1))
      by apply lookup_insert_eq.
    simpl fst. simpl snd.
    rewrite (onDidChange_debounced env2 uri g1); try done;
      [|rewrite H1; simpl; apply Z.ltb_lt; lia].
    simpl fst.
    rewrite (onDidChange_accepts env3 uri g1); try done;
      [|rewrite H1; simpl; apply Z.ltb_ge; lia].
    simpl. split; [done|]. split; [done|]. split; [done|]. split; [done|].
    apply lookup_insert_eq.
Qed.


(** *** C8: visibility *)

(** C8. In [extension.js] an event whose path some visible editor shows
    when the handler runs ends there: nothing is scheduled and no host
    call is made; the wake-up after the wait does not look at the editors.
    In [src/extension.ts] the text-change and save handlers return at
    once for a visible path, the create and change handlers do not look
    at the editors, and nothing before the scan of [openFile] is an open
    action.  In the scan, if a document of the file with scheme [file] is
    in memory and a visible editor shows the path, the step issues no
    host call and schedules nothing more; if no such document is in
    memory the call goes on to the [vscode.open] command, whatever the
    editors show. *)
Theorem visibility_precedence :
  (forall c env uri c' calls,
      OpenChangedFiles.isFileOpenByUser (visibleTextEditors env) (fsPath uri) = true ->
      OpenChangedFiles.step autoOpen c env (OpenChangedFiles.Notified uri)
        = Some (c', calls) ->
      calls = [] /\ OpenChangedFiles.sleeping c' = OpenChangedFiles.sleeping c)
  /\ (forall c env k r t doc c1 calls1,
        CursorAutoOpen.tasks c !! k = Some t ->
        CursorAutoOpen.at_pc t = CursorAutoOpen.AwaitStat ->
        In doc (textDocuments env) ->
        fsPath doc = fsPath (CursorAutoOpen.target t) ->
        scheme doc = "file" ->
        someEditorShows (visibleTextEditors env)
          (fsPath (CursorAutoOpen.target t)) = true ->
        CursorAutoOpen.step c env (CursorAutoOpen.Settled k r) = Some (c1, calls1) ->
        calls1 = [] /\ CursorAutoOpen.tasks c1 = delete k (CursorAutoOpen.tasks c))
  /\ (forall c env d i c1 calls1,
        someEditorShows (visibleTextEditors env) (fsPath d) = true ->
        i = CursorAutoOpen.TextChanged d \/ i = CursorAutoOpen.DocumentSaved d ->
        CursorAutoOpen.step c env i = Some (c1, calls1) ->
        calls1 = [] /\ CursorAutoOpen.tasks c1 = CursorAutoOpen.tasks c)
  /\ (forall env uri r g ms,
        existsb isOpenAction (CursorAutoOpen.onDidCreate env uri g).2 = false
        /\ existsb isOpenAction (CursorAutoOpen.onDidChange env uri g).2 = false
        /\ existsb isOpenAction
             (CursorAutoOpen.resume env (CursorAutoOpen.AwaitSettle ms) uri r g).2 = false
        /\ existsb isOpenAction
             (CursorAutoOpen.resume env CursorAutoOpen.AwaitAccess uri r g).2 = false)
  /\ (forall env uri g,
        (forall doc, In doc (textDocuments env) -> fsPath doc = fsPath uri ->
                     scheme doc <> "file") ->
        CursorAutoOpen.scanOpenDocuments env uri g
        = (g, CursorAutoOpen.Await CursorAutoOpen.AwaitOpenDelay, [])
        /\ forall env' r,
            CursorAutoOpen.resume env' CursorAutoOpen.AwaitOpenDelay uri r g
            = (g, CursorAutoOpen.Await CursorAutoOpen.AwaitCommand, [ExecuteOpen uri]))
  /\ (forall env env' uri g,
        now env = now env' ->
        CursorAutoOpen.onDidCreate env uri g = CursorAutoOpen.onDidCreate env' uri g
        /\ CursorAutoOpen.onDidChange env uri g = CursorAutoOpen.onDidChange env' uri g)
  /\ (forall env env' stat opened uri st,
        now env = now env' ->
        OpenChangedFiles.handleFileChange_resume env stat opened uri st
        = OpenChangedFiles.handleFileChange_resume env' stat opened uri st).
Proof.
  split; [|split; [|split; [|split; [|split; [|split]]]]].
  - intros c env uri c' calls Hv. unfold OpenChangedFiles.step.
    case_bool_decide; [done|].
    unfold OpenChangedFiles.handleFileChange.
    destruct (negb autoOpen || _); [by intros [= <- <-]|].
    destruct (OpenChangedFiles.checkedRecently _ _); [by intros [= <- <-]|].
    rewrite Hv. by intros [= <- <-].
  - intros c env k r t doc c1 calls1 Hk Hpc Hin Hp Hs Hv.
    unfold CursorAutoOpen.step. case_bool_decide; [done|]. rewrite Hk.
    case_bool_decide; [done|]. rewrite Hpc. simpl.
    rewrite (CursorAutoOpenFacts.scanOpenDocuments_visible env _ _ doc) by done.
    destruct r as [size|msg]; [destruct (overFiftyMB size)|];
      by intros [= <- <-].
  - intros c env d i c1 calls1 Hv Hi. unfold CursorAutoOpen.step.
    case_bool_decide; [done|].
    destruct Hi as [-> | ->];
      unfold CursorAutoOpen.onDidChangeTextDocument,
             CursorAutoOpen.onDidSaveTextDocument;
      rewrite Hv; simpl;
      destruct (CursorAutoOpen.isPackageManagerRunning _);
      try (by intros [= <- <-]);
      destruct (_ && _); by intros [= <- <-].
  - intros env uri r g ms.
    unfold CursorAutoOpen.onDidCreate, CursorAutoOpen.onDidChange.
    repeat split.
    + destruct (CursorAutoOpen.isPackageManagerRunning g); [done|].
      by destruct (CursorAutoOpen.shouldAutoOpen uri).
    + destruct (CursorAutoOpen.isPackageManagerRunning g); [done|].
      destruct (_ || _); [done|].
      destruct (CursorAutoOpen.shouldAutoOpen uri); [|done].
      by destruct (_ <? _).
    + by destruct r.
  - intros env uri g Hnone. split; [|done].
    unfold CursorAutoOpen.scanOpenDocuments.
    destruct (find _ _) as [d|] eqn:Hf; [|done].
    apply find_some in Hf as [Hin Hd]. apply andb_true_iff in Hd as [Hp Hs].
    apply String.eqb_eq in Hp, Hs. by destruct (Hnone d Hin Hp).
  - intros env env' uri g Hnow.
    unfold CursorAutoOpen.onDidCreate, CursorAutoOpen.onDidChange.
    by rewrite Hnow.
  - intros env env' stat opened uri st Hnow.
    unfold OpenChangedFiles.handleFileChange_resume. by rewrite Hnow.
Qed.

End Facts.

(** *** Concrete runs *)

Import Examples.

(** C2, refuted as worded: with suppression active and a path the
    classifier denies, the worded sequence rejects at the path classifier
    but [onDidChange] returns at the suppression test; and a change that
    passed every test before suppression began is still opened after the
    wait, where the worded engine would re-test suppression and stop. *)
Lemma worded_order_refuted :
  let uri := fileUri "/w/vendor/a.php" in
  let env := at_time 5000 in
  let rejects (ch : Claimed.Check) :=
    match ch with
    | Claimed.PathClassifier => negb (CursorAutoOpen.shouldAutoOpen (H := Posix.host) uri)
    | Claimed.Suppression => CursorAutoOpen.isPackageManagerRunning suppressed
    | Claimed.DebounceLedger =>
        now env - default 0 (CursorAutoOpen.lastCheckedFiles suppressed !! fsPath uri)
          <? 2000
    | Claimed.Visibility => someEditorShows (visibleTextEditors env) (fsPath uri)
    end in
  (Claimed.firstRejecting rejects = Some Claimed.PathClassifier
   /\ (reasonOf (CursorAutoOpen.onDidChange (H := Posix.host) env uri suppressed)
         ≫= Claimed.checkOf) = Some Claimed.Suppression)
  /\ exists c log,
      CursorAutoOpen.run (H := Posix.host) (CursorAutoOpen.initial 0) change_then_install
        = Some (c, log)
      /\ Claimed.proceedsAfterWait
           (CursorAutoOpen.isPackageManagerRunning (CursorAutoOpen.globals c)) false
         = false
      /\ (snd <$> CursorAutoOpen.step (H := Posix.host) c (at_time 5502)
                    (CursorAutoOpen.Settled 0 (Resolved 0)))
         = Some [ExecuteOpen (fileUri "/w/src/a.ts")].
Proof.
  split; [split; vm_compute; reflexivity|].
  destruct (CursorAutoOpen.run (H := Posix.host) (CursorAutoOpen.initial 0)
              change_then_install) as [[c log]|] eqn:Hrun;
    [|vm_compute in Hrun; discriminate].
  exists c, log. split; [reflexivity|].
  vm_compute in Hrun. injection Hrun as <- _.
  split; vm_compute; reflexivity.
Qed.

(** C3, refuted as worded: an open-file action is issued while
    suppression is active, by a handler call that passed the suppression
    test 100 ms before suppression began. *)
Lemma opens_while_suppressed :
  ~ Claimed.neverOpensWhileSuppressed (H := Posix.host).
Proof.
  intros Hnever.
  destruct (CursorAutoOpen.run (H := Posix.host) (CursorAutoOpen.initial 0)
              change_then_install) as [[c log]|] eqn:Hrun;
    [|vm_compute in Hrun; discriminate].
  destruct (CursorAutoOpen.step (H := Posix.host) c (at_time 5502)
              (CursorAutoOpen.Settled 0 (Resolved 0))) as [[c' calls]|] eqn:Hstep;
    [|vm_compute in Hrun; injection Hrun as <- _; vm_compute in Hstep; discriminate].
  assert (Hactive : CursorAutoOpen.isPackageManagerRunning (CursorAutoOpen.globals c)
                    = true).
  { vm_compute in Hrun. by injection Hrun as <- _. }
  specialize (Hnever 0 change_then_install c log (at_time 5502)
                (CursorAutoOpen.Settled 0 (Resolved 0)) c' calls Hrun Hactive Hstep).
  vm_compute in Hrun. injection Hrun as <- _.
  vm_compute in Hstep. injection Hstep as _ <-. discriminate.
Qed.

(** C5, refuted as worded: a path under [mystorage/framework/views] meets
    none of the three worded conditions, yet [shouldAutoOpen] denies it. *)
Lemma storage_views_denied :
  let uri := fileUri "/w/mystorage/framework/views/a.php" in
  Claimed.classifierDenies
    CursorAutoOpen.EXCLUDED_DIRS
    (CursorAutoOpen.test <$> CursorAutoOpen.DISALLOWED_PATTERNS)
    CursorAutoOpen.ALLOWED_EXTENSIONS
    (JsString.split (path_sep (Host := Posix.host))
       (asRelativePath (Host := Posix.host) uri))
    (path_basename (Host := Posix.host) (fsPath uri))
    (path_extname (Host := Posix.host) (fsPath uri)) = false
  /\ CursorAutoOpen.shouldAutoOpen (H := Posix.host) uri = false.
Proof. split; vm_compute; reflexivity. Qed.

(** C8, refuted as worded: a visible editor shows the path through a
    document of scheme [git] at every step, and [openFile] still issues
    the [vscode.open] command; and in [extension.js] a file the user has
    opened during the 500 ms wait is opened again when the timer fires. *)
Lemma shown_yet_opened :
  (forallb (fun x => someEditorShows (visibleTextEditors (fst x)) "/w/src/a.ts")
     MoreExamples.create_while_shown = true
   /\ (snd <$> CursorAutoOpen.run (H := Posix.host) (CursorAutoOpen.initial 0)
                 MoreExamples.create_while_shown)
      = Some [ FsAccess "/w/src/a.ts"; FsStat "/w/src/a.ts";
               ExecuteOpen (fileUri "/w/src/a.ts") ])
  /\ (OpenChangedFiles.isFileOpenByUser
        (visibleTextEditors (showing 1500 "/w/a.js")) "/w/a.js" = true
      /\ (snd <$> OpenChangedFiles.run (H := Posix.host) true
                    (OpenChangedFiles.initial 0) MoreExamples.shown_during_wait)
         = Some [ FsStat "/w/a.js"; OpenTextDocument (fileUri "/w/a.js");
                  ShowTextDocument (fileUri "/w/a.js") ]).
Proof. repeat split; vm_compute; reflexivity. Qed.

End Decisions.

(** * The theorems at concrete inputs *)

Module Witnesses.

Import Examples.

Lemma suppressed_events_ignored_witness :
  (snd <$> CursorAutoOpen.step (H := Posix.host) suppressedConfig (at_time 2000)
             (CursorAutoOpen.FileCreated (fileUri "/w/src/a.ts"))) = Some [].
Proof.
  destruct (CursorAutoOpen.step (H := Posix.host) suppressedConfig (at_time 2000)
              (CursorAutoOpen.FileCreated (fileUri "/w/src/a.ts")))
    as [[c' calls]|] eqn:Hstep; [|vm_compute in Hstep; discriminate].
  destruct (CursorAutoOpenFacts.suppressed_events_ignored (H := Posix.host)
              suppressedConfig (at_time 2000)
              (CursorAutoOpen.FileCreated (fileUri "/w/src/a.ts")) c' calls
              eq_refl eq_refl Hstep) as [[-> _] _].
  reflexivity.
Defined.

Lemma cooldown_extension_witness :
  let c := CursorAutoOpen.handlePackageManagerActivity (at_time 1000) "lock file"
             (CursorAutoOpen.initial 0) in
  let c' := CursorAutoOpen.handlePackageManagerActivity (at_time 5000) "package.json" c in
  CursorAutoOpen.timeouts c' = {[ 1%nat := 35000 ]}
  /\ CursorAutoOpen.activityStartTime (CursorAutoOpen.globals c') = 1000.
Proof.
  intros c c'.
  destruct (CursorAutoOpenFacts.cooldown_extension (H := Posix.host) 0 install_started
              c [] eq_refl eq_refl) as [Hext _].
  destruct (Hext (at_time 5000) "package.json" c' [] eq_refl)
    as ((h' & Hh & Ht & _) & Hstart & _).
  injection Hh as <-. split; [exact Ht|exact Hstart].
Defined.


Lemma debounce_idempotence_witness :
  let uri := fileUri "/w/src/a.ts" in
  (OpenChangedFiles.handleFileChange (H := Posix.host) true (at_time 5400) uri
     (OpenChangedFiles.handleFileChange (H := Posix.host) true (at_time 5000) uri
        (MoreExamples.stale "/w/src/a.ts")).1).2
  = OpenChangedFiles.Skipped OpenChangedFiles.Duplicate
  /\ (CursorAutoOpen.onDidChange (H := Posix.host) (at_time 6500) uri
        (CursorAutoOpen.onDidChange (H := Posix.host) (at_time 5000) uri
           CursorAutoOpen.activated).1.1).1.2
     = CursorAutoOpen.Return CursorAutoOpen.Debounced.
Proof.
  intros uri.
  destruct (Decisions.debounce_idempotence (H := Posix.host) true) as [Hjs Hts].
  split.
  - destruct (Hjs (at_time 5000) (at_time 5400) (at_time 6000) uri
                (MoreExamples.stale "/w/src/a.ts") eq_refl)
      as (_ & _ & -> & _); [|discriminate|reflexivity|discriminate|reflexivity].
    intros t0 Ht0. right. vm_compute in Ht0. injection Ht0 as <-.
    vm_compute. discriminate.
  - destruct (Hts (at_time 5000) (at_time 6500) (at_time 7000) uri
                CursorAutoOpen.activated eq_refl eq_refl eq_refl eq_refl)
      as (_ & _ & -> & _); [reflexivity|discriminate|reflexivity].
Defined.

Lemma visibility_precedence_witness :
  let p := "/w/src/a.ts" in
  (snd <$> OpenChangedFiles.step (H := Posix.host) true (OpenChangedFiles.initial 0)
             (showing 6000 p) (OpenChangedFiles.Notified (fileUri p))) = Some []
  /\ (snd <$> CursorAutoOpen.step (H := Posix.host) (scanning p) (showing 6000 p)
                (CursorAutoOpen.Settled 0 (Resolved 10))) = Some [].
Proof.
  intros p.
  destruct (Decisions.visibility_precedence (H := Posix.host) true)
    as (Hjs & Hscan & _ & _).
  split.
  - destruct (OpenChangedFiles.step (H := Posix.host) true (OpenChangedFiles.initial 0)
                (showing 6000 p) (OpenChangedFiles.Notified (fileUri p)))
      as [[c' calls]|] eqn:Hstep; [|vm_compute in Hstep; discriminate].
    destruct (Hjs _ (showing 6000 p) (fileUri p) _ _ eq_refl Hstep) as [-> _].
    reflexivity.
  - destruct (CursorAutoOpen.step (H := Posix.host) (scanning p) (showing 6000 p)
                (CursorAutoOpen.Settled 0 (Resolved 10)))
      as [[c1 calls1]|] eqn:Hstep; [|vm_compute in Hstep; discriminate].
    destruct (Hscan (scanning p) (showing 6000 p) 0%nat (Resolved 10) _ (fileUri p) c1 calls1
                eq_refl eq_refl (or_introl eq_refl) eq_refl eq_refl eq_refl Hstep)
      as [-> _].
    reflexivity.
Defined.

End Witnesses.

(** * Further properties of extension.js *)

Module OpenChangedFilesMore.

Import OpenChangedFiles OpenChangedFilesRuns.

Section Facts.

Context `{Host}.
Variable autoOpen : bool.

(** *** Counting the burst window *)

Lemma count_values (P : Z -> Prop) `{!forall v, Decision (P v)} (m : gmap string Z) :
  length (filter P (map snd (map_to_list m)))
  = size (filter (fun kv : string * Z => P kv.2) m).
Proof.
  induction m as [|k v m Hk _ IH] using map_first_key_ind.
  - by rewrite map_to_list_empty, map_filter_empty, map_size_empty.
  - rewrite map_to_list_insert by done. simpl.
    rewrite filter_cons. simpl. destruct (decide (P v)) as [HP|HP].
    + rewrite map_filter_insert_True by done.
      rewrite map_size_insert_None; [simpl; by rewrite IH|].
      apply map_lookup_filter_None. by left.
    + rewrite map_filter_insert_False by done.
      rewrite delete_id by done. exact IH.
Qed.

Lemma isLikelyBatchOperation_size t (m : gmap string Z) :
  isLikelyBatchOperation t m = bool_decide (3 <= size (inWindow t m))%nat.
Proof. unfold isLikelyBatchOperation, inWindow. by rewrite count_values. Qed.

(** X1. The batch check answers [true] exactly when three distinct paths
    have an entry recorded less than 500 ms before the check. *)
Theorem batch_verdict_three_paths t (m : gmap string Z) :
  isLikelyBatchOperation t m = true <->
  exists k1 k2 k3 v1 v2 v3,
    k1 <> k2 /\ k1 <> k3 /\ k2 <> k3
    /\ m !! k1 = Some v1 /\ m !! k2 = Some v2 /\ m !! k3 = Some v3
    /\ t - v1 < BATCH_DETECTION_WINDOW
    /\ t - v2 < BATCH_DETECTION_WINDOW
    /\ t - v3 < BATCH_DETECTION_WINDOW.
Proof.
  rewrite isLikelyBatchOperation_size, bool_decide_eq_true.
  set (w := inWindow t m).
  assert (Hw : forall k v, w !! k = Some v <->
                           m !! k = Some v /\ t - v < BATCH_DETECTION_WINDOW).
  { intros k v. unfold w, inWindow. by rewrite map_lookup_filter_Some. }
  split.
  - intros Hsz. rewrite <- length_map_to_list in Hsz.
    pose proof (NoDup_fst_map_to_list w) as Hnd.
    assert (Hin : forall kv, kv ∈ map_to_list w -> w !! kv.1 = Some kv.2).
    { intros [k v]. apply elem_of_map_to_list. }
    destruct (map_to_list w) as [|[k1 v1] [|[k2 v2] [|[k3 v3] rest]]];
      simpl in Hsz; try lia.
    csimpl in Hnd. apply NoDup_cons in Hnd as [Hn1 Hnd].
    apply NoDup_cons in Hnd as [Hn2 _].
    exists k1, k2, k3, v1, v2, v3.
    assert (H1 : w !! k1 = Some v1) by (apply (Hin (k1, v1)); left).
    assert (H2 : w !! k2 = Some v2) by (apply (Hin (k2, v2)); right; left).
    assert (H3 : w !! k3 = Some v3) by (apply (Hin (k3, v3)); right; right; left).
    apply Hw in H1 as [? ?]. apply Hw in H2 as [? ?]. apply Hw in H3 as [? ?].
    apply not_elem_of_cons in Hn1 as [? Hn1].
    apply not_elem_of_cons in Hn1 as [? _].
    apply not_elem_of_cons in Hn2 as [? _].
    repeat split; done.
  - intros (k1 & k2 & k3 & v1 & v2 & v3 & H12 & H13 & H23 & H1 & H2 & H3 & ? & ? & ?).
    assert (Hsub : ({[k1]} ∪ ({[k2]} ∪ {[k3]}) : gset string) ⊆ dom w).
    { intros k Hk. apply elem_of_dom.
      apply elem_of_union in Hk as [Hk|Hk];
        [|apply elem_of_union in Hk as [Hk|Hk]];
        apply elem_of_singleton in Hk; subst k;
        eexists; apply Hw; eauto. }
    apply subseteq_size in Hsub. rewrite size_dom in Hsub.
    rewrite size_union, size_union, !size_singleton in Hsub; [lia| |].
    + by apply disjoint_singleton_l, not_elem_of_singleton.
    + apply disjoint_singleton_l. rewrite not_elem_of_union, !not_elem_of_singleton.
      done.
Qed.

Lemma cleanOld_changes_invisible limit t t' (m : gmap string Z) :
  t - BATCH_DETECTION_WINDOW <= t' ->
  isLikelyBatchOperation t' (cleanOld limit (t - BATCH_DETECTION_WINDOW * 2) m)
  = isLikelyBatchOperation t' m.
Proof.
  intros Ht. rewrite !isLikelyBatchOperation_size.
  assert (inWindow t' (cleanOld limit (t - BATCH_DETECTION_WINDOW * 2) m)
          = inWindow t' m) as ->; [|done].
  unfold cleanOld. case_bool_decide; [|done].
  unfold inWindow. rewrite map_filter_filter.
  apply map_filter_ext. intros k v _. simpl.
  unfold BATCH_DETECTION_WINDOW in *. lia.
Qed.

Lemma cleanOld_checks_invisible limit t t' (m : gmap string Z) q :
  t - CHECK_CACHE_TTL * 9 <= t' ->
  checkedRecently (cleanOld limit (t - CHECK_CACHE_TTL * 10) m !! q) t'
  = checkedRecently (m !! q) t'.
Proof.
  intros Ht. unfold cleanOld. case_bool_decide; [|done].
  destruct (m !! q) as [v|] eqn:Hq.
  - destruct (decide (v < t - CHECK_CACHE_TTL * 10)) as [Hold|Hnew].
    + assert (filter (fun kv : string * Z => ¬ kv.2 < t - CHECK_CACHE_TTL * 10) m !! q
              = None) as ->.
      { apply map_lookup_filter_None. right. intros v' Hv'. simpl.
        rewrite Hq in Hv'. injection Hv' as <-. tauto. }
      simpl. apply eq_sym, andb_false_iff. right. apply Z.ltb_ge.
      unfold CHECK_CACHE_TTL in *. lia.
    + assert (filter (fun kv : string * Z => ¬ kv.2 < t - CHECK_CACHE_TTL * 10) m !! q
              = Some v) as ->; [|done].
      apply map_lookup_filter_Some. split; [done|]. simpl. tauto.
  - assert (filter (fun kv : string * Z => ¬ kv.2 < t - CHECK_CACHE_TTL * 10) m !! q
            = None) as ->; [|done].
    apply map_lookup_filter_None. by left.
Qed.

(** X2. The two cleaning loops never change a later decision: after an
    accepted event at time [now env], at every time from [now env] on the
    batch check and the debounce test answer as they would on the maps
    with the new entry merely inserted. *)
Theorem cleanup_is_invisible env uri st st' r t' :
  handleFileChange autoOpen env uri st = (st', r) ->
  passedDebounce r = true ->
  now env <= t' ->
  isLikelyBatchOperation t' (recentFileChanges st')
  = isLikelyBatchOperation t' (<[fsPath uri := now env]> (recentFileChanges st))
  /\ forall q,
      checkedRecently (recentChecks st' !! q) t'
      = checkedRecently (<[fsPath uri := now env]> (recentChecks st) !! q) t'.
Proof.
  intros Hh Hp Ht.
  destruct (OpenChangedFilesFacts.handleFileChange_passed _ _ _ _ _ _ Hh Hp)
    as [He Hd].
  rewrite OpenChangedFilesFacts.handleFileChange_accepts in Hh by done.
  injection Hh as <- _. simpl. split.
  - apply cleanOld_changes_invisible. unfold BATCH_DETECTION_WINDOW. lia.
  - intros q. apply cleanOld_checks_invisible. unfold CHECK_CACHE_TTL. lia.
Qed.

(** X18. An event that passes the debounce test is recorded with the
    current time in both maps, and the cleaning loops never drop that new
    entry; this holds also when the file is open in a visible editor, so a
    change to a visible file counts toward the bursts of other files for
    the next 500 ms. *)
Theorem accepted_event_recorded env uri st st' r :
  handleFileChange autoOpen env uri st = (st', r) ->
  passedDebounce r = true ->
  recentChecks st' !! fsPath uri = Some (now env)
  /\ recentFileChanges st' !! fsPath uri = Some (now env)
  /\ (r = Skipped OpenByUser
      <-> isFileOpenByUser (visibleTextEditors env) (fsPath uri) = true)
  /\ forall t', t' < now env + BATCH_DETECTION_WINDOW ->
                inWindow t' (recentFileChanges st') !! fsPath uri = Some (now env).
Proof.
  intros Hh Hp.
  destruct (OpenChangedFilesFacts.handleFileChange_passed _ _ _ _ _ _ Hh Hp)
    as [He Hd].
  rewrite OpenChangedFilesFacts.handleFileChange_accepts in Hh by done.
  injection Hh as <- <-. simpl.
  assert (Hrf : cleanOld 50 (now env - BATCH_DETECTION_WINDOW * 2)
                  (<[fsPath uri := now env]> (recentFileChanges st)) !! fsPath uri
                = Some (now env)).
  { apply OpenChangedFilesFacts.cleanOld_keeps;
      [apply lookup_insert_eq|unfold BATCH_DETECTION_WINDOW; lia]. }
  split; [|split; [exact Hrf|split]].
  - apply OpenChangedFilesFacts.cleanOld_keeps;
      [apply lookup_insert_eq|unfold CHECK_CACHE_TTL; lia].
  - by destruct (isFileOpenByUser _ _).
  - intros t' Ht'. unfold inWindow. apply map_lookup_filter_Some.
    split; [exact Hrf|]. simpl. lia.
Qed.

(** *** Runs: what is recorded and who sleeps *)

Lemma handleFileChange_changes_lookup env uri st k v :
  recentFileChanges (handleFileChange autoOpen env uri st).1 !! k = Some v ->
  v = now env \/ recentFileChanges st !! k = Some v.
Proof.
  destruct (autoOpen && shouldOpenFile (fsPath uri)) eqn:He.
  - destruct (checkedRecently (recentChecks st !! fsPath uri) (now env)) eqn:Hd.
    + rewrite OpenChangedFilesFacts.handleFileChange_duplicate by done. auto.
    + rewrite OpenChangedFilesFacts.handleFileChange_accepts by done. simpl.
      intros Hk. apply OpenChangedFilesFacts.cleanOld_lookup_Some in Hk.
      apply lookup_insert_Some in Hk as [[_ <-]|[_ Hk]]; auto.
  - rewrite OpenChangedFilesFacts.handleFileChange_not_eligible by done. auto.
Qed.

Lemma watcher_step_clock c env i c' calls :
  step autoOpen c env i = Some (c', calls) ->
  clock c <= now env /\ clock c' = now env.
Proof.
  unfold step. case_bool_decide as Hc; [done|]. destruct i as [uri|k stat opened].
  - destruct (handleFileChange autoOpen env uri (store c)). intros [= <- _].
    simpl. lia.
  - destruct (sleeping c !! k) as [[uri d]|]; [|done].
    case_bool_decide; [done|]. intros [= <- _]. simpl. lia.
Qed.

Lemma run_changes_bounded tr : forall b c c' log,
  run autoOpen c tr = Some (c', log) ->
  (forall k v, recentFileChanges (store c) !! k = Some v -> v <= b) ->
  b <= clock c ->
  forall k v, recentFileChanges (store c') !! k = Some v ->
              v <= default b (lastNotified tr).
Proof.
  induction tr as [|[env i] tr IH]; intros b c c' log Hrun Hb Hc k v Hk.
  - simpl in Hrun. assert (c' = c) as -> by congruence. simpl. eauto.
  - simpl in Hrun.
    destruct (step autoOpen c env i) as [[c1 calls1]|] eqn:Hstep; [|done].
    destruct (run autoOpen c1 tr) as [[c2 calls2]|] eqn:Hrest; [|done].
    assert (c' = c2) as -> by congruence.
    destruct (watcher_step_clock _ _ _ _ _ Hstep) as [Hle Hc1].
    destruct i as [uri|j stat opened].
    + apply OpenChangedFilesFacts.step_notified in Hstep as [Hst _].
      assert (Hb1 : forall k v, recentFileChanges (store c1) !! k = Some v ->
                                v <= now env).
      { intros k0 v0. rewrite Hst. intros H0.
        apply handleFileChange_changes_lookup in H0 as [->|H0]; [lia|].
        apply Hb in H0. lia. }
      specialize (IH (now env) c1 c2 calls2 Hrest Hb1 ltac:(lia) k v Hk).
      simpl. by destruct (lastNotified tr).
    + apply OpenChangedFilesFacts.step_woke_store in Hstep.
      rewrite <- Hstep in Hb.
      specialize (IH b c1 c2 calls2 Hrest Hb ltac:(lia) k v Hk).
      simpl. by destruct (lastNotified tr).
Qed.

(** X3. A call that wakes a full window or more after the most recent
    notification is never classified as a batch, whatever was recorded
    before: if the file exists and is not over 50 MB it is opened.  So
    the last file of every burst is opened. *)
Theorem quiet_wake_opens t0 tr c log t k uri due env size v c' calls :
  run autoOpen (initial t0) tr = Some (c, log) ->
  lastNotified tr = Some t ->
  sleeping c !! k = Some (uri, due) ->
  t + BATCH_DETECTION_WINDOW <= now env ->
  overFiftyMB size = false ->
  step autoOpen c env (Woke k (Resolved size) (Resolved v)) = Some (c', calls) ->
  isLikelyBatchOperation (now env) (recentFileChanges (store c)) = false
  /\ calls = [FsStat (fsPath uri); OpenTextDocument uri; ShowTextDocument uri].
Proof.
  intros Hrun Hlast Hk Hquiet Hsize Hstep.
  assert (Hnot : isLikelyBatchOperation (now env) (recentFileChanges (store c))
                 = false).
  { apply OpenChangedFilesFacts.isLikelyBatchOperation_aged. intros q w Hq.
    pose proof (run_changes_bounded tr t0 _ _ _ Hrun) as Hb.
    rewrite Hlast in Hb. simpl in Hb.
    specialize (Hb ltac:(intros ? ? H0; by rewrite lookup_empty in H0)
                   ltac:(lia) q w Hq). lia. }
  split; [exact Hnot|].
  revert Hstep. unfold step. case_bool_decide; [done|]. rewrite Hk.
  case_bool_decide; [done|]. intros [= _ <-].
  unfold handleFileChange_resume. by rewrite Hnot, Hsize.
Qed.

Lemma handleFileChange_suspended env uri st st' d :
  handleFileChange autoOpen env uri st = (st', Suspended d) -> eligible autoOpen uri.
Proof.
  intros Hh.
  destruct (OpenChangedFilesFacts.handleFileChange_passed _ _ _ _ _ _ Hh eq_refl)
    as [He _].
  by apply andb_true_iff in He.
Qed.

Lemma handleFileChange_resume_targets env stat opened uri st call u :
  call ∈ handleFileChange_resume env stat opened uri st ->
  openTarget call = Some u -> u = uri.
Proof.
  unfold handleFileChange_resume.
  destruct (isLikelyBatchOperation _ _); [by intros ?%elem_of_nil|].
  intros Hin Ht.
  apply elem_of_cons in Hin as [->|Hin]; [done|].
  destruct stat as [size|msg]; [|by apply elem_of_nil in Hin].
  destruct (overFiftyMB size); [by apply elem_of_nil in Hin|].
  apply elem_of_cons in Hin as [->|Hin]; [by injection Ht|].
  destruct opened; [|by apply elem_of_nil in Hin].
  apply list_elem_of_singleton in Hin as ->. by injection Ht.
Qed.

Lemma run_opens_eligible tr : forall c c' log,
  run autoOpen c tr = Some (c', log) ->
  Forall (fun s => eligible autoOpen s.1) (sleeping c) ->
  forall call u, call ∈ log -> openTarget call = Some u -> eligible autoOpen u.
Proof.
  induction tr as [|[env i] tr IH]; intros c c' log Hrun Hsl call u Hin Ht.
  - simpl in Hrun. assert (log = []) as -> by congruence.
    by apply elem_of_nil in Hin.
  - simpl in Hrun.
    destruct (step autoOpen c env i) as [[c1 calls1]|] eqn:Hstep; [|done].
    destruct (run autoOpen c1 tr) as [[c2 calls2]|] eqn:Hrest; [|done].
    assert (log = calls1 ++ calls2) as -> by congruence.
    revert Hstep. unfold step. case_bool_decide; [done|].
    destruct i as [uri|j stat opened].
    + destruct (handleFileChange autoOpen env uri (store c)) as [st' r] eqn:Hh.
      intros [= <- <-]. simpl in Hin.
      eapply (IH _ _ _ Hrest); [|done..]. simpl.
      destruct r as [why|d]; [done|].
      apply Forall_app. split; [done|]. apply Forall_singleton. simpl.
      by eapply handleFileChange_suspended.
    + destruct (sleeping c !! j) as [[uri d]|] eqn:Hj; [|done].
      case_bool_decide; [done|]. intros [= <- <-].
      apply elem_of_app in Hin as [Hin|Hin].
      * apply (handleFileChange_resume_targets _ _ _ _ _ _ _ Hin) in Ht as ->.
        rewrite Forall_forall in Hsl.
        apply (Hsl (uri, d)). by eapply list_elem_of_lookup_2.
      * eapply (IH _ _ _ Hrest); [|done..]. simpl.
        by apply Forall_delete.
Qed.

(** X4. Whatever the events and whenever the timers fire, every document
    the extension asks the editor to open or show is one whose path the
    classifier allows, and nothing is opened while the switch is off. *)
Theorem only_eligible_files_opened t0 tr c log call u :
  run autoOpen (initial t0) tr = Some (c, log) ->
  call ∈ log ->
  openTarget call = Some u ->
  autoOpen = true /\ shouldOpenFile (fsPath u) = true.
Proof.
  intros Hrun Hin Ht.
  by apply (run_opens_eligible tr _ _ _ Hrun (Forall_nil_2 _) call u).
Qed.

(** *** Debounce across other events *)

Lemma handleFileChange_checks_other env uri st q t :
  recentChecks st !! q = Some t ->
  t <> 0 ->
  now env - t < CHECK_CACHE_TTL ->
  recentChecks (handleFileChange autoOpen env uri st).1 !! q = Some t
  /\ (fsPath uri = q ->
      exists why, handleFileChange autoOpen env uri st = (st, Skipped why)).
Proof.
  intros Hq Ht0 Ht.
  assert (Hfresh : checkedRecently (Some t) (now env) = true).
  { simpl. apply andb_true_iff. split.
    - by apply negb_true_iff, Z.eqb_neq.
    - by apply Z.ltb_lt. }
  destruct (autoOpen && shouldOpenFile (fsPath uri)) eqn:He.
  - destruct (decide (fsPath uri = q)) as [Heq|Hne].
    + rewrite OpenChangedFilesFacts.handleFileChange_duplicate;
        [eauto|done|by rewrite Heq, Hq].
    + destruct (checkedRecently (recentChecks st !! fsPath uri) (now env)) eqn:Hd.
      * rewrite OpenChangedFilesFacts.handleFileChange_duplicate by done. eauto.
      * rewrite OpenChangedFilesFacts.handleFileChange_accepts by done. simpl.
        split; [|done]. apply OpenChangedFilesFacts.cleanOld_keeps.
        -- by rewrite lookup_insert_ne.
        -- unfold CHECK_CACHE_TTL in *. lia.
  - rewrite OpenChangedFilesFacts.handleFileChange_not_eligible by done. eauto.
Qed.

(** X5. Debounce survives interleaving: once a path has an entry with
    time [t] (not 0), then through any events that all happen before
    [t + 1000] the entry stays, no new call for that path is suspended,
    and a further notification for it is skipped. *)
Theorem debounce_through_other_events p t tr c c' log :
  recentChecks (store c) !! p = Some t ->
  t <> 0 ->
  allBefore (t + CHECK_CACHE_TTL) tr = true ->
  run autoOpen c tr = Some (c', log) ->
  recentChecks (store c') !! p = Some t
  /\ (forall s, s ∈ sleeping c' -> fsPath s.1 = p -> s ∈ sleeping c)
  /\ (forall env uri, fsPath uri = p -> now env < t + CHECK_CACHE_TTL ->
        exists why, handleFileChange autoOpen env uri (store c')
                    = (store c', Skipped why)).
Proof.
  intros Hp Ht0 Hbefore Hrun.
  assert (Hmain : recentChecks (store c') !! p = Some t
                  /\ (forall s, s ∈ sleeping c' -> fsPath s.1 = p -> s ∈ sleeping c)).
  { revert c log Hp Hrun.
    induction tr as [|[env i] tr IH]; intros c log Hp Hrun.
    - simpl in Hrun. assert (c' = c) as -> by congruence. done.
    - simpl in Hrun, Hbefore. apply andb_true_iff in Hbefore as [Hnow Hbefore].
      apply Z.ltb_lt in Hnow.
      destruct (step autoOpen c env i) as [[c1 calls1]|] eqn:Hstep; [|done].
      destruct (run autoOpen c1 tr) as [[c2 calls2]|] eqn:Hrest; [|done].
      assert (c2 = c') as -> by congruence. clear Hrun.
      revert Hstep. unfold step. case_bool_decide; [done|].
      destruct i as [uri|j stat opened].
      + destruct (handleFileChange_checks_other env uri (store c) p t Hp Ht0
                    ltac:(lia)) as [Hkeep Hskip].
        destruct (handleFileChange autoOpen env uri (store c)) as [st' r] eqn:Hh.
        intros [= <- _]. simpl in Hkeep.
        pose proof (fun Hk => IH Hbefore _ _ Hk Hrest) as IH'. simpl in IH'.
        destruct (IH' Hkeep) as [Hk1 Hk2]. split; [exact Hk1|].
        intros s Hs Hsp. specialize (Hk2 s Hs Hsp).
        destruct r as [why|d]; [done|].
        apply elem_of_app in Hk2 as [Hk2|Hk2]; [done|].
        apply list_elem_of_singleton in Hk2. subst s. simpl in Hsp.
        destruct (Hskip Hsp) as [why Hw]. congruence.
      + destruct (sleeping c !! j) as [[uri d]|]; [|done].
        case_bool_decide; [done|]. intros [= <- _].
        pose proof (fun Hk => IH Hbefore _ _ Hk Hrest) as IH'. simpl in IH'.
        destruct (IH' Hp) as [Hk1 Hk2]. split; [exact Hk1|].
        intros s Hs Hsp. specialize (Hk2 s Hs Hsp).
        eapply elem_of_sublist; [exact Hk2|apply sublist_delete]. }
  destruct Hmain as [Hkeep Hsl]. split; [exact Hkeep|]. split; [exact Hsl|].
  intros env uri Hu Hnow.
  destruct (handleFileChange_checks_other env uri (store c') p t Hkeep Ht0
              ltac:(lia)) as [_ Hskip].
  exact (Hskip Hu).
Qed.

End Facts.

End OpenChangedFilesMore.

(** * Paths under an ignored directory *)

Module Segments.

Import JsString.

Lemma split_nonempty sep s : split sep s <> [].
Proof.
  destruct s as [|c r]; simpl; [done|].
  destruct (Ascii.eqb c sep); [done|]. by destruct (split sep r).
Qed.

(** Splitting at a separator splits the list of segments. *)
Lemma split_app sep a r :
  split sep (a +:+ String sep r) = split sep a ++ split sep r.
Proof.
  induction a as [|c a IH]; simpl.
  - by rewrite Ascii.eqb_refl.
  - destruct (Ascii.eqb c sep); [by rewrite IH|].
    rewrite IH. pose proof (split_nonempty sep a) as Hne.
    by destruct (split sep a).
Qed.

Lemma segment_of_under sep a d b :
  split sep d = [d] -> d ∈ split sep (under sep a d b).
Proof.
  intros Hd. unfold under. rewrite !split_app, Hd.
  apply elem_of_app. right. by left.
Qed.

Lemma segment_of_leading sep d b :
  split sep d = [d] -> d ∈ split sep (leading sep d b).
Proof.
  intros Hd. unfold leading. rewrite split_app, Hd. by left.
Qed.

Section Facts.

Context `{Host}.
Variable autoOpen : bool.

(** X6. In [extension.js] a path with a whole segment that is an ignored
    directory name in any letter case ([a/d/b], or [d/b]) is denied by the
    classifier whatever its extension, and a notification for it changes
    nothing and schedules nothing. *)
Theorem under_ignored_dir_skipped a d b p env uri st :
  toLowerCase d ∈ OpenChangedFiles.IGNORED_DIRS ->
  split path_sep d = [d] ->
  p = under path_sep a d b \/ p = leading path_sep d b ->
  fsPath uri = p ->
  OpenChangedFiles.shouldIgnorePath p = true
  /\ OpenChangedFiles.shouldOpenFile p = false
  /\ OpenChangedFiles.handleFileChange autoOpen env uri st
     = (st, OpenChangedFiles.Skipped OpenChangedFiles.NotEligible).
Proof.
  intros Hd Hseg Hp Hu.
  assert (Hign : OpenChangedFiles.shouldIgnorePath p = true).
  { unfold OpenChangedFiles.shouldIgnorePath. apply existsb_exists.
    exists d. split; [|by apply bool_decide_eq_true].
    apply list_elem_of_In.
    destruct Hp as [-> | ->];
      [by apply segment_of_under|by apply segment_of_leading]. }
  assert (Hno : OpenChangedFiles.shouldOpenFile p = false).
  { unfold OpenChangedFiles.shouldOpenFile. by rewrite Hign. }
  split; [done|]. split; [done|].
  apply OpenChangedFilesFacts.handleFileChange_not_eligible.
  rewrite Hu, Hno. apply andb_false_r.
Qed.

(** X7. In [src/extension.ts] a file whose workspace-relative path has a
    whole segment that is an excluded directory name in any letter case is
    denied by [shouldAutoOpen] whatever its name and extension; the create
    and change handlers return for it without calling [openFile]. *)
Theorem under_excluded_dir_denied a d b uri env g :
  toLowerCase d ∈ CursorAutoOpen.EXCLUDED_DIRS ->
  split path_sep d = [d] ->
  asRelativePath uri = under path_sep a d b
  \/ asRelativePath uri = leading path_sep d b ->
  CursorAutoOpen.shouldAutoOpen uri = false
  /\ (exists why, CursorAutoOpen.onDidCreate env uri g
                  = (g, CursorAutoOpen.Return why, []))
  /\ (exists why, CursorAutoOpen.onDidChange env uri g
                  = (g, CursorAutoOpen.Return why, [])).
Proof.
  intros Hd Hseg Hrel.
  assert (Hex : CursorAutoOpen.inExcludedDir (asRelativePath uri) = true).
  { unfold CursorAutoOpen.inExcludedDir. apply existsb_exists.
    exists d. split; [|by apply bool_decide_eq_true].
    apply list_elem_of_In.
    destruct Hrel as [-> | ->];
      [by apply segment_of_under|by apply segment_of_leading]. }
  assert (Hno : CursorAutoOpen.shouldAutoOpen uri = false).
  { unfold CursorAutoOpen.shouldAutoOpen. rewrite Hex.
    destruct (_ || _); [done|]. by destruct (_ || _). }
  split; [done|].
  unfold CursorAutoOpen.onDidCreate, CursorAutoOpen.onDidChange. rewrite Hno.
  split.
  - destruct (CursorAutoOpen.isPackageManagerRunning g); eauto.
  - destruct (CursorAutoOpen.isPackageManagerRunning g); [eauto|].
    destruct (_ || _); eauto.
Qed.

End Facts.

End Segments.

(** * Further properties of src/extension.ts *)

Module CursorAutoOpenMore.

Import CursorAutoOpen CursorAutoOpenRuns.

(** *** The ladder of [openFile] *)

Ltac crush_resume :=
  repeat match goal with
         | |- context [match ?x with _ => _ end] => destruct x eqn:?; simpl
         | |- context [if ?b then _ else _] => destruct b eqn:?; simpl
         end; simpl; try done.

Lemma opens_app calls1 calls2 : opens (calls1 ++ calls2) = (opens calls1 + opens calls2)%nat.
Proof. unfold opens. by rewrite List.filter_app, length_app. Qed.

Lemma scan_next env uri g :
  match (scanOpenDocuments env uri g).1.2 with
  | Return _ => opens (scanOpenDocuments env uri g).2 = 0%nat
  | Await pc' =>
      (stepsLeft pc' < 8)%nat
      /\ (opens (scanOpenDocuments env uri g).2 + opensLeft pc' <= 5)%nat
  end.
Proof.
  unfold scanOpenDocuments. destruct (find _ _); [|cbn; lia].
  destruct (someEditorShows _ _); cbn; lia.
Qed.

Lemma resume_descends env pc uri r g :
  match (resume env pc uri r g).1.2 with
  | Return _ => (opens (resume env pc uri r g).2 <= opensLeft pc)%nat
  | Await pc' =>
      (stepsLeft pc' < stepsLeft pc)%nat
      /\ (opens (resume env pc uri r g).2 + opensLeft pc' <= opensLeft pc)%nat
  end.
Proof.
  pose proof (scan_next env uri g) as Hs.
  destruct pc, r; simpl; try (cbn; lia);
    try (destruct ((scanOpenDocuments env uri g).1.2); cbn in *; lia).
  - destruct (overFiftyMB size); [cbn; lia|].
    destruct ((scanOpenDocuments env uri g).1.2); cbn in *; lia.
  - destruct (_ || _); cbn; lia.
Qed.

Lemma settle_return rs uri why g : settle rs uri (Return why) g = (g, Return why, []).
Proof. by destruct rs as [|[env r] rs]. Qed.

Lemma settle_descends rs : forall uri pc g,
  (opens (settle rs uri (Await pc) g).2 <= opensLeft pc)%nat
  /\ ((stepsLeft pc <= length rs)%nat ->
      exists why, (settle rs uri (Await pc) g).1.2 = Return why).
Proof.
  induction rs as [|[env r] rs IH]; intros uri pc g.
  - simpl. split; [cbn; lia|]. destruct pc; simpl; lia.
  - simpl. pose proof (resume_descends env pc uri r g) as Hd.
    destruct (resume env pc uri r g) as [[g1 n1] calls1]. simpl in Hd.
    destruct n1 as [why|pc1].
    + rewrite settle_return. simpl. rewrite app_nil_r. eauto.
    + destruct Hd as [Hlt Hop]. destruct (IH uri pc1 g1) as [IHo IHr].
      destruct (settle rs uri (Await pc1) g1) as [[g2 n2] calls2]. simpl in *.
      rewrite opens_app. split; [lia|]. intros Hlen. apply IHr. lia.
Qed.

(** X8. [openFile] is a bounded ladder: however the editor and the file
    system answer, a call issues at most five open requests, and once ten
    of its awaited promises have settled it has returned. *)
Theorem open_file_ladder_bounded rs uri pc g :
  (stepsLeft pc <= length rs)%nat ->
  (exists why, (settle rs uri (Await pc) g).1.2 = Return why)
  /\ (opens (settle rs uri (Await pc) g).2 <= 5)%nat
  /\ (stepsLeft pc <= 10)%nat.
Proof.
  intros Hlen. destruct (settle_descends rs uri pc g) as [Ho Hr].
  split; [by apply Hr|]. split; [|destruct pc; simpl; lia].
  etrans; [exact Ho|]. destruct pc; simpl; lia.
Qed.

Lemma settle_step env r rs uri pc g g1 n1 calls1 :
  resume env pc uri r g = (g1, n1, calls1) ->
  settle ((env, r) :: rs) uri (Await pc) g
  = ((settle rs uri n1 g1).1.1, (settle rs uri n1 g1).1.2,
     calls1 ++ (settle rs uri n1 g1).2).
Proof.
  intros Hr. cbn [settle]. rewrite Hr.
  by destruct (settle rs uri n1 g1) as [[g2 n2] calls2].
Qed.

Lemma ladder_marks rs uri : forall pc g,
  inLadder pc = true ->
  ((settle rs uri (Await pc) g).1.2 = Return Opened
   /\ (settle rs uri (Await pc) g).1.1 = markOpened (fsPath uri) g)
  \/ ((settle rs uri (Await pc) g).1.1 = g
      /\ forall why, (settle rs uri (Await pc) g).1.2 = Return why -> why = GaveUp).
Proof.
  induction rs as [|[env r] rs IH]; intros pc g Hpc.
  - right. by split.
  - destruct pc; try discriminate; destruct r as [v|msg]; simpl;
      rewrite ?settle_return; simpl;
      try (left; by split);
      try (right; split; [done|]; intros why [= <-]; done);
      try match goal with
          | |- context [settle rs uri (Await ?pc1) g] =>
              destruct (IH pc1 g eq_refl) as [[Hn Hg]|[Hg Hn]];
              destruct (settle rs uri (Await pc1) g) as [[g2 n2] calls2];
              simpl in *; [left; by split | right; by split]
          end.
    destruct (_ || _);
      match goal with
      | |- context [settle rs uri (Await ?pc1) g] =>
          destruct (IH pc1 g eq_refl) as [[Hn Hg]|[Hg Hn]];
          destruct (settle rs uri (Await pc1) g) as [[g2 n2] calls2];
          simpl in *; [left; by split | right; by split]
      end.
Qed.

Lemma resume_ladder env pc uri r g :
  inLadder pc = true ->
  (isShowRequest pc = true
   /\ (exists v, r = Resolved v)
   /\ resume env pc uri r g = (markOpened (fsPath uri) g, Return Opened, []))
  \/ (exists calls, resume env pc uri r g = (g, Return GaveUp, calls))
  \/ (exists pc1 calls, inLadder pc1 = true
                        /\ resume env pc uri r g = (g, Await pc1, calls)).
Proof.
  intros Hpc. destruct pc; try discriminate; destruct r as [v|msg]; simpl;
    try (left; by eauto);
    try (right; left; by eauto);
    try (right; right; eexists _, _; split; [|reflexivity]; reflexivity).
  destruct (_ || _); right; right; eexists _, _; (split; [|reflexivity]); reflexivity.
Qed.

Lemma show_request_resolved env pc uri v g :
  isShowRequest pc = true ->
  resume env pc uri (Resolved v) g = (markOpened (fsPath uri) g, Return Opened, []).
Proof. by destruct pc. Qed.

Lemma ladder_opened_request rs uri : forall pc g,
  inLadder pc = true ->
  (settle rs uri (Await pc) g).1.2 = Return Opened ->
  exists pre env v post pc',
    rs = pre ++ (env, Resolved v) :: post
    /\ (settle pre uri (Await pc) g).1.2 = Await pc'
    /\ isShowRequest pc' = true.
Proof.
  induction rs as [|[env r] rs IH]; intros pc g Hpc Ho; [done|].
  destruct (resume_ladder env pc uri r g Hpc)
    as [(Hshow & [v ->] & Hres) | [[calls Hres] | (pc1 & calls & Hpc1 & Hres)]].
  - by exists [], env, v, rs, pc.
  - rewrite (settle_step _ _ _ _ _ _ _ _ _ Hres), settle_return in Ho. done.
  - rewrite (settle_step _ _ _ _ _ _ _ _ _ Hres) in Ho. simpl in Ho.
    destruct (IH pc1 g Hpc1 Ho) as (pre & e & v & post & pc' & -> & Hpre & Hshow).
    exists ((env, r) :: pre), e, v, post, pc'. split; [done|]. split; [|done].
    by rewrite (settle_step _ _ _ _ _ _ _ _ _ Hres).
Qed.

Lemma request_resolved_opens pre uri env v post : forall pc pc' g,
  (settle pre uri (Await pc) g).1.2 = Await pc' ->
  isShowRequest pc' = true ->
  (settle (pre ++ (env, Resolved v) :: post) uri (Await pc) g).1.2 = Return Opened.
Proof.
  induction pre as [|[e r] pre IH]; intros pc pc' g Hpre Hshow.
  - simpl in Hpre. injection Hpre as <-. simpl app.
    rewrite (settle_step _ _ _ _ _ _ _ _ _ (show_request_resolved env pc uri v g Hshow)).
    by rewrite settle_return.
  - destruct (resume e pc uri r g) as [[g1 n1] calls1] eqn:Hres.
    rewrite (settle_step _ _ _ _ _ _ _ _ _ Hres) in Hpre. simpl in Hpre.
    rewrite <- app_comm_cons.
    rewrite (settle_step _ _ _ _ _ _ _ _ _ Hres). simpl.
    destruct n1 as [why|pc1]; [by rewrite settle_return in Hpre|].
    by apply (IH pc1 pc' g1).
Qed.

(** X9. When no document of the file is in memory, [openFile] ends as
    opened exactly when a reply arriving while it waits for the
    [vscode.open] command or for one of its [showTextDocument] calls is a
    success; exactly then it has recorded the path in [openedFiles] and
    [autoOpenedFiles].  If it stops for any other reason, or is still
    waiting, it has changed no variable: a successful [openTextDocument]
    whose document then cannot be shown records nothing. *)
Theorem ladder_marks_only_on_success rs uri pc g :
  inLadder pc = true ->
  let seg := settle rs uri (Await pc) g in
  (seg.1.2 = Return Opened
   <-> exists pre env v post pc',
         rs = pre ++ (env, Resolved v) :: post
         /\ (settle pre uri (Await pc) g).1.2 = Await pc'
         /\ isShowRequest pc' = true)
  /\ (seg.1.2 = Return Opened -> seg.1.1 = markOpened (fsPath uri) g)
  /\ (seg.1.2 <> Return Opened -> seg.1.1 = g)
  /\ (forall why, seg.1.2 = Return why -> why = Opened \/ why = GaveUp)
  /\ (forall e1 v e2 m,
        settle [(e1, Resolved v); (e2, Rejected m)] uri (Await AwaitOpenTextDocument) g
        = (g, Return GaveUp, [ShowTextDocument uri])).
Proof.
  intros Hpc seg. subst seg. split; [|split; [|split; [|split]]].
  - split.
    + by apply ladder_opened_request.
    + intros (pre & env & v & post & pc' & -> & Hpre & Hshow).
      by apply (request_resolved_opens pre uri env v post pc pc' g).
  - intros Ho. destruct (ladder_marks rs uri pc g Hpc) as [[_ Hg]|[_ Hn]]; [done|].
    specialize (Hn _ Ho). discriminate.
  - intros Hno. by destruct (ladder_marks rs uri pc g Hpc) as [[Hn _]|[Hg _]].
  - intros why Hw. destruct (ladder_marks rs uri pc g Hpc) as [[Hn _]|[_ Hn]].
    + left. congruence.
    + right. by apply Hn.
  - done.
Qed.

Lemma find_document env uri doc :
  In doc (textDocuments env) ->
  fsPath doc = fsPath uri ->
  scheme doc = "file" ->
  exists d, List.find
              (fun doc => String.eqb (fsPath doc) (fsPath uri)
                          && String.eqb (scheme doc) "file")
              (textDocuments env) = Some d.
Proof.
  intros Hin Hp Hs. destruct (find _ _) as [d|] eqn:Hf; [eauto|].
  apply find_none with (x := doc) in Hf; [|done].
  by rewrite Hp, Hs, !String.eqb_refl in Hf.
Qed.

Lemma shown_keeps_globals rs uri doc g :
  (settle rs uri (Await (AwaitShowDocument doc)) g).1.1 = g
  /\ forall e1 m1 e2 m2 rs',
      rs = (e1, Rejected m1) :: (e2, Rejected m2) :: rs' ->
      (settle rs uri (Await (AwaitShowDocument doc)) g).1.2 = Return GaveUp.
Proof.
  split.
  - destruct rs as [|[e1 [v1|m1]] rs]; simpl; [done| |].
    + by rewrite settle_return.
    + destruct rs as [|[e2 [v2|m2]] rs]; simpl; [done| |];
        by rewrite settle_return.
  - intros e1 m1 e2 m2 rs' ->. simpl. by rewrite settle_return.
Qed.

(** X10. When the file's document is in memory but not shown, [openFile]
    records the path in [openedFiles] and [autoOpenedFiles] before it asks
    for the document to be shown: the path stays recorded whatever the
    editor answers, also when both the request and its fallback fail. *)
Theorem in_memory_marked_before_shown env r rs uri doc g :
  match r with Resolved size => overFiftyMB size = false | Rejected _ => True end ->
  In doc (textDocuments env) ->
  fsPath doc = fsPath uri ->
  scheme doc = "file" ->
  someEditorShows (visibleTextEditors env) (fsPath uri) = false ->
  (settle ((env, r) :: rs) uri (Await AwaitStat) g).1.1 = markOpened (fsPath uri) g
  /\ (forall e1 m1 e2 m2 rs',
        rs = (e1, Rejected m1) :: (e2, Rejected m2) :: rs' ->
        (settle ((env, r) :: rs) uri (Await AwaitStat) g).1.2 = Return GaveUp).
Proof.
  intros Hstat Hin Hp Hs Hv.
  destruct (find_document env uri doc Hin Hp Hs) as [d Hd].
  assert (Hres : resume env AwaitStat uri r g
                 = (markOpened (fsPath uri) g, Await (AwaitShowDocument d),
                    [ShowTextDocument d])).
  { destruct r as [size|msg]; simpl; [rewrite Hstat|];
      unfold scanOpenDocuments; by rewrite Hd, Hv. }
  rewrite (settle_step _ _ _ _ _ _ _ _ _ Hres). simpl.
  destruct (shown_keeps_globals rs uri d (markOpened (fsPath uri) g)) as [Hg Hn].
  split; [done|]. intros e1 m1 e2 m2 rs' Hrs. by eapply Hn.
Qed.

Lemma past_prechecks rs uri : forall n g why,
  match n with Await pc => pastStat pc = true
          | Return w => w <> TooLarge /\ w <> FileMissing end ->
  (settle rs uri n g).1.2 = Return why ->
  why <> TooLarge /\ why <> FileMissing.
Proof.
  induction rs as [|[env r] rs IH]; intros n g why Hn Hret.
  - simpl in Hret. subst n. done.
  - destruct n as [w|pc]; [rewrite settle_return in Hret; simpl in Hret; congruence|].
    destruct (resume env pc uri r g) as [[g1 n1] calls1] eqn:Hres.
    rewrite (settle_step _ _ _ _ _ _ _ _ _ Hres) in Hret. simpl in Hret.
    apply (IH n1 g1 why); [|done].
    destruct pc; try discriminate; destruct r as [v|msg]; simpl in Hres;
      try (injection Hres as <- <- <-; done).
    destruct (_ || _); by injection Hres as <- <- <-.
Qed.

Lemma scan_past_prechecks env uri g :
  match (scanOpenDocuments env uri g).1.2 with
  | Await pc => pastStat pc = true
  | Return w => w <> TooLarge /\ w <> FileMissing
  end.
Proof.
  unfold scanOpenDocuments. destruct (find _ _); [|done].
  by destruct (someEditorShows _ _).
Qed.

Lemma scan_nothing_in_memory env uri g :
  (forall doc, In doc (textDocuments env) -> fsPath doc = fsPath uri ->
               scheme doc <> "file") ->
  scanOpenDocuments env uri g = (g, Await AwaitOpenDelay, []).
Proof.
  intros Hnone. unfold scanOpenDocuments.
  destruct (find _ _) as [d|] eqn:Hf; [|done].
  apply find_some in Hf as [Hin Hd]. apply andb_true_iff in Hd as [Hp Hs].
  apply String.eqb_eq in Hp, Hs. by destruct (Hnone d Hin Hp).
Qed.

(** X11. The two checks at the start of [openFile]: a file that cannot be
    accessed is dropped before anything else is asked; a file of more than
    50 MB (52428800 bytes) is dropped after [stat].  A file of at most
    52428800 bytes, and one whose [stat] fails, is not dropped: the call
    goes on with the scan of the open documents and what follows it, never
    ends as too large or missing, and if no document of the file is in
    memory it issues the [vscode.open] command once the delay has
    passed. *)
Theorem open_file_prechecks e1 e2 rs uri g :
  (forall m, settle ((e1, Rejected m) :: rs) uri (Await AwaitAccess) g
             = (g, Return FileMissing, []))
  /\ (forall v size, 52428800 < size ->
        settle ((e1, Resolved v) :: (e2, Resolved size) :: rs) uri (Await AwaitAccess) g
        = (g, Return TooLarge, [FsStat (fsPath uri)]))
  /\ (forall v r,
        match r with Resolved size => size <= 52428800 | Rejected _ => True end ->
        let seg := settle ((e1, Resolved v) :: (e2, r) :: rs) uri (Await AwaitAccess) g in
        let scan := scanOpenDocuments e2 uri g in
        let rest := settle rs uri scan.1.2 scan.1.1 in
        seg = (rest.1.1, rest.1.2, FsStat (fsPath uri) :: scan.2 ++ rest.2)
        /\ seg.1.2 <> Return TooLarge
        /\ seg.1.2 <> Return FileMissing
        /\ ((forall doc, In doc (textDocuments e2) -> fsPath doc = fsPath uri ->
                         scheme doc <> "file") ->
            forall e3 r3 rs', rs = (e3, r3) :: rs' ->
              seg.2 = FsStat (fsPath uri) :: ExecuteOpen uri
                        :: (settle rs' uri (Await AwaitCommand) g).2)).
Proof.
  split; [|split].
  - intros m. simpl. by rewrite settle_return.
  - intros v size Hsz. simpl.
    assert (overFiftyMB size = true) as -> by (apply Z.ltb_lt; lia).
    by rewrite settle_return.
  - intros v r Hr seg scan rest.
    assert (Hstat : resume e2 AwaitStat uri r g = scan).
    { destruct r as [size|m]; [|done]. simpl.
      by assert (overFiftyMB size = false) as -> by (apply Z.ltb_ge; lia). }
    assert (Hseg : seg = (rest.1.1, rest.1.2, FsStat (fsPath uri) :: scan.2 ++ rest.2)).
    { subst seg.
      rewrite (settle_step e1 (Resolved v) _ uri AwaitAccess g g (Await AwaitStat)
                 [FsStat (fsPath uri)] eq_refl).
      destruct scan as [[g1 n1] calls1] eqn:Hscan.
      rewrite (settle_step e2 r rs uri AwaitStat g g1 n1 calls1 Hstat).
      by subst rest. }
    split; [exact Hseg|]. rewrite Hseg. simpl.
    pose proof (scan_past_prechecks e2 uri g) as Hpast. fold scan in Hpast.
    split; [|split].
    + intros Hw. by destruct (past_prechecks rs uri _ _ _ Hpast Hw).
    + intros Hw. by destruct (past_prechecks rs uri _ _ _ Hpast Hw).
    + intros Hnone e3 r3 rs' ->. subst rest scan.
      rewrite (scan_nothing_in_memory e2 uri g Hnone). cbn [fst snd app].
      rewrite (settle_step e3 r3 rs' uri AwaitOpenDelay g g (Await AwaitCommand)
                 [ExecuteOpen uri] eq_refl).
      done.
Qed.

Section Facts.

Context `{Host}.

(** *** The suppression window *)

Lemma finish_clock c env uri ts seg : clock (finish c env uri ts seg).1 = now env.
Proof. by destruct seg as [[g n] calls]. Qed.

Lemma step_clock c env i r :
  step c env i = Some r -> clock c <= now env /\ clock r.1 = now env.
Proof.
  unfold step. case_bool_decide as Hc; [done|]. intros Hstep.
  split; [lia|]. revert Hstep.
  destruct i; try (intros [= <-]; by rewrite ?finish_clock).
  - destruct (timeouts c !! handle); [|done].
    case_bool_decide; [done|]. by intros [= <-].
  - destruct (tasks c !! k); [|done].
    case_bool_decide; [done|]. intros [= <-]. by rewrite finish_clock.
Qed.

Lemma step_window last c env i r :
  cooldownInv last c ->
  windowOver last c ->
  step c env i = Some r ->
  windowOver (lastActivityAfter last [(env, i)]) r.1.
Proof.
  intros Hinv Hw Hstep.
  destruct (step_clock _ _ _ _ Hstep) as [Hle Hnow].
  pose proof (CursorAutoOpenFacts.step_suppression _ _ _ _ Hstep) as Hsup.
  unfold windowOver, lastActivityAfter. simpl.
  destruct i; simpl in Hsup;
    try (unfold suppression in Hsup; injection Hsup as Hr _ _;
         rewrite Hr, Hnow; intros Hoff ta Hta;
         specialize (Hw Hoff ta Hta); lia).
  - revert Hstep. unfold step. case_bool_decide; [done|]. intros [= <-].
    unfold handlePackageManagerActivity. simpl.
    destruct (isPackageManagerRunning (globals c)) eqn:Hrun; simpl;
      rewrite ?Hrun; intros; discriminate.
  - revert Hstep. unfold step. case_bool_decide; [done|].
    destruct (timeouts c !! handle) as [d|] eqn:Hh; [|done].
    case_bool_decide as Hdue; [done|]. intros [= <-]. simpl.
    intros _ ta Hta. destruct Hinv as [_ Hinv].
    destruct (isPackageManagerRunning (globals c)) eqn:Hrun.
    + destruct Hinv as (h & ta' & Hl & _ & Ht). rewrite Ht in Hh.
      apply lookup_singleton_Some in Hh as [_ <-].
      assert (ta' = ta) as -> by congruence. lia.
    + rewrite Hinv in Hh. by rewrite lookup_empty in Hh.
Qed.

Lemma run_window tr : forall last c r,
  cooldownInv last c ->
  windowOver last c ->
  run c tr = Some r ->
  cooldownInv (lastActivityAfter last tr) r.1
  /\ windowOver (lastActivityAfter last tr) r.1.
Proof.
  induction tr as [|[env i] tr IH]; intros last c r Hinv Hw Hrun.
  - simpl in Hrun. by injection Hrun as <-.
  - simpl in Hrun.
    destruct (step c env i) as [[c1 calls1]|] eqn:Hstep; [|done].
    destruct (run c1 tr) as [[c2 calls2]|] eqn:Hrest; [|done].
    injection Hrun as <-. simpl.
    rewrite <- CursorAutoOpenFacts.lastActivityAfter_cons.
    apply (IH _ c1 (c2, calls2)); [| |done].
    + by apply (CursorAutoOpenFacts.step_inv last c env i (c1, calls1)).
    + by apply (step_window last c env i (c1, calls1)).
Qed.

Lemma reachable_window t0 tr c log :
  run (initial t0) tr = Some (c, log) ->
  cooldownInv (lastActivity tr) c /\ windowOver (lastActivity tr) c.
Proof.
  intros Hrun.
  destruct (run_window tr None _ _ (CursorAutoOpenFacts.initial_inv t0)
              ltac:(by intros ? ? ?) Hrun) as [Hinv Hw].
  unfold lastActivityAfter in *. simpl in *.
  by destruct (lastActivity tr).
Qed.

(** X12. For a full 30 s after the most recent early-indicator event
    suppression is active: a create, change, text-change or save event that
    arrives in that time is ignored, with no variable changed, nothing
    scheduled and no host call made. *)
Theorem suppression_lasts_cooldown t0 tr c log ta env i c' calls :
  run (initial t0) tr = Some (c, log) ->
  lastActivity tr = Some ta ->
  now env < ta + COOLDOWN ->
  decisionEvent i = true ->
  step c env i = Some (c', calls) ->
  isPackageManagerRunning (globals c) = true
  /\ calls = [] /\ globals c' = globals c /\ tasks c' = tasks c.
Proof.
  intros Hrun Hlast Hnow Hi Hstep.
  destruct (reachable_window _ _ _ _ Hrun) as [_ Hw].
  destruct (step_clock _ _ _ _ Hstep) as [Hle _].
  assert (Hr : isPackageManagerRunning (globals c) = true).
  { destruct (isPackageManagerRunning (globals c)) eqn:Hr; [done|].
    specialize (Hw Hr ta Hlast). lia. }
  split; [done|]. revert Hstep. unfold step. case_bool_decide; [done|].
  destruct i as [u|u|?|u|u| | | | | |]; try done;
    destruct (CursorAutoOpenFacts.handlers_suppressed env u (globals c) Hr)
      as (Hc & Hm & Ht & Hs);
    rewrite ?Hc, ?Hm, ?Ht, ?Hs; by intros [= <- <-].
Qed.

(** X13. At any moment at most one cooldown timer is pending; one is
    pending exactly while suppression is active, and it is the timer of
    the current handle, due a full cooldown after the last early-indicator
    event.  A cancelled timer never fires. *)
Theorem one_cooldown_timer t0 tr c log :
  run (initial t0) tr = Some (c, log) ->
  (size (timeouts c) <= 1)%nat
  /\ (isPackageManagerRunning (globals c) = true <-> timeouts c <> ∅)
  /\ (forall h d, timeouts c !! h = Some d ->
        packageManagerCooldown (globals c) = Some h
        /\ exists ta, lastActivity tr = Some ta /\ d = ta + COOLDOWN)
  /\ (forall env h, packageManagerCooldown (globals c) <> Some h ->
        step c env (CooldownElapsed h) = None).
Proof.
  intros Hrun.
  destruct (CursorAutoOpenFacts.reachable_inv _ _ _ _ Hrun) as [_ Hinv].
  destruct (isPackageManagerRunning (globals c)).
  - destruct Hinv as (h & ta & Hl & Hh & Ht). rewrite Ht.
    split; [by rewrite map_size_singleton|]. split; [|split].
    + split; [|done]. intros _ He.
      apply (f_equal (fun m => m !! h)) in He.
      by rewrite lookup_singleton_eq, lookup_empty in He.
    + intros h' d Hd. apply lookup_singleton_Some in Hd as [<- <-].
      split; [done|]. by exists ta.
    + intros env h' Hne. unfold step.
      destruct (bool_decide (now env < clock c)); [done|].
      rewrite Ht. assert (h <> h') as Hn by (intros ->; by apply Hne).
      by rewrite (lookup_singleton_ne _ _ _ Hn).
  - rewrite Hinv. split; [rewrite map_size_empty; lia|]. split; [|split].
    + split; [done|]. by intros [].
    + intros h d Hd. by rewrite lookup_empty in Hd.
    + intros env h _. unfold step.
      destruct (bool_decide (now env < clock c)); [done|].
      by rewrite Hinv, lookup_empty.
Qed.

(** X19. When the cooldown timer fires, a full cooldown has passed since
    the last early-indicator event; suppression ends, no timer is left,
    and the next creation of an allowed file starts [openFile] with the
    access check. *)
Theorem cooldown_expiry_resumes t0 tr c log env h c' calls :
  run (initial t0) tr = Some (c, log) ->
  step c env (CooldownElapsed h) = Some (c', calls) ->
  isPackageManagerRunning (globals c') = false
  /\ timeouts c' = ∅ /\ calls = [] /\ tasks c' = tasks c
  /\ (exists ta, lastActivity tr = Some ta /\ ta + COOLDOWN <= now env)
  /\ forall env' uri c'' calls',
      shouldAutoOpen uri = true ->
      step c' env' (FileCreated uri) = Some (c'', calls') ->
      calls' = [FsAccess (fsPath uri)]
      /\ tasks c'' = tasks c' ++ [{| at_pc := AwaitAccess; target := uri;
                                     due := now env' + 0 |}].
Proof.
  intros Hrun.
  destruct (CursorAutoOpenFacts.reachable_inv _ _ _ _ Hrun) as [_ Hinv].
  unfold step. case_bool_decide; [done|].
  destruct (timeouts c !! h) as [d|] eqn:Hh; [|done].
  case_bool_decide as Hdue; [done|]. intros [= <- <-]. simpl.
  destruct (isPackageManagerRunning (globals c)).
  - destruct Hinv as (h0 & ta & Hl & _ & Ht). rewrite Ht in Hh |- *.
    apply lookup_singleton_Some in Hh as [<- <-].
    split; [done|]. split; [apply delete_singleton_eq|].
    split; [done|]. split; [done|]. split; [exists ta; split; [done|lia]|].
    intros env' uri c'' calls' Hok. case_bool_decide; [done|].
    unfold onDidCreate. simpl. rewrite Hok. by intros [= <- <-].
  - rewrite Hinv in Hh. by rewrite lookup_empty in Hh.
Qed.

(** *** Variables no decision reads *)

Ltac same_decision :=
  match goal with
  | g1 : Globals, g2 : Globals, Hd : decisionState _ = decisionState _ |- _ =>
      destruct g1, g2; unfold decisionState in Hd; simpl in Hd;
      injection Hd as -> -> -> ->
  end.

Lemma resume_alike env pc uri r g1 g2 :
  decisionState g1 = decisionState g2 ->
  decisionState (resume env pc uri r g1).1.1 = decisionState (resume env pc uri r g2).1.1
  /\ (resume env pc uri r g1).1.2 = (resume env pc uri r g2).1.2
  /\ (resume env pc uri r g1).2 = (resume env pc uri r g2).2.
Proof.
  intros Hd. same_decision.
  destruct pc, r; simpl; try done; unfold scanOpenDocuments; crush_resume.
Qed.

Lemma handlers_alike env uri g1 g2 :
  decisionState g1 = decisionState g2 ->
  (decisionState (onDidCreate env uri g1).1.1 = decisionState (onDidCreate env uri g2).1.1
   /\ (onDidCreate env uri g1).1.2 = (onDidCreate env uri g2).1.2
   /\ (onDidCreate env uri g1).2 = (onDidCreate env uri g2).2)
  /\ (decisionState (onDidChange env uri g1).1.1
      = decisionState (onDidChange env uri g2).1.1
      /\ (onDidChange env uri g1).1.2 = (onDidChange env uri g2).1.2
      /\ (onDidChange env uri g1).2 = (onDidChange env uri g2).2)
  /\ (decisionState (onDidChangeTextDocument env uri g1).1.1
      = decisionState (onDidChangeTextDocument env uri g2).1.1
      /\ (onDidChangeTextDocument env uri g1).1.2
         = (onDidChangeTextDocument env uri g2).1.2
      /\ (onDidChangeTextDocument env uri g1).2
         = (onDidChangeTextDocument env uri g2).2)
  /\ (decisionState (onDidSaveTextDocument env uri g1).1.1
      = decisionState (onDidSaveTextDocument env uri g2).1.1
      /\ (onDidSaveTextDocument env uri g1).1.2
         = (onDidSaveTextDocument env uri g2).1.2
      /\ (onDidSaveTextDocument env uri g1).2
         = (onDidSaveTextDocument env uri g2).2).
Proof.
  intros Hd. same_decision.
  unfold onDidCreate, onDidChange, onDidChangeTextDocument, onDidSaveTextDocument.
  simpl. repeat split; crush_resume.
Qed.

Lemma finish_alike c1 c2 env uri ts seg1 seg2 :
  alike c1 c2 ->
  decisionState seg1.1.1 = decisionState seg2.1.1 ->
  seg1.1.2 = seg2.1.2 ->
  seg1.2 = seg2.2 ->
  alike (finish c1 env uri ts seg1).1 (finish c2 env uri ts seg2).1
  /\ (finish c1 env uri ts seg1).2 = (finish c2 env uri ts seg2).2.
Proof.
  destruct seg1 as [[g1 n1] calls1], seg2 as [[g2 n2] calls2]. simpl.
  intros (Hg & Ht & Hto & Hn & Hc) Hd -> ->. unfold alike. simpl.
  by rewrite Hto, Hn.
Qed.

Lemma step_alike c1 c2 env i r1 :
  alike c1 c2 ->
  step c1 env i = Some r1 ->
  exists r2, step c2 env i = Some r2 /\ alike r1.1 r2.1 /\ r1.2 = r2.2.
Proof.
  intros Ha. pose proof Ha as (Hg & Ht & Hto & Hn & Hc).
  unfold step. rewrite <- Hc. case_bool_decide; [done|].
  destruct i as [u|u|d|u|u|e|d|src|h|k r|].
  - intros [= <-]. eexists. split; [done|]. rewrite <- Ht.
    destruct (handlers_alike env u _ _ Hg) as ((?&?&?)&_). by apply finish_alike.
  - intros [= <-]. eexists. split; [done|]. rewrite <- Ht.
    destruct (handlers_alike env u _ _ Hg) as (_&(?&?&?)&_). by apply finish_alike.
  - intros [= <-]. eexists. split; [done|]. unfold alike. simpl.
    rewrite Ht, Hto, Hn. split; [|done].
    unfold onDidOpenTextDocument. destruct (String.eqb _ _); [|done].
    revert Hg. unfold decisionState. simpl. intros [= Hr Hh Hl Ha'].
    by rewrite ?Hr, ?Hh, ?Hl, ?Ha'.
  - intros [= <-]. eexists. split; [done|]. rewrite <- Ht.
    destruct (handlers_alike env u _ _ Hg) as (_&_&(?&?&?)&_). by apply finish_alike.
  - intros [= <-]. eexists. split; [done|]. rewrite <- Ht.
    destruct (handlers_alike env u _ _ Hg) as (_&_&_&(?&?&?)). by apply finish_alike.
  - intros [= <-]. eexists. split; [done|]. unfold alike. simpl.
    rewrite Ht, Hto, Hn. split; [|done].
    revert Hg. unfold decisionState. destruct e; simpl; intros [= Hr Hh Hl Ha'];
      by rewrite ?Hr, ?Hh, ?Hl, ?Ha'.
  - intros [= <-]. eexists. split; [done|]. unfold alike. simpl.
    rewrite Ht, Hto, Hn. split; [|done].
    revert Hg. unfold decisionState. simpl. intros [= Hr Hh Hl Ha'].
    by rewrite ?Hr, ?Hh, ?Hl, ?Ha'.
  - intros [= <-]. eexists. split; [done|]. unfold alike. simpl.
    revert Hg. unfold decisionState, handlePackageManagerActivity. simpl.
    intros [= Hr Hh Hl Ha']. rewrite <- Hr, <- Ht, <- Hto, <- Hn.
    destruct (isPackageManagerRunning (globals c1)) eqn:E; simpl;
      by rewrite <- ?Hr, ?E, <- ?Hh, <- ?Hl, <- ?Ha'.
  - rewrite <- Hto. destruct (timeouts c1 !! h); [|done].
    case_bool_decide; [done|]. intros [= <-]. eexists. split; [done|].
    unfold alike. simpl. rewrite Ht, Hn. split; [|done].
    revert Hg. unfold decisionState. simpl. intros [= Hr Hh Hl Ha'].
    by rewrite ?Hr, ?Hh, ?Hl, ?Ha'.
  - rewrite <- Ht. destruct (tasks c1 !! k) as [t|]; [|done].
    case_bool_decide; [done|]. intros [= <-]. eexists. split; [done|].
    destruct (resume_alike env (at_pc t) (target t) r _ _ Hg) as (?&?&?).
    by apply finish_alike.
  - intros [= <-]. eexists. split; [done|]. unfold alike. simpl.
    rewrite Ht, Hto, Hn. split; [|done].
    revert Hg. unfold decisionState. simpl. intros [= Hr Hh Hl Ha'].
    by rewrite ?Hr, ?Hh, ?Hl, ?Ha'.
Qed.

(** X14. [openedFiles], [documentModificationTimes], [openedDocuments] and
    [activityStartTime] are written but never read by a decision: two
    sessions that differ only in them accept the same events and issue
    the same host calls, for ever. *)
Theorem decisions_ignore_bookkeeping tr c1 c2 r1 :
  alike c1 c2 ->
  run c1 tr = Some r1 ->
  exists r2, run c2 tr = Some r2 /\ alike r1.1 r2.1 /\ r1.2 = r2.2.
Proof.
  revert c1 c2 r1. induction tr as [|[env i] tr IH]; intros c1 c2 r1 Ha Hrun.
  - simpl in *. injection Hrun as <-. by eexists.
  - simpl in Hrun.
    destruct (step c1 env i) as [[c1' calls1]|] eqn:Hstep; [|done].
    destruct (run c1' tr) as [[c1'' calls1']|] eqn:Hrest; [|done].
    injection Hrun as <-.
    destruct (step_alike _ _ _ _ _ Ha Hstep) as ([c2' calls2] & Hs2 & Ha' & Hc).
    destruct (IH _ _ _ Ha' Hrest) as ([c2'' calls2'] & Hr2 & Ha'' & Hc').
    simpl in *. subst. rewrite Hs2, Hr2. by eexists.
Qed.

(** *** The debounce map is never emptied *)

Lemma resume_lastChecked env pc uri r g :
  lastCheckedFiles (resume env pc uri r g).1.1 = lastCheckedFiles g.
Proof. destruct pc, r; simpl; try done; unfold scanOpenDocuments; crush_resume. Qed.

Lemma onDidChange_cases env uri g :
  (exists why, onDidChange env uri g = (g, Return why, []))
  \/ ((now env - default 0 (lastCheckedFiles g !! fsPath uri) <? 2000) = false
      /\ onDidChange env uri g
         = (with_lastCheckedFiles (<[fsPath uri := now env]> (lastCheckedFiles g)) g,
            Await (AwaitSettle 200), [])).
Proof.
  unfold onDidChange.
  destruct (isPackageManagerRunning g); [eauto|].
  destruct (_ || _); [eauto|].
  destruct (shouldAutoOpen uri); [|eauto].
  destruct (_ <? 2000); eauto.
Qed.

Lemma step_lastChecked c env i r p t :
  lastCheckedFiles (globals c) !! p = Some t ->
  step c env i = Some r ->
  lastCheckedFiles (globals r.1) !! p = Some t
  \/ (t + 2000 <= now env /\ lastCheckedFiles (globals r.1) !! p = Some (now env)).
Proof.
  intros Hp. unfold step. case_bool_decide; [done|].
  destruct i as [u|u|d|u|u|e|d|src|h|k r0|].
  - intros [= <-]. left. rewrite CursorAutoOpenFacts.finish_globals.
    unfold onDidCreate.
    destruct (isPackageManagerRunning _); [done|]. by destruct (shouldAutoOpen u).
  - intros [= <-]. rewrite CursorAutoOpenFacts.finish_globals.
    destruct (onDidChange_cases env u (globals c)) as [[why ->]|[Hacc ->]];
      [by left|]. simpl.
    destruct (decide (fsPath u = p)) as [Heq|Hne].
    + right. rewrite Heq, Hp in Hacc. simpl in Hacc. apply Z.ltb_ge in Hacc.
      split; [lia|]. rewrite Heq. apply lookup_insert_eq.
    + left. by rewrite lookup_insert_ne.
  - intros [= <-]. left. simpl. unfold onDidOpenTextDocument.
    by destruct (String.eqb _ _).
  - intros [= <-]. left. rewrite CursorAutoOpenFacts.finish_globals.
    unfold onDidChangeTextDocument. crush_resume.
  - intros [= <-]. left. rewrite CursorAutoOpenFacts.finish_globals.
    unfold onDidSaveTextDocument. crush_resume.
  - intros [= <-]. left. simpl. by destruct e.
  - intros [= <-]. by left.
  - intros [= <-]. left. simpl. unfold handlePackageManagerActivity. simpl.
    by destruct (isPackageManagerRunning (globals c)).
  - destruct (timeouts c !! h); [|done].
    case_bool_decide; [done|]. intros [= <-]. by left.
  - destruct (tasks c !! k) as [tk|]; [|done].
    case_bool_decide; [done|]. intros [= <-]. left.
    by rewrite CursorAutoOpenFacts.finish_globals, resume_lastChecked.
  - intros [= <-]. by left.
Qed.

Lemma run_lastChecked tr : forall c c' log p t,
  lastCheckedFiles (globals c) !! p = Some t ->
  run c tr = Some (c', log) ->
  exists t', lastCheckedFiles (globals c') !! p = Some t'
             /\ t <= t'
             /\ (allBefore (t + 2000) tr = true -> t' = t).
Proof.
  induction tr as [|[env i] tr IH]; intros c c' log p t Hp Hrun.
  - simpl in Hrun. assert (c' = c) as -> by congruence.
    exists t. split; [done|]. split; [lia|done].
  - simpl in Hrun.
    destruct (step c env i) as [[c1 calls1]|] eqn:Hstep; [|done].
    destruct (run c1 tr) as [[c2 calls2]|] eqn:Hrest; [|done].
    assert (c2 = c') as -> by congruence.
    destruct (step_lastChecked _ _ _ _ _ _ Hp Hstep) as [H1|[Hlate H1]];
      simpl in H1.
    + destruct (IH _ _ _ _ _ H1 Hrest) as (t' & Ht' & Hle & Hsame).
      exists t'. split; [done|]. split; [done|].
      simpl. intros Hb. apply andb_true_iff in Hb as [_ Hb]. by apply Hsame.
    + destruct (IH _ _ _ _ _ H1 Hrest) as (t' & Ht' & Hle & _).
      exists t'. split; [done|]. split; [lia|].
      simpl. intros Hb. apply andb_true_iff in Hb as [Hb _].
      apply Z.ltb_lt in Hb. lia.
Qed.

(** X15. An entry of [lastCheckedFiles] is never removed, by no event and
    not by [deactivate]: it can only be replaced by a later time.  Through
    any events that all happen less than 2000 ms after the entry's time it
    stays as it is, and a change event for that path then returns without
    changing or scheduling anything. *)
Theorem debounce_entry_never_evicted p t tr c c' log :
  lastCheckedFiles (globals c) !! p = Some t ->
  run c tr = Some (c', log) ->
  (exists t', lastCheckedFiles (globals c') !! p = Some t' /\ t <= t')
  /\ (allBefore (t + 2000) tr = true ->
      lastCheckedFiles (globals c') !! p = Some t
      /\ forall env uri c'' calls,
          fsPath uri = p -> now env < t + 2000 ->
          step c' env (FileChanged uri) = Some (c'', calls) ->
          calls = [] /\ tasks c'' = tasks c' /\ globals c'' = globals c').
Proof.
  intros Hp Hrun.
  destruct (run_lastChecked _ _ _ _ _ _ Hp Hrun) as (t' & Ht' & Hle & Hsame).
  split; [eauto|]. intros Hb. rewrite (Hsame Hb) in Ht'. split; [done|].
  intros env uri c'' calls Hu Hnow. unfold step. case_bool_decide; [done|].
  destruct (onDidChange_cases env uri (globals c')) as [[why ->]|[Hacc _]].
  - by intros [= <- <-].
  - rewrite Hu, Ht' in Hacc. simpl in Hacc. apply Z.ltb_ge in Hacc. lia.
Qed.

(** *** Only classified files are opened *)

Ltac calls_of_segment :=
  split;
  [ intros call u Hin Hu;
    first [ by apply elem_of_nil in Hin
          | apply list_elem_of_singleton in Hin; subst; simpl in Hu;
            first [ discriminate | injection Hu as <-; eauto ] ]
  | intros doc0 Heq; first [ discriminate | injection Heq as <-; eauto ] ].

Lemma resume_targets env pc uri r g :
  (forall doc, pc = AwaitShowDocument doc -> fsPath doc = fsPath uri) ->
  (forall call u, call ∈ (resume env pc uri r g).2 -> openTarget call = Some u ->
                  fsPath u = fsPath uri)
  /\ (forall doc, (resume env pc uri r g).1.2 = Await (AwaitShowDocument doc) ->
                  fsPath doc = fsPath uri).
Proof.
  intros Hdoc.
  assert (Hscan :
    (forall call u, call ∈ (scanOpenDocuments env uri g).2 ->
                    openTarget call = Some u -> fsPath u = fsPath uri)
    /\ (forall doc, (scanOpenDocuments env uri g).1.2 = Await (AwaitShowDocument doc) ->
                    fsPath doc = fsPath uri)).
  { unfold scanOpenDocuments. destruct (find _ _) as [d|] eqn:Hf.
    - apply find_some in Hf as [_ Hf]. apply andb_true_iff in Hf as [Hf _].
      apply String.eqb_eq in Hf.
      destruct (someEditorShows _ _); simpl.
      + split; [by intros ? ? ?%elem_of_nil|done].
      + split.
        * intros call u Hin%list_elem_of_singleton Hu. subst. by injection Hu as <-.
        * by intros doc [= <-].
    - simpl. split; [by intros ? ? ?%elem_of_nil|done]. }
  destruct pc, r; simpl; try exact Hscan; try solve [calls_of_segment].
  - destruct (overFiftyMB size); [calls_of_segment|exact Hscan].
  - destruct (_ || _); calls_of_segment.
Qed.

Lemma handlers_classified env uri g :
  startsClassified uri (onDidCreate env uri g)
  /\ startsClassified uri (onDidChange env uri g)
  /\ startsClassified uri (onDidChangeTextDocument env uri g)
  /\ startsClassified uri (onDidSaveTextDocument env uri g).
Proof.
  unfold startsClassified, onDidCreate, onDidChange, onDidChangeTextDocument,
    onDidSaveTextDocument.
  destruct (isPackageManagerRunning g); [by repeat split|].
  destruct (shouldAutoOpen uri); rewrite ?andb_false_r, ?andb_true_r;
    repeat match goal with
           | |- _ /\ _ => split
           | |- context [if ?b then _ else _] => destruct b
           end;
    try reflexivity;
    intros pc Hpc; cbn in Hpc; simplify_eq; (split; [done|]); by intros doc.
Qed.

Lemma opens_none calls call u :
  opens calls = 0%nat -> call ∈ calls -> openTarget call = Some u -> False.
Proof.
  unfold opens. intros Hz Hin Hu.
  assert (Hf : In call (List.filter isOpenAction calls)).
  { apply filter_In. split; [by apply list_elem_of_In|]. by destruct call. }
  destruct (List.filter isOpenAction calls); [done|discriminate].
Qed.

Lemma finish_classified c env uri seg :
  startsClassified uri seg ->
  Forall classified (tasks c) ->
  Forall classified (tasks (finish c env uri (tasks c) seg).1)
  /\ forall call u, call ∈ (finish c env uri (tasks c) seg).2 ->
                    openTarget call = Some u -> False.
Proof.
  destruct seg as [[g n] calls]. intros [Hz Hn] Hts. simpl in *. split.
  - destruct n as [why|pc]; [done|]. simpl.
    apply Forall_app. split; [done|]. apply Forall_singleton.
    destruct (Hn pc eq_refl) as [Hok Hdoc]. split; [done|].
    simpl. intros doc ->. by destruct (Hdoc doc).
  - intros call u. by apply opens_none.
Qed.

Lemma step_classified c env i r :
  Forall classified (tasks c) ->
  step c env i = Some r ->
  Forall classified (tasks r.1)
  /\ forall call u, call ∈ r.2 -> openTarget call = Some u ->
                    exists uri, shouldAutoOpen uri = true /\ fsPath u = fsPath uri.
Proof.
  intros Hts. unfold step. case_bool_decide; [done|].
  destruct i as [u|u|d|u|u|e|d|src|h|k r0|].
  - intros [= <-].
    destruct (handlers_classified env u (globals c)) as (Hc & _).
    destruct (finish_classified c env u _ Hc Hts) as [Hf Hno].
    split; [exact Hf|]. intros call v Hin Hv. by destruct (Hno call v).
  - intros [= <-].
    destruct (handlers_classified env u (globals c)) as (_ & Hc & _).
    destruct (finish_classified c env u _ Hc Hts) as [Hf Hno].
    split; [exact Hf|]. intros call v Hin Hv. by destruct (Hno call v).
  - intros [= <-]. simpl. split; [done|]. by intros ? ? ?%elem_of_nil.
  - intros [= <-].
    destruct (handlers_classified env u (globals c)) as (_ & _ & Hc & _).
    destruct (finish_classified c env u _ Hc Hts) as [Hf Hno].
    split; [exact Hf|]. intros call v Hin Hv. by destruct (Hno call v).
  - intros [= <-].
    destruct (handlers_classified env u (globals c)) as (_ & _ & _ & Hc).
    destruct (finish_classified c env u _ Hc Hts) as [Hf Hno].
    split; [exact Hf|]. intros call v Hin Hv. by destruct (Hno call v).
  - intros [= <-]. simpl. split; [done|]. by intros ? ? ?%elem_of_nil.
  - intros [= <-]. simpl. split; [done|]. by intros ? ? ?%elem_of_nil.
  - intros [= <-]. simpl. split; [done|]. by intros ? ? ?%elem_of_nil.
  - destruct (timeouts c !! h); [|done].
    case_bool_decide; [done|]. intros [= <-]. simpl.
    split; [done|]. by intros ? ? ?%elem_of_nil.
  - destruct (tasks c !! k) as [t|] eqn:Hk; [|done].
    case_bool_decide; [done|]. intros [= <-].
    assert (Ht : classified t).
    { rewrite Forall_forall in Hts. apply Hts. by eapply list_elem_of_lookup_2. }
    destruct Ht as [Hok Hdoc].
    destruct (resume_targets env (at_pc t) (target t) r0 (globals c) Hdoc)
      as [Hcalls Hnext].
    destruct (resume env (at_pc t) (target t) r0 (globals c)) as [[g n] calls].
    simpl in *. split.
    + destruct n as [why|pc]; simpl; [by apply Forall_delete|].
      apply Forall_app. split; [by apply Forall_delete|].
      apply Forall_singleton. split; [done|]. simpl. intros doc ->. by apply Hnext.
    + intros call u Hin Hu. exists (target t). split; [done|]. by eapply Hcalls.
  - intros [= <-]. simpl. split; [done|]. by intros ? ? ?%elem_of_nil.
Qed.

(** X16. Whatever the events, every document the extension asks the editor
    to open or show has the path of a file that [shouldAutoOpen] allowed. *)
Theorem only_classified_files_opened t0 tr c log call u :
  run (initial t0) tr = Some (c, log) ->
  call ∈ log ->
  openTarget call = Some u ->
  exists uri, shouldAutoOpen uri = true /\ fsPath u = fsPath uri.
Proof.
  assert (Hgen : forall tr c0 c log,
    Forall classified (tasks c0) ->
    run c0 tr = Some (c, log) ->
    forall call u, call ∈ log -> openTarget call = Some u ->
                   exists uri, shouldAutoOpen uri = true /\ fsPath u = fsPath uri).
  { clear. intros tr. induction tr as [|[env i] tr IH]; intros c0 c log Hts Hrun.
    - simpl in Hrun. assert (log = []) as -> by congruence.
      by intros ? ? ?%elem_of_nil.
    - simpl in Hrun.
      destruct (step c0 env i) as [[c1 calls1]|] eqn:Hstep; [|done].
      destruct (run c1 tr) as [[c2 calls2]|] eqn:Hrest; [|done].
      assert (log = calls1 ++ calls2) as -> by congruence.
      destruct (step_classified _ _ _ _ Hts Hstep) as [Hts1 Hcalls].
      intros call u Hin Hu. apply elem_of_app in Hin as [Hin|Hin].
      + by eapply Hcalls.
      + by eapply (IH _ _ _ Hts1 Hrest). }
  intros Hrun. by apply (Hgen tr (initial t0) c log (Forall_nil_2 _)).
Qed.

(** *** Open requests against events *)

Lemma budget_delete ts k t :
  ts !! k = Some t ->
  budget ts = (opensLeft (at_pc t) + budget (delete k ts))%nat.
Proof.
  intros Hk. rewrite <- (take_drop_middle ts k t Hk) at 1.
  rewrite delete_take_drop. unfold budget.
  rewrite !sum_list_with_app. simpl. lia.
Qed.

Lemma finish_budget c env uri ts seg :
  (opens (finish c env uri ts seg).2 + budget (tasks (finish c env uri ts seg).1)
   <= budget ts
      + opens seg.2
      + match seg.1.2 with Return _ => 0 | Await pc => opensLeft pc end)%nat
  /\ (length (tasks (finish c env uri ts seg).1)
      <= length ts + match seg.1.2 with Return _ => 0 | Await _ => 1 end)%nat.
Proof.
  destruct seg as [[g n] calls]. simpl. destruct n as [why|pc]; simpl.
  - lia.
  - unfold budget. rewrite sum_list_with_app, length_app. simpl. lia.
Qed.

Lemma handler_budget uri seg :
  startsClassified uri seg ->
  (opens seg.2 + match seg.1.2 with Return _ => 0 | Await pc => opensLeft pc end
   <= 5)%nat.
Proof.
  intros [-> _]. destruct (seg.1.2) as [why|pc]; [lia|]. destruct pc; simpl; lia.
Qed.

Lemma step_budget c env i r :
  step c env i = Some r ->
  (opens r.2 + budget (tasks r.1)
   <= budget (tasks c) + (if decisionEvent i then 5 else 0))%nat
  /\ (length (tasks r.1)
      <= length (tasks c) + (if decisionEvent i then 1 else 0))%nat.
Proof.
  unfold step. case_bool_decide; [done|].
  destruct i as [u|u|d|u|u|e|d|src|h|k r0|]; simpl.
  - intros [= <-].
    destruct (handlers_classified env u (globals c)) as (Hc & _).
    pose proof (handler_budget _ _ Hc).
    pose proof (finish_budget c env u (tasks c) (onDidCreate env u (globals c))).
    destruct ((onDidCreate env u (globals c)).1.2); lia.
  - intros [= <-].
    destruct (handlers_classified env u (globals c)) as (_ & Hc & _).
    pose proof (handler_budget _ _ Hc).
    pose proof (finish_budget c env u (tasks c) (onDidChange env u (globals c))).
    destruct ((onDidChange env u (globals c)).1.2); lia.
  - intros [= <-]. simpl. cbn. lia.
  - intros [= <-].
    destruct (handlers_classified env u (globals c)) as (_ & _ & Hc & _).
    pose proof (handler_budget _ _ Hc).
    pose proof (finish_budget c env u (tasks c)
                  (onDidChangeTextDocument env u (globals c))).
    destruct ((onDidChangeTextDocument env u (globals c)).1.2); lia.
  - intros [= <-].
    destruct (handlers_classified env u (globals c)) as (_ & _ & _ & Hc).
    pose proof (handler_budget _ _ Hc).
    pose proof (finish_budget c env u (tasks c)
                  (onDidSaveTextDocument env u (globals c))).
    destruct ((onDidSaveTextDocument env u (globals c)).1.2); lia.
  - intros [= <-]. simpl. cbn. lia.
  - intros [= <-]. simpl. cbn. lia.
  - intros [= <-]. simpl. cbn. lia.
  - destruct (timeouts c !! h); [|done]. case_bool_decide; [done|].
    intros [= <-]. simpl. cbn. lia.
  - destruct (tasks c !! k) as [t|] eqn:Hk; [|done]. case_bool_decide; [done|].
    intros [= <-].
    pose proof (resume_descends env (at_pc t) (target t) r0 (globals c)) as Hd.
    pose proof (finish_budget c env (target t) (delete k (tasks c))
                  (resume env (at_pc t) (target t) r0 (globals c))) as Hf.
    pose proof (budget_delete _ _ _ Hk) as Hb.
    pose proof (length_delete (tasks c) k (mk_is_Some _ _ Hk)) as Hl.
    pose proof (lookup_lt_Some _ _ _ Hk).
    destruct ((resume env (at_pc t) (target t) r0 (globals c)).1.2); lia.
  - intros [= <-]. simpl. cbn. lia.
Qed.

Lemma run_budget tr : forall c c' log,
  run c tr = Some (c', log) ->
  (opens log + budget (tasks c') <= budget (tasks c) + 5 * starts tr)%nat
  /\ (length (tasks c') <= length (tasks c) + starts tr)%nat.
Proof.
  induction tr as [|[env i] tr IH]; intros c c' log Hrun.
  - simpl in Hrun. injection Hrun as <- <-. cbn. lia.
  - simpl in Hrun.
    destruct (step c env i) as [[c1 calls1]|] eqn:Hstep; [|done].
    destruct (run c1 tr) as [[c2 calls2]|] eqn:Hrest; [|done].
    injection Hrun as <- <-.
    destruct (step_budget _ _ _ _ Hstep) as [Hb Hl]. simpl in Hb, Hl.
    destruct (IH _ _ _ Hrest) as [IHb IHl].
    rewrite opens_app. unfold starts in *. simpl.
    destruct (decisionEvent i); simpl; lia.
Qed.

(** X20. Open requests are paid for by events: in every run the number of
    open requests issued so far is at most five times the number of file
    and document events seen, and the number of calls of [openFile] still
    pending is at most the number of those events.  So timers, bookkeeping
    events and early indicators alone never cause a request. *)
Theorem open_requests_bounded_by_events t0 tr c log :
  run (initial t0) tr = Some (c, log) ->
  (opens log <= 5 * starts tr)%nat
  /\ (length (tasks c) <= starts tr)%nat.
Proof.
  intros Hrun. destruct (run_budget _ _ _ _ Hrun) as [Hb Hl]. simpl in Hb, Hl.
  split; lia.
Qed.

(** *** The classifier against its earlier revision *)

Lemma inExcludedDir_split rel :
  inExcludedDir rel
  = CursorAutoOpenV1.inExcludedDir rel
    || existsb (fun part => bool_decide (JsString.toLowerCase part
                                          ∈ ["storage"; "bootstrap"]))
               (JsString.split path_sep rel).
Proof.
  unfold inExcludedDir, CursorAutoOpenV1.inExcludedDir.
  induction (JsString.split path_sep rel) as [|part parts IH]; [done|].
  simpl. rewrite IH.
  assert (bool_decide (JsString.toLowerCase part ∈ EXCLUDED_DIRS)
          = bool_decide (JsString.toLowerCase part ∈ CursorAutoOpenV1.EXCLUDED_DIRS)
            || bool_decide (JsString.toLowerCase part ∈ ["storage"; "bootstrap"]))
    as ->.
  { change EXCLUDED_DIRS
      with (CursorAutoOpenV1.EXCLUDED_DIRS ++ ["storage"; "bootstrap"]).
    apply eq_true_iff_eq. rewrite orb_true_iff, !bool_decide_eq_true.
    apply elem_of_app. }
  destruct (bool_decide (_ ∈ CursorAutoOpenV1.EXCLUDED_DIRS)),
    (bool_decide (_ ∈ ["storage"; "bootstrap"])),
    (existsb _ parts); simpl; by rewrite ?orb_true_r.
Qed.

(** X17. Against the earlier revision kept in [extension.js], the
    classifier was only tightened: it allows a file exactly when the
    earlier one did and the relative path neither contains
    [storage/framework/views], nor starts with [storage/], nor has a
    segment [storage] or [bootstrap] in any letter case. *)
Theorem classifier_only_tightened uri :
  let rel := asRelativePath uri in
  shouldAutoOpen uri
  = CursorAutoOpenV1.shouldAutoOpen uri
    && negb (JsString.includes rel "storage/framework/views"
             || JsString.includes rel "storage\framework\views"
             || JsString.startsWith rel "storage/"
             || JsString.startsWith rel "storage\"
             || existsb (fun part => bool_decide (JsString.toLowerCase part
                                                   ∈ ["storage"; "bootstrap"]))
                        (JsString.split path_sep rel)).
Proof.
  intros rel. unfold shouldAutoOpen, CursorAutoOpenV1.shouldAutoOpen. fold rel.
  rewrite inExcludedDir_split.
  destruct (JsString.includes rel "storage/framework/views");
    [simpl; by rewrite andb_false_r|].
  destruct (JsString.includes rel "storage\framework\views");
    [simpl; by rewrite andb_false_r|].
  destruct (JsString.startsWith rel "storage/");
    [simpl; by rewrite andb_false_r|].
  destruct (JsString.startsWith rel "storage\");
    [simpl; by rewrite andb_false_r|].
  simpl. destruct (CursorAutoOpenV1.inExcludedDir rel); [done|]. simpl.
  destruct (existsb _ _); [by rewrite andb_false_r|]. simpl.
  by rewrite andb_true_r.
Qed.

End Facts.

End CursorAutoOpenMore.

(** * The two debounce maps and their cleaning *)

Module Ledgers.

Import Examples MoreExamples.

Section Facts.

Context `{Host}.
Variable autoOpen : bool.

(** C7. Only [extension.js] cleans its debounce map, [recentChecks]: inside
    the accepting call itself, when the map (with the new entry) holds more
    than 100 paths; then no entry older than ten times the TTL is left.
    Below the threshold nothing is removed, an entry that is not that old
    is never removed, and a firing timer leaves the map alone.  The map of
    [src/extension.ts], [lastCheckedFiles], is never cleaned: through any
    events an entry stays, at its time or a later one. *)
Theorem ledger_purge :
  (forall env uri st st' r,
      OpenChangedFiles.handleFileChange autoOpen env uri st = (st', r) ->
      OpenChangedFiles.passedDebounce r = true ->
      let inserted :=
        <[fsPath uri := now env]> (OpenChangedFiles.recentChecks st) in
      ((100 < size inserted)%nat ->
         forall k v, OpenChangedFiles.recentChecks st' !! k = Some v ->
                     now env - v <= 10 * OpenChangedFiles.CHECK_CACHE_TTL)
      /\ ((100 < size (OpenChangedFiles.recentChecks st))%nat ->
          (100 < size inserted)%nat)
      /\ ((size inserted <= 100)%nat ->
          OpenChangedFiles.recentChecks st' = inserted)
      /\ (forall k v, inserted !! k = Some v ->
                      now env - v <= 10 * OpenChangedFiles.CHECK_CACHE_TTL ->
                      OpenChangedFiles.recentChecks st' !! k = Some v)
      /\ (forall k v, OpenChangedFiles.recentChecks st' !! k = Some v ->
                      inserted !! k = Some v)
      /\ (forall c k stat opened c' calls,
            OpenChangedFiles.step autoOpen c env (OpenChangedFiles.Woke k stat opened)
              = Some (c', calls) ->
            OpenChangedFiles.recentChecks (OpenChangedFiles.store c')
            = OpenChangedFiles.recentChecks (OpenChangedFiles.store c)))
  /\ (forall p t tr c c' log,
        CursorAutoOpen.lastCheckedFiles (CursorAutoOpen.globals c) !! p = Some t ->
        CursorAutoOpen.run c tr = Some (c', log) ->
        exists t',
          CursorAutoOpen.lastCheckedFiles (CursorAutoOpen.globals c') !! p = Some t'
          /\ t <= t').
Proof.
  split.
  - intros env uri st st' r Hh Hp.
    exact (OpenChangedFilesFacts.recentChecks_purged autoOpen env uri st st' r Hh Hp).
  - intros p t tr c c' log Hp Hrun.
    destruct (CursorAutoOpenMore.run_lastChecked tr c c' log p t Hp Hrun)
      as (t' & Ht' & Hle & _).
    by exists t'.
Qed.

End Facts.

(** C7, refuted as worded for [lastCheckedFiles]: after 101 files have
    changed, a change accepted ninety seconds later leaves all 102 entries
    in the map, the oldest 90000 ms old, far more than ten times the TTL
    of 2000 ms. *)
Lemma ts_ledger_never_purged :
  exists c log,
    CursorAutoOpen.run (H := Posix.host) (CursorAutoOpen.initial 0) (many_changes 101)
    = Some (c, log)
    /\ CursorAutoOpen.lastCheckedFiles (CursorAutoOpen.globals c) !! "/w/src/a.ts"
       = Some 100000
    /\ size (CursorAutoOpen.lastCheckedFiles (CursorAutoOpen.globals c)) = 102%nat
    /\ CursorAutoOpen.lastCheckedFiles (CursorAutoOpen.globals c) !! fsPath (tsFile 0)
       = Some 10000
    /\ ~ Claimed.purgedAfterAccept 100 2000 100000
           (CursorAutoOpen.lastCheckedFiles (CursorAutoOpen.globals c)).
Proof.
  destruct (CursorAutoOpen.run (H := Posix.host) (CursorAutoOpen.initial 0)
              (many_changes 101)) as [[c log]|] eqn:Hrun;
    [|vm_compute in Hrun; discriminate].
  exists c, log. split; [reflexivity|].
  vm_compute in Hrun. injection Hrun as <- _.
  split; [vm_compute; reflexivity|]. split; [vm_compute; reflexivity|].
  split; [vm_compute; reflexivity|].
  intros Hpurged.
  assert (Hle : 100000 - 10000 <= 10 * 2000); [|lia].
  apply (fun Hsize => Hpurged Hsize (fsPath (tsFile 0)));
    [apply Nat.ltb_lt|]; vm_compute; reflexivity.
Qed.

End Ledgers.

(** * Sample runs of the further properties *)

Module MoreWitnesses.

Import Examples MoreExamples.

Lemma cleanup_is_invisible_witness :
  let st' := (OpenChangedFiles.handleFileChange (H := Posix.host) true (at_time 20000)
                (fileUri "/w/a.js") crowded).1 in
  let inserted :=
    <["/w/a.js" := 20000]> (OpenChangedFiles.recentFileChanges crowded) in
  size inserted = 104%nat
  /\ size (OpenChangedFiles.recentFileChanges st') = 3%nat
  /\ OpenChangedFiles.isLikelyBatchOperation 20100
       (OpenChangedFiles.recentFileChanges st')
     = OpenChangedFiles.isLikelyBatchOperation 20100 inserted.
Proof.
  intros st' inserted.
  split; [vm_compute; reflexivity|]. split; [vm_compute; reflexivity|].
  refine (proj1 (OpenChangedFilesMore.cleanup_is_invisible (H := Posix.host) true
                   (at_time 20000) (fileUri "/w/a.js") crowded
                   st' _ 20100 (surjective_pairing _) _ _)).
  - vm_compute. reflexivity.
  - vm_compute. discriminate.
Defined.

Lemma accepted_event_recorded_witness :
  let p := "/w/a.js" in
  let st' := (OpenChangedFiles.handleFileChange (H := Posix.host) true (showing 5000 p)
                (fileUri p) OpenChangedFiles.emptyStore).1 in
  OpenChangedFiles.recentFileChanges st' !! p = Some 5000.
Proof.
  intros p st'.
  refine (proj1 (proj2 (OpenChangedFilesMore.accepted_event_recorded (H := Posix.host)
                          true (showing 5000 p) (fileUri p) OpenChangedFiles.emptyStore
                          st' _ (surjective_pairing _) eq_refl))).
Defined.

Lemma quiet_wake_opens_witness :
  exists c log c',
    OpenChangedFiles.run (H := Posix.host) true (OpenChangedFiles.initial 0) one_change
    = Some (c, log)
    /\ OpenChangedFiles.step (H := Posix.host) true c (at_time 1500)
         (OpenChangedFiles.Woke 0 (Resolved 10) (Resolved 0))
       = Some (c', [ FsStat "/w/a.js"; OpenTextDocument (fileUri "/w/a.js");
                     ShowTextDocument (fileUri "/w/a.js") ]).
Proof.
  destruct (OpenChangedFiles.run (H := Posix.host) true (OpenChangedFiles.initial 0)
              one_change) as [[c log]|] eqn:Hrun; [|vm_compute in Hrun; discriminate].
  pose proof Hrun as Hc. vm_compute in Hc. injection Hc as <- <-.
  match type of Hrun with _ = Some (?c, _) =>
    destruct (OpenChangedFiles.step (H := Posix.host) true c (at_time 1500)
                (OpenChangedFiles.Woke 0 (Resolved 10) (Resolved 0)))
      as [[c' calls]|] eqn:Hstep; [|vm_compute in Hstep; discriminate]
  end.
  destruct (OpenChangedFilesMore.quiet_wake_opens (H := Posix.host) true 0 one_change
              _ _ 1000 0%nat (fileUri "/w/a.js") 1500 (at_time 1500) 10 0 c' calls
              Hrun eq_refl eq_refl) as [_ ->]; [vm_compute; discriminate|reflexivity|exact Hstep|].
  eexists _, _, c'. split; [exact Hrun|exact Hstep].
Defined.

Lemma only_eligible_files_opened_witness :
  OpenChangedFiles.shouldOpenFile (H := Posix.host) "/w/a.js" = true.
Proof.
  destruct (OpenChangedFiles.run (H := Posix.host) true (OpenChangedFiles.initial 0)
              burst_of_three) as [[c log]|] eqn:Hrun; [|vm_compute in Hrun; discriminate].
  pose proof Hrun as Hc. vm_compute in Hc. injection Hc as <- <-.
  refine (proj2 (OpenChangedFilesMore.only_eligible_files_opened (H := Posix.host) true
                   0 burst_of_three _ _ (OpenTextDocument (fileUri "/w/a.js"))
                   (fileUri "/w/a.js") Hrun _ eq_refl)).
  apply list_elem_of_In. vm_compute. auto 20.
Defined.

Lemma debounce_through_other_events_witness :
  exists c c' log log',
    OpenChangedFiles.run (H := Posix.host) true (OpenChangedFiles.initial 0) one_change
    = Some (c, log)
    /\ OpenChangedFiles.run (H := Posix.host) true c other_events = Some (c', log')
    /\ OpenChangedFiles.recentChecks (OpenChangedFiles.store c') !! "/w/a.js"
       = Some 1000.
Proof.
  destruct (OpenChangedFiles.run (H := Posix.host) true (OpenChangedFiles.initial 0)
              one_change) as [[c log]|] eqn:Hrun; [|vm_compute in Hrun; discriminate].
  pose proof Hrun as Hc. vm_compute in Hc. injection Hc as <- <-.
  match type of Hrun with _ = Some (?c, _) =>
    destruct (OpenChangedFiles.run (H := Posix.host) true c other_events)
      as [[c' log']|] eqn:Hrest; [|vm_compute in Hrest; discriminate]
  end.
  eexists _, c', _, log'. split; [exact Hrun|]. split; [exact Hrest|].
  refine (proj1 (OpenChangedFilesMore.debounce_through_other_events (H := Posix.host)
                   true "/w/a.js" 1000 other_events _ c' log' _ _ _ Hrest));
    [reflexivity|discriminate|reflexivity].
Defined.

Lemma under_ignored_dir_skipped_witness :
  OpenChangedFiles.shouldOpenFile (H := Posix.host) "/w/Node_Modules/x/index.js"
  = false.
Proof.
  refine (proj1 (proj2 (Segments.under_ignored_dir_skipped (H := Posix.host) true
                          "/w" "Node_Modules" "x/index.js" _ (at_time 0)
                          (fileUri "/w/Node_Modules/x/index.js")
                          OpenChangedFiles.emptyStore _ eq_refl (or_introl eq_refl)
                          eq_refl))).
  apply (bool_decide_unpack _). vm_compute. exact I.
Defined.

Lemma under_excluded_dir_denied_witness :
  CursorAutoOpen.shouldAutoOpen (H := Posix.host) (fileUri "/w/app/Vendor/lib/a.php")
  = false.
Proof.
  refine (proj1 (Segments.under_excluded_dir_denied (H := Posix.host)
                   "app" "Vendor" "lib/a.php" (fileUri "/w/app/Vendor/lib/a.php")
                   (at_time 0) CursorAutoOpen.activated _ eq_refl (or_introl eq_refl))).
  apply (bool_decide_unpack _). vm_compute. exact I.
Defined.

Lemma open_file_ladder_bounded_witness :
  (opens (CursorAutoOpenRuns.settle editor_refuses (fileUri "/w/src/a.ts")
            (CursorAutoOpen.Await CursorAutoOpen.AwaitAccess)
            CursorAutoOpen.activated).2 <= 5)%nat.
Proof.
  refine (proj1 (proj2 (CursorAutoOpenMore.open_file_ladder_bounded editor_refuses
                          (fileUri "/w/src/a.ts") CursorAutoOpen.AwaitAccess
                          CursorAutoOpen.activated _))).
  simpl. lia.
Defined.

Lemma ladder_marks_only_on_success_witness :
  (CursorAutoOpenRuns.settle command_succeeds (fileUri "/w/src/a.ts")
     (CursorAutoOpen.Await CursorAutoOpen.AwaitOpenDelay) CursorAutoOpen.activated).1.1
  = CursorAutoOpen.markOpened "/w/src/a.ts" CursorAutoOpen.activated
  /\ (CursorAutoOpenRuns.settle document_opens_show_fails (fileUri "/w/src/a.ts")
        (CursorAutoOpen.Await CursorAutoOpen.AwaitOpenDelay) CursorAutoOpen.activated).1.1
     = CursorAutoOpen.activated.
Proof.
  split.
  - destruct (CursorAutoOpenMore.ladder_marks_only_on_success command_succeeds
                (fileUri "/w/src/a.ts") CursorAutoOpen.AwaitOpenDelay
                CursorAutoOpen.activated eq_refl) as (Hiff & Hmark & _).
    apply Hmark, Hiff.
    exists [ (at_time 300, Resolved 0) ], (at_time 301), 0, [],
      CursorAutoOpen.AwaitCommand.
    repeat split; reflexivity.
  - destruct (CursorAutoOpenMore.ladder_marks_only_on_success document_opens_show_fails
                (fileUri "/w/src/a.ts") CursorAutoOpen.AwaitOpenDelay
                CursorAutoOpen.activated eq_refl) as (_ & _ & Hkeep & _).
    apply Hkeep. vm_compute. discriminate.
Defined.

Lemma in_memory_marked_before_shown_witness :
  let p := "/w/src/a.ts" in
  let seg := CursorAutoOpenRuns.settle
               [ (loaded 6000 p, Resolved 10); (loaded 6001 p, Rejected "no editor");
                 (loaded 6002 p, Rejected "no command") ]
               (fileUri p) (CursorAutoOpen.Await CursorAutoOpen.AwaitStat)
               CursorAutoOpen.activated in
  seg.1.1 = CursorAutoOpen.markOpened p CursorAutoOpen.activated
  /\ seg.1.2 = CursorAutoOpen.Return CursorAutoOpen.GaveUp.
Proof.
  intros p seg.
  destruct (CursorAutoOpenMore.in_memory_marked_before_shown (loaded 6000 p)
              (Resolved 10)
              [ (loaded 6001 p, Rejected "no editor");
                (loaded 6002 p, Rejected "no command") ]
              (fileUri p) (fileUri p) CursorAutoOpen.activated
              eq_refl (or_introl eq_refl) eq_refl eq_refl eq_refl) as [Hg Hn].
  split; [exact Hg|]. exact (Hn _ _ _ _ _ eq_refl).
Defined.

Lemma open_file_prechecks_witness :
  (CursorAutoOpenRuns.settle
     [ (at_time 0, Resolved 0); (at_time 1, Resolved 52428800);
       (at_time 301, Resolved 0) ]
     (fileUri "/w/src/a.ts") (CursorAutoOpen.Await CursorAutoOpen.AwaitAccess)
     CursorAutoOpen.activated).2
  = [ FsStat "/w/src/a.ts"; ExecuteOpen (fileUri "/w/src/a.ts") ].
Proof.
  destruct (proj2 (proj2 (CursorAutoOpenMore.open_file_prechecks (at_time 0) (at_time 1)
                            [ (at_time 301, Resolved 0) ] (fileUri "/w/src/a.ts")
                            CursorAutoOpen.activated))
              0 (Resolved 52428800)) as (_ & _ & _ & Hopen).
  - simpl. lia.
  - apply (Hopen (fun doc Hin => False_ind _ Hin) (at_time 301) (Resolved 0) []).
    reflexivity.
Defined.

Lemma suppression_lasts_cooldown_witness :
  exists c log,
    CursorAutoOpen.run (H := Posix.host) (CursorAutoOpen.initial 0) install_started
    = Some (c, log)
    /\ (snd <$> CursorAutoOpen.step (H := Posix.host) c (at_time 30999)
                  (CursorAutoOpen.FileCreated (fileUri "/w/src/a.ts"))) = Some [].
Proof.
  destruct (CursorAutoOpen.run (H := Posix.host) (CursorAutoOpen.initial 0)
              install_started) as [[c log]|] eqn:Hrun; [|vm_compute in Hrun; discriminate].
  exists c, log. split; [reflexivity|].
  destruct (CursorAutoOpen.step (H := Posix.host) c (at_time 30999)
              (CursorAutoOpen.FileCreated (fileUri "/w/src/a.ts")))
    as [[c' calls]|] eqn:Hstep.
  - destruct (CursorAutoOpenMore.suppression_lasts_cooldown (H := Posix.host) 0
                install_started c log 1000 (at_time 30999)
                (CursorAutoOpen.FileCreated (fileUri "/w/src/a.ts")) c' calls
                Hrun eq_refl) as (_ & -> & _); [reflexivity|reflexivity|exact Hstep|reflexivity].
  - vm_compute in Hrun. injection Hrun as <- <-. vm_compute in Hstep. discriminate.
Defined.

Lemma one_cooldown_timer_witness :
  exists c log,
    CursorAutoOpen.run (H := Posix.host) (CursorAutoOpen.initial 0) install_started
    = Some (c, log)
    /\ (size (CursorAutoOpen.timeouts c) <= 1)%nat.
Proof.
  destruct (CursorAutoOpen.run (H := Posix.host) (CursorAutoOpen.initial 0)
              install_started) as [[c log]|] eqn:Hrun; [|vm_compute in Hrun; discriminate].
  exists c, log. split; [reflexivity|].
  exact (proj1 (CursorAutoOpenMore.one_cooldown_timer (H := Posix.host) 0
                  install_started c log Hrun)).
Defined.

Lemma cooldown_expiry_resumes_witness :
  exists c log c',
    CursorAutoOpen.run (H := Posix.host) (CursorAutoOpen.initial 0) install_started
    = Some (c, log)
    /\ CursorAutoOpen.step (H := Posix.host) c (at_time 31000)
         (CursorAutoOpen.CooldownElapsed 0) = Some (c', [])
    /\ CursorAutoOpen.isPackageManagerRunning (CursorAutoOpen.globals c') = false.
Proof.
  destruct (CursorAutoOpen.run (H := Posix.host) (CursorAutoOpen.initial 0)
              install_started) as [[c log]|] eqn:Hrun; [|vm_compute in Hrun; discriminate].
  pose proof Hrun as Hc. vm_compute in Hc. injection Hc as <- <-.
  match type of Hrun with _ = Some (?c, _) =>
    destruct (CursorAutoOpen.step (H := Posix.host) c (at_time 31000)
                (CursorAutoOpen.CooldownElapsed 0))
      as [[c' calls]|] eqn:Hstep; [|vm_compute in Hstep; discriminate]
  end.
  destruct (CursorAutoOpenMore.cooldown_expiry_resumes (H := Posix.host) 0
              install_started _ _ (at_time 31000) 0%nat c' calls Hrun Hstep)
    as (Hoff & _ & -> & _).
  eexists _, _, c'. split; [exact Hrun|]. split; [exact Hstep|exact Hoff].
Defined.

Lemma decisions_ignore_bookkeeping_witness :
  exists r1 r2,
    CursorAutoOpen.run (H := Posix.host) (CursorAutoOpen.initial 0) change_then_install
    = Some r1
    /\ CursorAutoOpen.run (H := Posix.host) withBookkeeping change_then_install
       = Some r2
    /\ r1.2 = r2.2.
Proof.
  destruct (CursorAutoOpen.run (H := Posix.host) (CursorAutoOpen.initial 0)
              change_then_install) as [r1|] eqn:Hrun; [|vm_compute in Hrun; discriminate].
  destruct (CursorAutoOpenMore.decisions_ignore_bookkeeping (H := Posix.host)
              change_then_install (CursorAutoOpen.initial 0) withBookkeeping r1)
    as (r2 & Hr2 & _ & Hlog); [repeat split|exact Hrun|].
  exists r1, r2. split; [reflexivity|]. split; [exact Hr2|exact Hlog].
Defined.

Lemma debounce_entry_never_evicted_witness :
  exists c log c' log',
    CursorAutoOpen.run (H := Posix.host) (CursorAutoOpen.initial 0)
      [ (at_time 5000, CursorAutoOpen.FileChanged (fileUri "/w/src/a.ts")) ]
    = Some (c, log)
    /\ CursorAutoOpen.run (H := Posix.host) c
         [ (at_time 5100, CursorAutoOpen.PackageActivity "package.json");
           (at_time 5200, CursorAutoOpen.Deactivate) ] = Some (c', log')
    /\ CursorAutoOpen.lastCheckedFiles (CursorAutoOpen.globals c') !! "/w/src/a.ts"
       = Some 5000.
Proof.
  destruct (CursorAutoOpen.run (H := Posix.host) (CursorAutoOpen.initial 0)
              [ (at_time 5000, CursorAutoOpen.FileChanged (fileUri "/w/src/a.ts")) ])
    as [[c log]|] eqn:Hrun; [|vm_compute in Hrun; discriminate].
  pose proof Hrun as Hc. vm_compute in Hc. injection Hc as <- <-.
  match type of Hrun with _ = Some (?c, _) =>
    destruct (CursorAutoOpen.run (H := Posix.host) c
                [ (at_time 5100, CursorAutoOpen.PackageActivity "package.json");
                  (at_time 5200, CursorAutoOpen.Deactivate) ])
      as [[c' log']|] eqn:Hrest; [|vm_compute in Hrest; discriminate]
  end.
  eexists _, _, c', log'. split; [exact Hrun|]. split; [exact Hrest|].
  refine (proj1 (proj2 (CursorAutoOpenMore.debounce_entry_never_evicted
                          (H := Posix.host) "/w/src/a.ts" 5000 _ _ c' log' _ Hrest) _));
    reflexivity.
Defined.

Lemma only_classified_files_opened_witness :
  exists uri,
    CursorAutoOpen.shouldAutoOpen (H := Posix.host) uri = true
    /\ "/w/src/a.ts" = fsPath uri.
Proof.
  destruct (CursorAutoOpen.run (H := Posix.host) (CursorAutoOpen.initial 0)
              create_and_open) as [[c log]|] eqn:Hrun; [|vm_compute in Hrun; discriminate].
  pose proof Hrun as Hc. vm_compute in Hc. injection Hc as <- <-.
  refine (CursorAutoOpenMore.only_classified_files_opened (H := Posix.host) 0
            create_and_open _ _ (ExecuteOpen (fileUri "/w/src/a.ts"))
            (fileUri "/w/src/a.ts") Hrun _ eq_refl).
  apply list_elem_of_In. vm_compute. auto 20.
Defined.

Lemma open_requests_bounded_by_events_witness :
  exists c log,
    CursorAutoOpen.run (H := Posix.host) (CursorAutoOpen.initial 0) create_and_open
    = Some (c, log)
    /\ (opens log <= 5)%nat.
Proof.
  destruct (CursorAutoOpen.run (H := Posix.host) (CursorAutoOpen.initial 0)
              create_and_open) as [[c log]|] eqn:Hrun; [|vm_compute in Hrun; discriminate].
  exists c, log. split; [reflexivity|].
  exact (proj1 (CursorAutoOpenMore.open_requests_bounded_by_events (H := Posix.host) 0
                  create_and_open c log Hrun)).
Defined.

Lemma ledger_purge_witness :
  let st' := (OpenChangedFiles.handleFileChange (H := Posix.host) true (at_time 20000)
                (fileUri "/w/a.js") crowded).1 in
  size (OpenChangedFiles.recentChecks crowded) = 103%nat
  /\ size (OpenChangedFiles.recentChecks st') = 3%nat
  /\ forall k v, OpenChangedFiles.recentChecks st' !! k = Some v -> 20000 - v <= 10000.
Proof.
  intros st'. split; [vm_compute; reflexivity|]. split; [vm_compute; reflexivity|].
  destruct (Ledgers.ledger_purge (H := Posix.host) true) as [Hjs _].
  destruct (Hjs (at_time 20000) (fileUri "/w/a.js") crowded st' _
              (surjective_pairing _)) as [Hpurge _].
  - vm_compute. reflexivity.
  - apply Hpurge. apply Nat.ltb_lt. vm_compute. reflexivity.
Defined.

End MoreWitnesses.
